(** * MindWatch analyzer: a shallow embedding of [mindwatch_analyzer.py]

    The development follows the class [MindWatchAnalyzer].  Python values are
    modelled as the interpreter holds them: [int] as [Z], [float] as IEEE
    binary64 (Rocq's primitive floats), numpy [float32] box coordinates as
    [spec_float] at precision 24, dictionaries keyed by strings as [gmap],
    and exceptions as an error result.  OpenCV, the detection backend and the
    [random] module are the environment: what they return is an explicit
    input of the functions that call them. *)

From Stdlib Require Import ZArith Uint63 Floats Lia.
From stdpp Require Import base option list list_numbers gmap strings pretty sorting.

Set Warnings "-inexact-float".
Local Open Scope Z_scope.

(** ** Python runtime *)

Module Py.

(** A Python number is an [int] or a [float]. *)
Inductive num : Type :=
| Int (z : Z)
| Flt (f : float).

(** [float(z)] for an [int] below [2^63] in absolute value, which covers
    every frame index and every count of a run; exact for [|z| < 2^53].
    From [2^63] on the machine integer wraps, where Python still converts
    (and raises OverflowError from [2^1024] on): such values are outside
    what this function describes. *)
Definition float_of_Z (z : Z) : float :=
  if z <? 0 then PrimFloat.opp (PrimFloat.of_uint63 (Uint63.of_Z (- z)))
  else PrimFloat.of_uint63 (Uint63.of_Z z).

Definition to_float (n : num) : float :=
  match n with
  | Int z => float_of_Z z
  | Flt f => f
  end.

Definition is_zero (n : num) : bool :=
  match n with
  | Int z => z =? 0
  | Flt f => PrimFloat.eqb f PrimFloat.zero
  end.

(** [a > b] on numbers. *)
Definition gtb (a b : num) : bool :=
  match a, b with
  | Int x, Int y => y <? x
  | _, _ => PrimFloat.ltb (to_float b) (to_float a)
  end.

Inductive exn : Type :=
| ZeroDivisionError
| ValueError
| BackendError.

Inductive result (A : Type) : Type :=
| Ok (a : A)
| Raise (e : exn).
Global Arguments Ok {A} a.
Global Arguments Raise {A} e.

Global Instance result_ret : MRet result := λ A a, Ok a.
Global Instance result_bind : MBind result := λ A B k r,
  match r with
  | Ok a => k a
  | Raise e => Raise e
  end.

(** [try: body  except Exception: handler] *)
Definition try_except {A} (body : result A) (handler : exn → result A) : result A :=
  match body with
  | Ok a => Ok a
  | Raise e => handler e
  end.

(** True division [a / b]: raises on a zero divisor, otherwise divides
    the operands as floats.  For two ints Python rounds the exact
    quotient, which is the same float as long as both are below [2^53]. *)
Definition truediv (a b : num) : result float :=
  if is_zero b then Raise ZeroDivisionError
  else Ok (PrimFloat.div (to_float a) (to_float b)).

(** Remainder [a % b] on ints: it takes the sign of the divisor, as
    [Z.modulo] does, and raises on a zero divisor.  Floor division by a
    non-zero literal, [a // 2], is [Z.div]. *)
Definition pymod (a b : Z) : result Z :=
  if b =? 0 then Raise ZeroDivisionError else Ok (a mod b).

(** [str.strip()] leaves a non-empty string exactly when some character
    is not white space.  A string is the sequence of its code points, each
    below 256; the white space of [str.isspace()] among these is 9 to 13,
    28 to 32, 133 (NEL) and 160 (NO-BREAK SPACE).  Strings with a code
    point from 256 on are not represented. *)
Definition is_space (c : Ascii.ascii) : bool :=
  let n := Ascii.nat_of_ascii c in
  ((9 <=? n) && (n <=? 13) || (28 <=? n) && (n <=? 32) || (n =? 133) || (n =? 160))%nat.
Fixpoint strip_nonempty (s : string) : bool :=
  match s with
  | EmptyString => false
  | String c s' => negb (is_space c) || strip_nonempty s'
  end.

(** [Counter(xs)] *)
Definition Counter (xs : list string) : gmap string nat :=
  foldl (λ m a, <[a := S (default 0%nat (m !! a))]> m) ∅ xs.

End Py.
Import Py.

(** ** Data model *)

(** One entry of [results['predictions']]. *)
Record prediction : Type := {
  pred_class : string;
  pred_confidence : float;
  pred_x : num;
  pred_y : num;
  pred_width : num;
  pred_height : num;
  pred_x1 : num;
  pred_y1 : num;
  pred_x2 : num;
  pred_y2 : num
}.

(** A [results] dictionary: [None] stands for a falsy value or a dictionary
    without the key ['predictions'], [Some ps] for [{'predictions': ps}]. *)
Definition results : Type := option (list prediction).

Record position : Type := {
  pos_x : num;
  pos_y : num;
  pos_width : num;
  pos_height : num
}.

(** One entry of a student's timeline in [student_tracks]. *)
Record track : Type := {
  track_frame : Z;
  track_timestamp : float;
  track_activity : string;
  track_confidence : float;
  track_position : position
}.

(** One entry of [detection_results]. *)
Record frame_record : Type := {
  rec_frame : Z;
  rec_timestamp : float;
  rec_detections : results
}.

Definition attentive_activities : list string :=
  ["listening"; "reading"; "writing"].
Definition distracted_activities : list string :=
  ["sleeping"; "using_mobile"; "turn"; "turning"].

Definition default_class_names : gmap Z string :=
  list_to_map [(0, "listening"); (1, "reading"); (2, "sleeping"); (3, "student");
               (4, "turn"); (5, "using_mobile"); (6, "writing")].

(** [sum(1 for activity in activities if activity in group)] *)
Definition count_in (group activities : list string) : nat :=
  length (filter (λ a, a ∈ group) activities).

(** [(count / total * 100) if total > 0 else 0], the expression of
    [engagement_rate], [attentive_percentage] and [distracted_percentage]. *)
Definition percentage (count total : nat) : num :=
  if (0 <? total)%nat
  then Flt (PrimFloat.mul
              (PrimFloat.div (float_of_Z (Z.of_nat count)) (float_of_Z (Z.of_nat total)))
              (float_of_Z 100))
  else Int 0.

(** The percentages of one total, checked in bulk.  [percent_of count
    ftotal] is [count / total * 100] for a count held as a machine integer
    and a total already converted to a float.  [percents_increase_from]
    checks that the percentages of [count + 1], [count + 2], ... of that
    total, [steps] of them, increase strictly, starting above [prev];
    [percents_increase] checks this for the counts 0 to [total] of each of
    [totals] consecutive totals. *)
Definition percent_of (count : PrimInt63.int) (ftotal : float) : float :=
  PrimFloat.mul (PrimFloat.div (PrimFloat.of_uint63 count) ftotal) 100%float.

Fixpoint percents_increase_from (steps : nat) (prev : float) (count : PrimInt63.int)
    (ftotal : float) : bool :=
  match steps with
  | O => true
  | S steps' =>
      let count' := PrimInt63.add count 1%uint63 in
      let next := percent_of count' ftotal in
      if PrimFloat.ltb prev next
      then percents_increase_from steps' next count' ftotal
      else false
  end.

Fixpoint percents_increase (totals : nat) (steps : nat) (total : PrimInt63.int) : bool :=
  match totals with
  | O => true
  | S totals' =>
      let ftotal := PrimFloat.of_uint63 total in
      if percents_increase_from steps (percent_of 0%uint63 ftotal) 0%uint63 ftotal
      then percents_increase totals' (S steps) (PrimInt63.add total 1%uint63)
      else false
  end.

(** The longest timeline on which the percentages have been checked. *)
Definition checked_timeline_length : Z := 10000.

(** ** Image summary *)

Record image_stats : Type := {
  total_students : nat;
  attentive_students : nat;
  distracted_students : nat;
  engagement_rate : num;
  image_activity_breakdown : gmap string nat
}.

Inductive image_summary : Type :=
| ImageError (error : string)
| ImageSummary (stats : image_stats).

(** The wall-clock ['timestamp'] of the summaries is left out. *)
Definition generate_image_summary (res : results) : image_summary :=
  match res with
  | None => ImageError "No detections found"
  | Some predictions =>
      let activities := pred_class <$> predictions in
      let activity_counts := Counter activities in
      let total_students := length predictions in
      let attentive_count := count_in attentive_activities activities in
      let distracted_count := count_in distracted_activities activities in
      ImageSummary {|
        total_students := total_students;
        attentive_students := attentive_count;
        distracted_students := distracted_count;
        engagement_rate := percentage attentive_count total_students;
        image_activity_breakdown := activity_counts
      |}
  end.

(** ** Per-student analysis of the video summary *)

Record student_report : Type := {
  total_detections : nat;
  attentive_percentage : num;
  distracted_percentage : num;
  classification : string;
  activity_breakdown : gmap string nat;
  timeline : list track
}.

(** The body of the loop over [student_tracks.items()]. *)
Definition analyze_student (tracks : list track) : student_report :=
  let activities := track_activity <$> tracks in
  let activity_counts := Counter activities in
  let total_detections := length tracks in
  let attentive_detections := count_in attentive_activities activities in
  let distracted_detections := count_in distracted_activities activities in
  let attentive_percentage := percentage attentive_detections total_detections in
  let distracted_percentage := percentage distracted_detections total_detections in
  let classification :=
    if gtb attentive_percentage distracted_percentage
    then "Attentive" else "Distracted" in
  {| total_detections := total_detections;
     attentive_percentage := attentive_percentage;
     distracted_percentage := distracted_percentage;
     classification := classification;
     activity_breakdown := activity_counts;
     timeline := tracks |}.

(** ** The analyzer object *)

Record analyzer : Type := {
  model : bool;                      (* truth value of [self.model] *)
  model_type : string;
  class_names : gmap Z string;
  student_tracks : gmap string (list track);
  frame_count : Z;
  fps : num;
  detection_results : list frame_record;
  student_summaries : gmap string student_report
}.

(** What loading the weights in [__init__] came to. *)
Inductive load_outcome : Type :=
| LoadedYolov8 (names : option (gmap Z string))
| LoadedYolov5 (names : option (gmap Z string))
| NotLoaded.

Definition init (o : load_outcome) : analyzer :=
  let '(m, ty, names) :=
    match o with
    | LoadedYolov8 names => (true, "yolov8", names)
    | LoadedYolov5 names => (true, "yolov5", names)
    | NotLoaded => (false, "mock", None)
    end in
  {| model := m;
     model_type := ty;
     class_names := default default_class_names names;
     student_tracks := ∅;
     frame_count := 0;
     fps := Int 30;
     detection_results := [];
     student_summaries := ∅ |}.

Definition set_student_tracks (self : analyzer) (t : gmap string (list track)) : analyzer :=
  {| model := model self; model_type := model_type self; class_names := class_names self;
     student_tracks := t;
     frame_count := frame_count self; fps := fps self;
     detection_results := detection_results self;
     student_summaries := student_summaries self |}.

Definition set_fps (self : analyzer) (f : num) : analyzer :=
  {| model := model self; model_type := model_type self; class_names := class_names self;
     student_tracks := student_tracks self;
     frame_count := frame_count self; fps := f;
     detection_results := detection_results self;
     student_summaries := student_summaries self |}.

Definition set_detection_results (self : analyzer) (rs : list frame_record) : analyzer :=
  {| model := model self; model_type := model_type self; class_names := class_names self;
     student_tracks := student_tracks self;
     frame_count := frame_count self; fps := fps self;
     detection_results := rs;
     student_summaries := student_summaries self |}.

(** ** Tracking *)

(** [f"student_{i}"] *)
Definition student_id (i : nat) : string := "student_" +:+ pretty i.

Definition track_entry (frame_number : Z) (timestamp : float) (p : prediction) : track :=
  {| track_frame := frame_number;
     track_timestamp := timestamp;
     track_activity := pred_class p;
     track_confidence := pred_confidence p;
     track_position := {| pos_x := pred_x p; pos_y := pred_y p;
                          pos_width := pred_width p; pos_height := pred_height p |} |}.

(** The loop [for i, prediction in enumerate(results['predictions'])],
    entered at index [i].  [student_tracks] is a [defaultdict(list)]: a
    missing key reads as the empty list.  The division raises when fps is
    zero; the dictionary an exception leaves behind is not modelled. *)
Fixpoint track_predictions (fps : num) (frame_number : Z) (i : nat)
    (predictions : list prediction) (tracks : gmap string (list track))
    : result (gmap string (list track)) :=
  match predictions with
  | [] => Ok tracks
  | p :: rest =>
      timestamp ← truediv (Int frame_number) fps;
      track_predictions fps frame_number (S i) rest
        (<[student_id i :=
             default [] (tracks !! student_id i) ++ [track_entry frame_number timestamp p]]>
           tracks)
  end.

Definition update_tracking (self : analyzer) (res : results) (frame_number : Z)
    : result analyzer :=
  match res with
  | None => Ok self
  | Some predictions =>
      tracks ← track_predictions (fps self) frame_number 0 predictions (student_tracks self);
      Ok (set_student_tracks self tracks)
  end.

(** ** Video summary *)

Record video_stats : Type := {
  video_duration : num;
  total_frames_analyzed : nat;
  students_tracked : nat;
  student_analysis : gmap string student_report
}.

Inductive video_summary : Type :=
| VideoError (error : string)
| VideoSummary (stats : video_stats).

(** [if not tracks: continue] *)
Definition nonempty_slot (kv : string * list track) : Prop := kv.2 ≠ [].
Global Instance nonempty_slot_dec kv : Decision (nonempty_slot kv).
Proof. unfold nonempty_slot. apply _. Defined.

Definition generate_video_summary (self : analyzer) : video_summary :=
  match detection_results self with
  | [] => VideoError "No detection results available"
  | _ :: _ =>
      let student_analysis :=
        analyze_student <$> filter nonempty_slot (student_tracks self) in
      let total_frames := length (detection_results self) in
      let total_duration :=
        if gtb (fps self) (Int 0)
        then Flt (PrimFloat.div (float_of_Z (Z.of_nat total_frames)) (to_float (fps self)))
        else Int 0 in
      VideoSummary {|
        video_duration := total_duration;
        total_frames_analyzed := total_frames;
        students_tracked := size student_analysis;
        student_analysis := student_analysis
      |}
  end.

Definition reset_analysis (self : analyzer) : analyzer :=
  {| model := model self; model_type := model_type self; class_names := class_names self;
     student_tracks := ∅;
     frame_count := 0;
     fps := fps self;
     detection_results := [];
     student_summaries := ∅ |}.

(** ** Detection *)

(** The array [cv2.imread] returns, by its shape. *)
Record image : Type := {
  img_height : Z;
  img_width : Z
}.

Module Random.

(** [random.randint(a, b)] on the raw draw [r]: a value of [[a, b]], and
    [ValueError] on an empty range. *)
Definition randint (a b r : Z) : result Z :=
  if b <? a then Raise ValueError else Ok (a + r mod (b - a + 1)).

(** [random.choice(xs)] on the raw draw [r], for a non-empty [xs]. *)
Definition choice (xs : list string) (r : Z) : string :=
  default "" (xs !! Z.to_nat (r mod Z.of_nat (length xs))).

(** [random.uniform(a, b)] is [a + (b - a) * random()]; [u] is the value
    of [random()]. *)
Definition uniform (a b u : float) : float :=
  PrimFloat.add a (PrimFloat.mul (PrimFloat.sub b a) u).

(** The draws of one iteration of the loop of [mock_detection]. *)
Record box_draw : Type := {
  draw_x : Z;
  draw_y : Z;
  draw_w : Z;
  draw_h : Z;
  draw_activity : Z;
  draw_confidence : float
}.

(** The draws of one call of [mock_detection]. *)
Record draws : Type := {
  draw_count : Z;
  draw_boxes : nat → box_draw
}.

End Random.
Import Random.

Definition mock_activities : list string :=
  ["listening"; "reading"; "writing"; "sleeping"; "using_mobile"; "turn"].

(** One iteration of [for i in range(num_detections)]. *)
Definition mock_box (width height : Z) (d : box_draw) : result prediction :=
  x_center ← randint 100 (width - 100) (draw_x d);
  y_center ← randint 100 (height - 100) (draw_y d);
  w ← randint 80 150 (draw_w d);
  h ← randint 120 200 (draw_h d);
  let x1 := x_center - w / 2 in
  let y1 := y_center - h / 2 in
  let x2 := x_center + w / 2 in
  let y2 := y_center + h / 2 in
  let activity := choice mock_activities (draw_activity d) in
  let confidence := uniform 0.6%float 0.95%float (draw_confidence d) in
  Ok {| pred_class := activity;
        pred_confidence := confidence;
        pred_x := Int x_center;
        pred_y := Int y_center;
        pred_width := Int w;
        pred_height := Int h;
        pred_x1 := Int x1;
        pred_y1 := Int y1;
        pred_x2 := Int x2;
        pred_y2 := Int y2 |}.

Fixpoint mock_boxes (width height : Z) (boxes : nat → box_draw) (i n : nat)
    : result (list prediction) :=
  match n with
  | O => Ok []
  | S n' =>
      p ← mock_box width height (boxes i);
      rest ← mock_boxes width height boxes (S i) n';
      Ok (p :: rest)
  end.

(** [img] is what [cv2.imread(image_path)] returns. *)
Definition mock_detection (img : option image) (d : draws) : result results :=
  match img with
  | None => Ok (Some [])
  | Some im =>
      num_detections ← randint 2 5 (draw_count d);
      detections ← mock_boxes (img_width im) (img_height im) (draw_boxes d)
                      0 (Z.to_nat num_detections);
      Ok (Some detections)
  end.

(** numpy [float32] arithmetic, rounded to nearest even. *)
Module F32.
Definition t : Type := spec_float.
Definition prec : Z := 24.
Definition emax : Z := 128.
Definition add : t → t → t := SFadd prec emax.
Definition sub : t → t → t := SFsub prec emax.
Definition div : t → t → t := SFdiv prec emax.
Definition of_Z (z : Z) : t := binary_normalize prec emax z 0 false.
(** [float(v)]: every [float32] is a binary64 value. *)
Definition to_float (v : t) : float := SF2Prim v.
End F32.

(** One row of [result.boxes]: [xyxy], [conf] and [cls] (cast to [int]). *)
Record yolo_box : Type := {
  box_x1 : F32.t;
  box_y1 : F32.t;
  box_x2 : F32.t;
  box_y2 : F32.t;
  box_conf : F32.t;
  box_cls : Z
}.

(** [self.class_names.get(cls, f"class_{cls}")] *)
Definition class_name_of (self : analyzer) (cls : Z) : string :=
  default ("class_" +:+ pretty cls) (class_names self !! cls).

Definition parse_yolov8_box (self : analyzer) (b : yolo_box) : prediction :=
  let x_center := F32.div (F32.add (box_x1 b) (box_x2 b)) (F32.of_Z 2) in
  let y_center := F32.div (F32.add (box_y1 b) (box_y2 b)) (F32.of_Z 2) in
  let width := F32.sub (box_x2 b) (box_x1 b) in
  let height := F32.sub (box_y2 b) (box_y1 b) in
  {| pred_class := class_name_of self (box_cls b);
     pred_confidence := F32.to_float (box_conf b);
     pred_x := Flt (F32.to_float x_center);
     pred_y := Flt (F32.to_float y_center);
     pred_width := Flt (F32.to_float width);
     pred_height := Flt (F32.to_float height);
     pred_x1 := Flt (F32.to_float (box_x1 b));
     pred_y1 := Flt (F32.to_float (box_y1 b));
     pred_x2 := Flt (F32.to_float (box_x2 b));
     pred_y2 := Flt (F32.to_float (box_y2 b)) |}.

(** [boxes] is [result.boxes], [None] when it is [None]. *)
Definition parse_yolov8_results (self : analyzer) (boxes : option (list yolo_box)) : results :=
  match boxes with
  | None => Some []
  | Some bs => Some (parse_yolov8_box self <$> bs)
  end.

(** One row of the data frame [results.pandas().xyxy[0]].  [row_class] is
    the value of the column ['class'] as a dictionary key and
    [row_class_text] is how an f-string prints it ([9] for an integer
    column, [9.0] for a float column); [row_name] is [None] for a data
    frame without the column ['name']. *)
Record yolov5_row : Type := {
  row_xmin : float;
  row_ymin : float;
  row_xmax : float;
  row_ymax : float;
  row_confidence : float;
  row_class : Z;
  row_class_text : string;
  row_name : option string
}.

Definition parse_yolov5_row (self : analyzer) (r : yolov5_row) : prediction :=
  let x_center := PrimFloat.div (PrimFloat.add (row_xmin r) (row_xmax r)) (float_of_Z 2) in
  let y_center := PrimFloat.div (PrimFloat.add (row_ymin r) (row_ymax r)) (float_of_Z 2) in
  let width := PrimFloat.sub (row_xmax r) (row_xmin r) in
  let height := PrimFloat.sub (row_ymax r) (row_ymin r) in
  {| pred_class :=
       default (default ("class_" +:+ row_class_text r) (class_names self !! row_class r))
               (row_name r);
     pred_confidence := row_confidence r;
     pred_x := Flt x_center;
     pred_y := Flt y_center;
     pred_width := Flt width;
     pred_height := Flt height;
     pred_x1 := Flt (row_xmin r);
     pred_y1 := Flt (row_ymin r);
     pred_x2 := Flt (row_xmax r);
     pred_y2 := Flt (row_ymax r) |}.

Definition parse_yolov5_results (self : analyzer) (rows : list yolov5_row) : results :=
  Some (parse_yolov5_row self <$> rows).

(** What the environment answers during one call of [detect_objects]:
    the image at [image_path], the reply of [self.model(...)] for either
    backend ([Raise] when the call raises), and the draws of the first and
    of the second call of [mock_detection]. *)
Record detect_env : Type := {
  env_image : option image;
  env_yolov8 : result (option (list yolo_box));
  env_yolov5 : result (list yolov5_row);
  env_draws : draws;
  env_retry_draws : draws
}.

Definition detect_objects (self : analyzer) (env : detect_env) : result results :=
  try_except
    (if bool_decide (model_type self = "yolov8") && model self then
       boxes ← env_yolov8 env;
       Ok (parse_yolov8_results self boxes)
     else if bool_decide (model_type self = "yolov5") && model self then
       rows ← env_yolov5 env;
       Ok (parse_yolov5_results self rows)
     else
       mock_detection (env_image env) (env_draws env))
    (λ _, mock_detection (env_image env) (env_retry_draws env)).

(** [results and results.get('predictions')] *)
Definition has_predictions (res : results) : bool :=
  match res with
  | Some (_ :: _) => true
  | _ => false
  end.

(** [output_path and output_path.strip()] *)
Definition writes_output (output_path : option string) : bool :=
  match output_path with
  | Some p => strip_nonempty p
  | None => false
  end.

(** Drawing the overlay and writing files do not touch the analyzer; they
    are left out.  The result is the tuple the function returns. *)
Definition process_single_image (self : analyzer) (env : detect_env)
    (output_path : option string)
    : result (option string * option results * option image_summary) :=
  res ← detect_objects self env;
  if negb (has_predictions res) then Ok (None, None, None)
  else
    match env_image env with
    | None => Ok (None, None, None)
    | Some _ =>
        let summary := generate_image_summary res in
        Ok (output_path, Some res, Some summary)
    end.

(** ** Video processing *)

(** A video source as [cv2.VideoCapture] presents it: the properties it
    reports and the frames [cap.read()] delivers, each with what the
    environment answers when that frame is handed to [detect_objects]. *)
Record video : Type := {
  video_fps : float;
  video_width : Z;
  video_height : Z;
  video_frame_count : Z;
  video_frames : list detect_env
}.

(** The variables of the [while True] loop.  [loop_detected] lists the
    frame numbers handed to [detect_objects] and [loop_progress] the values
    handed to [progress_callback], both in call order. *)
Record loop_state : Type := {
  loop_self : analyzer;
  loop_processed_frames : Z;
  loop_detected : list Z;
  loop_progress : list float
}.

(** The body of [if frame_number % sample_rate == 0]. *)
Definition process_sampled_frame (total_frames : Z) (progress_callback : bool)
    (env : detect_env) (frame_number : Z) (st : loop_state) : result loop_state :=
  let self := loop_self st in
  res ← detect_objects self env;
  self' ← (if has_predictions res then
             tracked ← update_tracking self res frame_number;
             timestamp ← truediv (Int frame_number) (fps tracked);
             Ok (set_detection_results tracked
                   (detection_results tracked ++
                      [{| rec_frame := frame_number;
                          rec_timestamp := timestamp;
                          rec_detections := res |}]))
           else Ok self);
  let processed_frames := loop_processed_frames st + 1 in
  reported ← (if progress_callback && (processed_frames mod 10 =? 0) then
                ratio ← truediv (Int frame_number) (Int total_frames);
                Ok [PrimFloat.mul ratio (float_of_Z 100)]
              else Ok []);
  Ok {| loop_self := self';
        loop_processed_frames := processed_frames;
        loop_detected := loop_detected st ++ [frame_number];
        loop_progress := loop_progress st ++ reported |}.

(** The [while True] loop, entered with [frames] still to be read. *)
Fixpoint video_loop (sample_rate total_frames : Z) (progress_callback : bool)
    (frames : list detect_env) (frame_number : Z) (st : loop_state) : result loop_state :=
  match frames with
  | [] => Ok st
  | env :: rest =>
      r ← pymod frame_number sample_rate;
      st' ← (if r =? 0
             then process_sampled_frame total_frames progress_callback env frame_number st
             else Ok st);
      video_loop sample_rate total_frames progress_callback rest (frame_number + 1) st'
  end.

(** What a call of [process_video] leaves: the returned pair, the analyzer
    afterwards, and the calls it made. *)
Record video_run : Type := {
  run_output : option string;
  run_summary : option video_summary;
  run_self : analyzer;
  run_detected : list Z;
  run_progress : list float
}.

(** [source] is [None] when [cap.isOpened()] is false.  An exception
    leaves the function at once; the analyzer it leaves behind is not
    modelled. *)
Definition process_video (self : analyzer) (source : option video)
    (output_path : option string) (sample_rate : Z) (progress_callback : bool)
    : result video_run :=
  match source with
  | None =>
      Ok {| run_output := None; run_summary := None; run_self := self;
            run_detected := []; run_progress := [] |}
  | Some cap =>
      let self := set_fps self (Flt (video_fps cap)) in
      let total_frames := video_frame_count cap in
      _ ← truediv (Int total_frames) (fps self);
      _ ← (if writes_output output_path
           then truediv (fps self) (Int sample_rate)
           else Ok PrimFloat.zero);
      st ← video_loop sample_rate total_frames progress_callback (video_frames cap) 0
             {| loop_self := self; loop_processed_frames := 0;
                loop_detected := []; loop_progress := [] |};
      let summary := generate_video_summary (loop_self st) in
      Ok {| run_output := output_path;
            run_summary := Some summary;
            run_self := loop_self st;
            run_detected := loop_detected st;
            run_progress := loop_progress st |}
  end.

(** ** Runs *)

(** [tracked_from_empty frames self]: [self] is reached from an analyzer
    with no tracks by calling [update_tracking] once for each detection
    list of [frames], in order. *)
Inductive tracked_from_empty : list (list prediction) → analyzer → Prop :=
| tracked_nil self :
    student_tracks self = ∅ →
    tracked_from_empty [] self
| tracked_snoc frames self predictions frame_number self' :
    tracked_from_empty frames self →
    update_tracking self (Some predictions) frame_number = Ok self' →
    tracked_from_empty (frames ++ [predictions]) self'.

(** Length of the timeline of the slot of position [i]; a slot never
    written has none. *)
Definition slot_length (self : analyzer) (i : nat) : nat :=
  length (default [] (student_tracks self !! student_id i)).

(** The number of frames with more than [i] detections. *)
Definition frames_beyond (i : nat) (frames : list (list prediction)) : nat :=
  length (filter (λ f : list prediction, (i < length f)%nat) frames).

(** The frames of a video paired with their frame numbers, counted from
    [start]. *)
Definition numbered (start : Z) (frames : list detect_env) : list (Z * detect_env) :=
  zip (seqZ start (Z.of_nat (length frames))) frames.

(** The frames whose number is a multiple of the stride. *)
Definition sampled_frames (sample_rate start : Z) (frames : list detect_env)
    : list (Z * detect_env) :=
  filter (λ p, p.1 mod sample_rate = 0) (numbered start frames).

(** Detection on the frame returns at least one prediction. *)
Definition detects_something (self : analyzer) (p : Z * detect_env) : bool :=
  match detect_objects self p.2 with
  | Ok res => has_predictions res
  | Raise _ => false
  end.

(** An analyzer of the same configuration: same backend, same classes. *)
Definition same_config (a b : analyzer) : Prop :=
  model a = model b ∧ model_type a = model_type b ∧ class_names a = class_names b.


(** ** Contents of a run *)

(** The timeline stored for the slot of position [i]; a slot never
    written has the empty one. *)
Definition slot_timeline (self : analyzer) (i : nat) : list track :=
  default [] (student_tracks self !! student_id i).

(** A numbered frame on which detection returns at least one prediction,
    with its predictions. *)
Definition analyzed_frame (self : analyzer) (p : Z * detect_env)
    : option (Z * list prediction) :=
  match detect_objects self p.2 with
  | Ok (Some (q :: qs)) => Some (p.1, q :: qs)
  | _ => None
  end.

(** The sampled frames on which detection returns at least one
    prediction, in frame order. *)
Definition analyzed_frames (self : analyzer) (sample_rate start : Z)
    (frames : list detect_env) : list (Z * list prediction) :=
  omap (analyzed_frame self) (sampled_frames sample_rate start frames).

(** [frame_number / self.fps] when fps is not zero. *)
Definition timestamp_of (fps : num) (frame_number : Z) : float :=
  PrimFloat.div (float_of_Z frame_number) (to_float fps).

(** The entry an analyzed frame adds to the slot of position [i], if it
    has that many predictions. *)
Definition slot_entry (fps : num) (i : nat) (f : Z * list prediction) : option track :=
  track_entry f.1 (timestamp_of fps f.1) <$> (f.2 !! i).

(** The record an analyzed frame adds to [detection_results]. *)
Definition record_of (fps : num) (f : Z * list prediction) : frame_record :=
  {| rec_frame := f.1;
     rec_timestamp := timestamp_of fps f.1;
     rec_detections := Some f.2 |}.

(** ** Consumers of the summaries ([routes.py], [utils.py]) *)

(** A summary dictionary as the consumers receive it: the error value
    [{'error': ...}], an image summary or a video summary. *)
Inductive summary_dict : Type :=
| ErrorDict (error : string)
| ImageDict (stats : image_stats)
| VideoDict (stats : video_stats).

Definition dict_of_image (s : image_summary) : summary_dict :=
  match s with
  | ImageError e => ErrorDict e
  | ImageSummary stats => ImageDict stats
  end.

Definition dict_of_video (s : video_summary) : summary_dict :=
  match s with
  | VideoError e => ErrorDict e
  | VideoSummary stats => VideoDict stats
  end.

(** [sum(1 for s in student_data.values() if s['classification'] == 'Attentive')] *)
Definition attentive_student (kv : string * student_report) : Prop :=
  classification kv.2 = "Attentive".
Global Instance attentive_student_dec kv : Decision (attentive_student kv).
Proof. unfold attentive_student. apply _. Defined.

Definition count_attentive_students (student_data : gmap string student_report) : nat :=
  size (filter attentive_student student_data).

(** The result of [generate_chart_data]: the ['data'] pair of
    ['engagement_pie'] (its labels are always Attentive, Distracted) and
    the labels with their counts of ['activity_bar'], each present only
    when the function sets the key.  The order of the bars, which is the
    order of the dictionary, is not modelled. *)
Record chart_data : Type := {
  engagement_pie : option (Z * Z);
  activity_bar : option (gmap string nat)
}.

Definition generate_chart_data (summary : summary_dict) (file_type : string) : chart_data :=
  let pie :=
    if decide (file_type = "image") then
      Some (match summary with
            | ImageDict s =>
                (Z.of_nat (attentive_students s), Z.of_nat (distracted_students s))
            | _ => (0, 0)
            end)
    else if decide (file_type = "video") then
      match summary with
      | VideoDict s =>
          let student_data := student_analysis s in
          let attentive_count := Z.of_nat (count_attentive_students student_data) in
          let distracted_count := Z.of_nat (size student_data) - attentive_count in
          Some (attentive_count, distracted_count)
      | _ => None
      end
    else None in
  let bar :=
    match summary with
    | ImageDict s => Some (image_activity_breakdown s)
    | _ => None
    end in
  {| engagement_pie := pie; activity_bar := bar |}.






(** ** Upload filter ([app.py]) *)

Definition ALLOWED_VIDEO_EXTENSIONS : list string := ["mp4"; "avi"; "mov"; "mkv"; "wmv"].
Definition ALLOWED_IMAGE_EXTENSIONS : list string := ["jpg"; "jpeg"; "png"; "bmp"; "tiff"].

(** Upload names are modelled for ASCII names: [is_ascii] holds of a name
    whose characters are all below 128.  On such a name [str.lower()]
    changes the letters A to Z and nothing else, which is [lower]; a name
    with other characters (for which [str.lower()] follows the Unicode
    tables, e.g. U+212A to k) is outside what [lower] describes. *)
Fixpoint is_ascii (s : string) : bool :=
  match s with
  | EmptyString => true
  | String c rest => (Ascii.nat_of_ascii c <? 128)%nat && is_ascii rest
  end.

Definition lower_char (c : Ascii.ascii) : Ascii.ascii :=
  let n := Ascii.nat_of_ascii c in
  if ((65 <=? n) && (n <=? 90))%nat then Ascii.ascii_of_nat (n + 32) else c.

Fixpoint lower (s : string) : string :=
  match s with
  | EmptyString => EmptyString
  | String c rest => String (lower_char c) (lower rest)
  end.

(** The character ['.']. *)
Definition dot_char : Ascii.ascii := Eval cbv in Ascii.ascii_of_nat 46.

(** ['.' in s] *)
Fixpoint contains_dot (s : string) : bool :=
  match s with
  | EmptyString => false
  | String c rest => Ascii.eqb c dot_char || contains_dot rest
  end.

(** [s.rsplit('.', 1)] for a string with a dot: what precedes the last
    dot and what follows it; [None] for a string without a dot. *)
Fixpoint rsplit_dot (s : string) : option (string * string) :=
  match s with
  | EmptyString => None
  | String c rest =>
      match rsplit_dot rest with
      | Some (before, after) => Some (String c before, after)
      | None => if Ascii.eqb c dot_char then Some (EmptyString, rest) else None
      end
  end.

(** The extensions [allowed_file] accepts for a [file_type]. *)
Definition allowed_extensions (file_type : string) : list string :=
  if decide (file_type = "video") then ALLOWED_VIDEO_EXTENSIONS
  else if decide (file_type = "image") then ALLOWED_IMAGE_EXTENSIONS
  else ALLOWED_VIDEO_EXTENSIONS ++ ALLOWED_IMAGE_EXTENSIONS.

Definition allowed_file (filename file_type : string) : bool :=
  if negb (contains_dot filename) then false
  else
    match rsplit_dot filename with
    | Some (_, after) =>
        let ext := lower after in
        bool_decide (ext ∈ allowed_extensions file_type)
    | None => false
    end.
(** ** Scenarios *)

Module Scenario.

Definition pred (activity : string) : prediction :=
  {| pred_class := activity; pred_confidence := 0.9%float;
     pred_x := Int 200; pred_y := Int 200; pred_width := Int 80; pred_height := Int 120;
     pred_x1 := Int 160; pred_y1 := Int 140; pred_x2 := Int 240; pred_y2 := Int 260 |}.

(** Three detections: two reading, one sleeping. *)
Definition three_students : list prediction :=
  [pred "reading"; pred "reading"; pred "sleeping"].

Definition entry (frame_number : Z) (activity : string) : track :=
  track_entry frame_number
    (PrimFloat.div (float_of_Z frame_number) (float_of_Z 30)) (pred activity).

(** One slot seen on frames 0 and 5: listening, then using a phone. *)
Definition tie_timeline : list track :=
  [entry 0 "listening"; entry 5 "using_mobile"].

Definition tie_analyzer : analyzer :=
  set_detection_results
    (set_student_tracks (init NotLoaded) {[ student_id 0 := tie_timeline ]})
    [{| rec_frame := 0; rec_timestamp := PrimFloat.zero;
        rec_detections := Some [pred "listening"] |};
     {| rec_frame := 5;
        rec_timestamp := PrimFloat.div (float_of_Z 5) (float_of_Z 30);
        rec_detections := Some [pred "using_mobile"] |}].

Definition tie_stats : video_stats :=
  match generate_video_summary tie_analyzer with
  | VideoSummary stats => stats
  | VideoError _ =>
      {| video_duration := Int 0; total_frames_analyzed := 0;
         students_tracked := 0; student_analysis := ∅ |}
  end.

(** Three slots seen on frames 0, 5 and 10: the first mostly attentive,
    the second mostly distracted, the third with a label of neither
    group. *)
Definition mixed_timeline (first second third : string) : list track :=
  [entry 0 first; entry 5 second; entry 10 third].

Definition mixed_record (frame_number : Z) (first second third : string) : frame_record :=
  {| rec_frame := frame_number;
     rec_timestamp := PrimFloat.div (float_of_Z frame_number) (float_of_Z 30);
     rec_detections := Some [pred first; pred second; pred third] |}.

Definition mixed_analyzer : analyzer :=
  set_detection_results
    (set_student_tracks (init NotLoaded)
       {[ student_id 0 := mixed_timeline "listening" "reading" "sleeping";
          student_id 1 := mixed_timeline "sleeping" "writing" "turn";
          student_id 2 := mixed_timeline "student" "student" "student" ]})
    [mixed_record 0 "listening" "sleeping" "student";
     mixed_record 5 "reading" "writing" "student";
     mixed_record 10 "sleeping" "turn" "student"].

Definition mixed_stats : video_stats :=
  match generate_video_summary mixed_analyzer with
  | VideoSummary stats => stats
  | VideoError _ =>
      {| video_duration := Int 0; total_frames_analyzed := 0;
         students_tracked := 0; student_analysis := ∅ |}
  end.

(** A frame with two detections, tracked on a fresh analyzer. *)
Definition two_students : list prediction := [pred "writing"; pred "turn"].

(** Two tracking updates on a fresh analyzer: a frame with two
    detections, then a frame with one. *)
Definition after_first : analyzer :=
  match update_tracking (init NotLoaded) (Some two_students) 0 with
  | Ok self => self
  | Raise _ => init NotLoaded
  end.
Definition after_second : analyzer :=
  match update_tracking after_first (Some [pred "reading"]) 5 with
  | Ok self => self
  | Raise _ => init NotLoaded
  end.

(** Draws of the synthetic detector: two boxes (count draw 0), each
    centred at (200, 200), 81 wide and 121 high. *)
Definition odd_box : box_draw :=
  {| draw_x := 100; draw_y := 100; draw_w := 1; draw_h := 1;
     draw_activity := 1; draw_confidence := 0.5%float |}.
Definition odd_draws : draws :=
  {| draw_count := 0; draw_boxes := λ _, odd_box |}.

(** A frame of the given size, seen by a backend that raises. *)
Definition frame_of (height width : Z) : detect_env :=
  {| env_image := Some {| img_height := height; img_width := width |};
     env_yolov8 := Raise BackendError;
     env_yolov5 := Raise BackendError;
     env_draws := odd_draws;
     env_retry_draws := odd_draws |}.

(** An image file that cannot be read. *)
Definition unreadable : detect_env :=
  {| env_image := None;
     env_yolov8 := Raise BackendError;
     env_yolov5 := Raise BackendError;
     env_draws := odd_draws;
     env_retry_draws := odd_draws |}.

(** Seven frames of 640x480 at 25 frames per second. *)
Definition vga_video : video :=
  {| video_fps := 25%float; video_width := 640; video_height := 480;
     video_frame_count := 7;
     video_frames := replicate 7 (frame_of 480 640) |}.

(** Two frames of 150x150 at 25 frames per second. *)
Definition small_video : video :=
  {| video_fps := 25%float; video_width := 150; video_height := 150;
     video_frame_count := 2;
     video_frames := replicate 2 (frame_of 150 150) |}.

(** Seven frames of 640x480 from a source that reports 0 frames per
    second. *)
Definition no_fps_video : video :=
  {| video_fps := 0%float; video_width := 640; video_height := 480;
     video_frame_count := 7;
     video_frames := replicate 7 (frame_of 480 640) |}.

(** A frame on which the YOLOv8 backend finds the given boxes. *)
Definition seen_by_yolov8 (boxes : list yolo_box) : detect_env :=
  {| env_image := Some {| img_height := 480; img_width := 640 |};
     env_yolov8 := Ok (Some boxes);
     env_yolov5 := Raise BackendError;
     env_draws := odd_draws;
     env_retry_draws := odd_draws |}.

Definition one_box : yolo_box :=
  {| box_x1 := F32.of_Z 10; box_y1 := F32.of_Z 20;
     box_x2 := F32.of_Z 110; box_y2 := F32.of_Z 220;
     box_conf := F32.div (F32.of_Z 3) (F32.of_Z 4); box_cls := 1 |}.

(** Two frames: the backend finds one student on the first and nobody
    on the second. *)
Definition half_empty_video : video :=
  {| video_fps := 25%float; video_width := 640; video_height := 480;
     video_frame_count := 2;
     video_frames := [seen_by_yolov8 [one_box]; seen_by_yolov8 []] |}.

(** Ten frames, one student on each, listening on the even frames and
    using a phone on the odd ones. *)
Definition box_of_class (cls : Z) : yolo_box :=
  {| box_x1 := F32.of_Z 10; box_y1 := F32.of_Z 20;
     box_x2 := F32.of_Z 110; box_y2 := F32.of_Z 220;
     box_conf := F32.div (F32.of_Z 3) (F32.of_Z 4); box_cls := cls |}.
Definition alternating_video : video :=
  {| video_fps := 30%float; video_width := 640; video_height := 480;
     video_frame_count := 10;
     video_frames :=
       (λ i : nat, seen_by_yolov8 [box_of_class (if Nat.even i then 0 else 5)])
         <$> seq 0 10 |}.

Definition no_run : video_run :=
  {| run_output := None; run_summary := None; run_self := init NotLoaded;
     run_detected := []; run_progress := [] |}.

Definition no_stats : video_stats :=
  {| video_duration := Int 0; total_frames_analyzed := 0;
     students_tracked := 0; student_analysis := ∅ |}.

(** The seven-frame video processed without a backend, every fifth
    frame. *)
Definition vga_run : video_run :=
  match process_video (init NotLoaded) (Some vga_video) None 5 false with
  | Ok run => run
  | Raise _ => no_run
  end.

Definition vga_stats : video_stats :=
  match run_summary vga_run with
  | Some (VideoSummary stats) => stats
  | _ => no_stats
  end.

End Scenario.


(** ** Further scenarios *)

Module Scenario2.

(** The seven-frame video processed a second time on the analyzer the
    first run left, without a reset in between. *)
Definition second_run : video_run :=
  match process_video (run_self Scenario.vga_run) (Some Scenario.vga_video) None 5 false with
  | Ok run => run
  | Raise _ => Scenario.no_run
  end.

Definition second_stats : video_stats :=
  match run_summary second_run with
  | Some (VideoSummary stats) => stats
  | _ => Scenario.no_stats
  end.

(** Two frames on which the backend finds nobody. *)
Definition empty_video : video :=
  {| video_fps := 25%float; video_width := 640; video_height := 480;
     video_frame_count := 2;
     video_frames := replicate 2 (Scenario.seen_by_yolov8 []) |}.

(** Twenty-five frames of 640x480. *)
Definition long_video : video :=
  {| video_fps := 25%float; video_width := 640; video_height := 480;
     video_frame_count := 25;
     video_frames := replicate 25 (Scenario.frame_of 480 640) |}.

End Scenario2.
(** * Properties *)

(** Reduce the binds of the error monad whose first computation is a
    value, in the goal or in a hypothesis. *)
Ltac step := cbn [mbind result_bind].
Ltac step_in H := cbn [mbind result_bind] in H.

(** In a goal that branches on a boolean test, take both branches. *)
Ltac case_test :=
  match goal with
  | |- context [if ?c then _ else _] => destruct c
  end.

(** ** Floats *)

Lemma float_ltb_irrefl (x : float) : PrimFloat.ltb x x = false.
Proof.
  rewrite ltb_spec. unfold SFltb.
  destruct (Prim2SF x) as [ | | | s m e]; simpl; try reflexivity.
  - destruct s; reflexivity.
  - destruct s; rewrite Z.compare_refl, Pos.compare_refl; reflexivity.
Qed.

Lemma gtb_irrefl (a : num) : gtb a a = false.
Proof.
  destruct a as [z|f]; simpl.
  - apply Z.ltb_irrefl.
  - apply float_ltb_irrefl.
Qed.

(** Two different float constants are different: compare them. *)
Lemma float_neq_by_ltb (x y : float) : PrimFloat.ltb x y = true → x ≠ y.
Proof. intros Hlt ->. rewrite float_ltb_irrefl in Hlt. discriminate. Qed.

(** [<] on floats is transitive, by cases on the two signs, then on the
    exponents and the mantissas. *)
Lemma SFltb_trans (x y z : spec_float) :
  SFltb x y = true → SFltb y z = true → SFltb x z = true.
Proof.
  unfold SFltb, SFcompare.
  destruct x as [[]|[]| |[] m1 e1], y as [[]|[]| |[] m2 e2], z as [[]|[]| |[] m3 e3];
    try (intros; congruence); try reflexivity;
    repeat match goal with
    | |- context [Pos.compare_cont Eq ?a ?b] =>
        change (Pos.compare_cont Eq a b) with (Pos.compare a b)
    end;
    destruct (Z.compare_spec e1 e2), (Z.compare_spec e2 e3), (Z.compare_spec e1 e3);
    try lia; try (intros; congruence); try reflexivity;
    destruct (Pos.compare_spec m1 m2), (Pos.compare_spec m2 m3), (Pos.compare_spec m1 m3);
    simpl; try lia; try (intros; congruence); try reflexivity.
Qed.

Lemma float_ltb_trans (x y z : float) :
  PrimFloat.ltb x y = true → PrimFloat.ltb y z = true → PrimFloat.ltb x z = true.
Proof. rewrite !ltb_spec. apply SFltb_trans. Qed.

Lemma float_ltb_asym (x y : float) :
  PrimFloat.ltb x y = true → PrimFloat.ltb y x = false.
Proof.
  intros Hxy. destruct (PrimFloat.ltb y x) eqn:Hyx; [|reflexivity].
  rewrite <- (float_ltb_irrefl x). symmetry. by apply (float_ltb_trans x y x).
Qed.

(** ** Counting *)

Lemma count_in_fmap {A} (f : A → string) (group : list string) (l : list A) :
  count_in group (f <$> l) = length (filter (λ a, f a ∈ group) l).
Proof.
  unfold count_in. induction l as [|a l IH]; [reflexivity|].
  rewrite fmap_cons, !filter_cons.
  destruct (decide (f a ∈ group)); simpl; rewrite IH; reflexivity.
Qed.

Lemma percentage_pos (count total : nat) :
  total ≠ 0%nat →
  percentage count total =
    Flt (PrimFloat.mul
           (PrimFloat.div (float_of_Z (Z.of_nat count)) (float_of_Z (Z.of_nat total)))
           (float_of_Z 100)).
Proof.
  intros Hpos. unfold percentage.
  destruct (Nat.ltb_spec 0 total) as [_|Hle]; [reflexivity|lia].
Qed.

(** The float of a count. *)
Lemma float_of_Z_nat (n : nat) :
  float_of_Z (Z.of_nat n) = PrimFloat.of_uint63 (Uint63.of_Z (Z.of_nat n)).
Proof. unfold float_of_Z. destruct (Z.ltb_spec (Z.of_nat n) 0); [lia|reflexivity]. Qed.

(** Counting up on machine integers follows counting up on [Z]. *)
Lemma of_Z_succ (a : Z) : PrimInt63.add (Uint63.of_Z a) 1%uint63 = Uint63.of_Z (a + 1).
Proof.
  apply Uint63.to_Z_inj.
  rewrite Uint63.add_spec, !Uint63.of_Z_spec, Uint63.to_Z_1.
  by rewrite Zplus_mod_idemp_l.
Qed.

(** What the two checks establish: each percentage of a total is strictly
    below the percentage of the next count. *)
Lemma percents_increase_from_spec (steps : nat) (count : Z) (ftotal : float) :
  percents_increase_from steps (percent_of (Uint63.of_Z count) ftotal) (Uint63.of_Z count) ftotal
    = true →
  ∀ j : nat, (j < steps)%nat →
    PrimFloat.ltb (percent_of (Uint63.of_Z (count + Z.of_nat j)) ftotal)
                  (percent_of (Uint63.of_Z (count + Z.of_nat j + 1)) ftotal) = true.
Proof.
  revert count. induction steps as [|steps IH]; intros count Hcheck j Hj; [lia|].
  simpl in Hcheck. rewrite of_Z_succ in Hcheck.
  destruct (PrimFloat.ltb _ _) eqn:Hlt; [|discriminate].
  destruct j as [|j].
  - rewrite Z.add_0_r. exact Hlt.
  - specialize (IH (count + 1) Hcheck j ltac:(lia)).
    replace (count + Z.of_nat (S j)) with (count + 1 + Z.of_nat j) by lia. exact IH.
Qed.

Lemma percents_increase_spec (totals steps : nat) (total : Z) :
  percents_increase totals steps (Uint63.of_Z total) = true →
  ∀ i j : nat, (i < totals)%nat → (j < steps + i)%nat →
    let ftotal := PrimFloat.of_uint63 (Uint63.of_Z (total + Z.of_nat i)) in
    PrimFloat.ltb (percent_of (Uint63.of_Z (Z.of_nat j)) ftotal)
                  (percent_of (Uint63.of_Z (Z.of_nat j + 1)) ftotal) = true.
Proof.
  revert steps total. induction totals as [|totals IH]; intros steps total Hcheck i j Hi Hj; [lia|].
  simpl in Hcheck.
  destruct (percents_increase_from _ _ _ _) eqn:Hrow; [|discriminate].
  rewrite of_Z_succ in Hcheck.
  destruct i as [|i].
  - cbv zeta. rewrite Z.add_0_r.
    apply (percents_increase_from_spec steps 0 _ Hrow j). lia.
  - specialize (IH (S steps) (total + 1) Hcheck i j ltac:(lia) ltac:(lia)).
    cbv zeta in *. replace (total + Z.of_nat (S i)) with (total + 1 + Z.of_nat i) by lia.
    exact IH.
Qed.

(** The check succeeds for the totals 1 to 10000. *)
Lemma percents_checked :
  percents_increase (Z.to_nat checked_timeline_length) 1 (Uint63.of_Z 1) = true.
Proof. vm_cast_no_check (eq_refl true). Qed.

(** So on a timeline of up to 10000 entries one more entry of a group
    gives a strictly greater percentage, and, [<] being transitive, a
    greater count gives a strictly greater percentage. *)
Lemma percent_step (total count : nat) :
  Z.of_nat total ≤ checked_timeline_length → (count < total)%nat →
  PrimFloat.ltb
    (percent_of (Uint63.of_Z (Z.of_nat count)) (PrimFloat.of_uint63 (Uint63.of_Z (Z.of_nat total))))
    (percent_of (Uint63.of_Z (Z.of_nat (S count))) (PrimFloat.of_uint63 (Uint63.of_Z (Z.of_nat total))))
    = true.
Proof.
  intros Hbound Hcount.
  pose proof (percents_increase_spec _ _ _ percents_checked (total - 1) count) as Hstep.
  cbv zeta in Hstep.
  replace (1 + Z.of_nat (total - 1)) with (Z.of_nat total) in Hstep by lia.
  replace (Z.of_nat count + 1) with (Z.of_nat (S count)) in Hstep by lia.
  apply Hstep; lia.
Qed.

Lemma percent_lt (total d a : nat) :
  Z.of_nat total ≤ checked_timeline_length → (d < a)%nat → (a ≤ total)%nat →
  PrimFloat.ltb
    (percent_of (Uint63.of_Z (Z.of_nat d)) (PrimFloat.of_uint63 (Uint63.of_Z (Z.of_nat total))))
    (percent_of (Uint63.of_Z (Z.of_nat a)) (PrimFloat.of_uint63 (Uint63.of_Z (Z.of_nat total))))
    = true.
Proof.
  intros Hbound Hda Ha. induction a as [|a IH]; [lia|].
  destruct (decide (d = a)) as [->|Hne].
  - apply percent_step; [done|lia].
  - eapply float_ltb_trans; [apply IH; lia|apply percent_step; [done|lia]].
Qed.

(** On timelines of up to 10000 entries the comparison of two percentages
    of the timeline is the comparison of the two counts. *)
Lemma percent_ltb_counts (total d a : nat) :
  Z.of_nat total ≤ checked_timeline_length → (d ≤ total)%nat → (a ≤ total)%nat →
  PrimFloat.ltb
    (percent_of (Uint63.of_Z (Z.of_nat d)) (PrimFloat.of_uint63 (Uint63.of_Z (Z.of_nat total))))
    (percent_of (Uint63.of_Z (Z.of_nat a)) (PrimFloat.of_uint63 (Uint63.of_Z (Z.of_nat total))))
    = true ↔ (d < a)%nat.
Proof.
  intros Hbound Hd Ha. split.
  - intros Hlt. destruct (Nat.lt_trichotomy d a) as [?|[->|Hgt]]; [done| |].
    + by rewrite float_ltb_irrefl in Hlt.
    + rewrite (float_ltb_asym _ _ (percent_lt total a d Hbound Hgt Hd)) in Hlt. discriminate.
  - intros Hlt. by apply percent_lt.
Qed.

(** ** The video summary, slot by slot *)

Lemma video_summary_stats self stats :
  generate_video_summary self = VideoSummary stats →
  detection_results self ≠ [] ∧
  student_analysis stats = analyze_student <$> filter nonempty_slot (student_tracks self) ∧
  students_tracked stats = size (filter nonempty_slot (student_tracks self)) ∧
  total_frames_analyzed stats = length (detection_results self) ∧
  video_duration stats =
    (if gtb (fps self) (Int 0)
     then Flt (PrimFloat.div (float_of_Z (Z.of_nat (length (detection_results self))))
                 (to_float (fps self)))
     else Int 0).
Proof.
  unfold generate_video_summary.
  destruct (detection_results self) as [|r rs] eqn:Hres; [discriminate|].
  intros [= <-]; simpl.
  rewrite map_size_fmap. repeat split; done.
Qed.

Lemma video_summary_slot self stats sid tracks :
  generate_video_summary self = VideoSummary stats →
  student_tracks self !! sid = Some tracks →
  tracks ≠ [] →
  student_analysis stats !! sid = Some (analyze_student tracks).
Proof.
  intros Hsum Hsid Hne.
  destruct (video_summary_stats _ _ Hsum) as (_ & -> & _).
  rewrite lookup_fmap.
  erewrite (proj2 (map_lookup_filter_Some _ _ _ _)); [reflexivity|].
  split; [exact Hsid|exact Hne].
Qed.

Lemma classification_cases (tracks : list track) :
  classification (analyze_student tracks) =
    if gtb (attentive_percentage (analyze_student tracks))
           (distracted_percentage (analyze_student tracks))
    then "Attentive" else "Distracted".
Proof. reflexivity. Qed.

(** C1: in the video summary, a slot with a non-empty timeline carries as
    attentive percentage the float a / n * 100 and as distracted percentage
    the float d / n * 100, where n is the number of entries of the
    timeline, a the number of entries with an activity among listening,
    reading, writing and d the number with an activity among sleeping,
    using_mobile, turn, turning.  The slot is labelled "Attentive" exactly
    when the attentive percentage is strictly greater than the distracted
    one, and "Distracted" otherwise; equal percentages, and so equal
    counts, give "Distracted".  On timelines of up to 10000 entries the
    floats compare as the counts do: the label is "Attentive" exactly when
    d < a and "Distracted" exactly when a <= d. *)
Theorem video_summary_classification self stats sid tracks :
  generate_video_summary self = VideoSummary stats →
  student_tracks self !! sid = Some tracks →
  tracks ≠ [] →
  let attentive :=
    length (filter (λ t, track_activity t ∈ ["listening"; "reading"; "writing"]) tracks) in
  let distracted :=
    length (filter (λ t, track_activity t ∈ ["sleeping"; "using_mobile"; "turn"; "turning"])
              tracks) in
  let percent (count : nat) :=
    PrimFloat.mul
      (PrimFloat.div (PrimFloat.of_uint63 (Uint63.of_Z (Z.of_nat count)))
                     (PrimFloat.of_uint63 (Uint63.of_Z (Z.of_nat (length tracks)))))
      100%float in
  ∃ r, student_analysis stats !! sid = Some r ∧
    attentive_percentage r = Flt (percent attentive) ∧
    distracted_percentage r = Flt (percent distracted) ∧
    (classification r = "Attentive" ↔
       PrimFloat.ltb (percent distracted) (percent attentive) = true) ∧
    (classification r = "Distracted" ↔
       PrimFloat.ltb (percent distracted) (percent attentive) = false) ∧
    (percent attentive = percent distracted → classification r = "Distracted") ∧
    (attentive = distracted → classification r = "Distracted") ∧
    (Z.of_nat (length tracks) ≤ 10000 →
       (classification r = "Attentive" ↔ (distracted < attentive)%nat) ∧
       (classification r = "Distracted" ↔ (attentive ≤ distracted)%nat)).
Proof.
  intros Hsum Hsid Hne attentive distracted percent.
  exists (analyze_student tracks).
  split; [by eapply video_summary_slot|].
  assert (Hlen : length tracks ≠ 0%nat) by (by destruct tracks).
  assert (Hatt : attentive_percentage (analyze_student tracks) = Flt (percent attentive)).
  { simpl. rewrite count_in_fmap, percentage_pos by done.
    by rewrite !float_of_Z_nat. }
  assert (Hdis : distracted_percentage (analyze_student tracks) = Flt (percent distracted)).
  { simpl. rewrite count_in_fmap, percentage_pos by done.
    by rewrite !float_of_Z_nat. }
  assert (Hlabel : classification (analyze_student tracks) =
            if PrimFloat.ltb (percent distracted) (percent attentive)
            then "Attentive" else "Distracted").
  { rewrite classification_cases, Hatt, Hdis. reflexivity. }
  split; [exact Hatt|]. split; [exact Hdis|].
  assert (Hcounts : Z.of_nat (length tracks) ≤ 10000 →
            PrimFloat.ltb (percent distracted) (percent attentive) = true
            ↔ (distracted < attentive)%nat).
  { intros Hbound. apply percent_ltb_counts; [exact Hbound|apply length_filter..]. }
  rewrite Hlabel.
  destruct (PrimFloat.ltb (percent distracted) (percent attentive)) eqn:Hlt.
  - split; [done|]. split; [done|]. split; [|split].
    + intros Heq. rewrite Heq, float_ltb_irrefl in Hlt. discriminate.
    + intros Heq. rewrite Heq, float_ltb_irrefl in Hlt. discriminate.
    + intros Hbound. pose proof (proj1 (Hcounts Hbound) eq_refl) as Hda.
      split; split; (done || lia).
  - split; [done|]. split; [done|]. split; [done|]. split; [done|].
    intros Hbound.
    assert (Hda : ¬ (distracted < attentive)%nat).
    { intros Hda. apply (Hcounts Hbound) in Hda. discriminate. }
    split; split; (done || lia).
Qed.

Lemma video_summary_classification_witness :
  generate_video_summary Scenario.mixed_analyzer = VideoSummary Scenario.mixed_stats ∧
  student_tracks Scenario.mixed_analyzer !! student_id 0
    = Some (Scenario.mixed_timeline "listening" "reading" "sleeping") ∧
  Scenario.mixed_timeline "listening" "reading" "sleeping" ≠ [] ∧
  ∃ r, student_analysis Scenario.mixed_stats !! student_id 0 = Some r ∧
       attentive_percentage r = Flt (PrimFloat.mul (PrimFloat.div 2%float 3%float) 100%float) ∧
       distracted_percentage r = Flt (PrimFloat.mul (PrimFloat.div 1%float 3%float) 100%float) ∧
       classification r = "Attentive".
Proof.
  assert (H1 : generate_video_summary Scenario.mixed_analyzer
               = VideoSummary Scenario.mixed_stats) by (vm_compute; reflexivity).
  assert (H2 : student_tracks Scenario.mixed_analyzer !! student_id 0
               = Some (Scenario.mixed_timeline "listening" "reading" "sleeping"))
    by (vm_compute; reflexivity).
  assert (H3 : Scenario.mixed_timeline "listening" "reading" "sleeping" ≠ []) by discriminate.
  repeat split; try assumption.
  destruct (video_summary_classification _ _ _ _ H1 H2 H3)
    as (r & Hr & Hatt & Hdis & _ & _ & _ & _ & Hcounts).
  exists r. split; [exact Hr|]. split; [exact Hatt|]. split; [exact Hdis|].
  apply Hcounts; [simpl; lia|]. vm_compute. lia.
Defined.

(** The three slots of the mixed scenario: two of three entries attentive
    gives "Attentive", two of three distracted gives "Distracted", and a
    slot with no entry of either group, 0 percent against 0 percent, gives
    "Distracted". *)
Example mixed_slots_classified :
  classification <$> student_analysis Scenario.mixed_stats =
    {[ student_id 0 := "Attentive";
       student_id 1 := "Distracted";
       student_id 2 := "Distracted" ]}.
Proof. vm_compute. reflexivity. Qed.

(** The tie of one listening and one using_mobile entry: 50 percent
    against 50 percent, labelled "Distracted". *)
Example tie_slot_classified :
  ∃ r, student_analysis Scenario.tie_stats !! student_id 0 = Some r ∧
    attentive_percentage r = Flt 50%float ∧
    distracted_percentage r = Flt 50%float ∧
    classification r = "Distracted".
Proof. eexists. split; [vm_compute; reflexivity|]. repeat split; vm_compute; reflexivity. Qed.

(** ** The image summary *)

(** C2: the image summary of a detection list has total_students equal to
    the number of detections, attentive_students equal to the number of
    detections with a label among listening, reading, writing,
    distracted_students equal to the number with a label among sleeping,
    using_mobile, turn, turning, and engagement_rate equal to the float
    attentive_students / total_students * 100, or 0 when there is no
    detection.  For two reading and one sleeping this is 3, 2, 1 and the
    float 2/3*100, which lies between 66.65 and 66.75 and so reads 66.7 to
    one decimal. *)
Theorem image_summary_counts :
  (∀ predictions : list prediction,
     ∃ stats, generate_image_summary (Some predictions) = ImageSummary stats ∧
       let attentive :=
         length (filter (λ p, pred_class p ∈ ["listening"; "reading"; "writing"]) predictions) in
       let distracted :=
         length (filter (λ p, pred_class p ∈ ["sleeping"; "using_mobile"; "turn"; "turning"])
                   predictions) in
       total_students stats = length predictions ∧
       attentive_students stats = attentive ∧
       distracted_students stats = distracted ∧
       engagement_rate stats =
         (if decide (length predictions = 0%nat) then Int 0
          else Flt (PrimFloat.mul
                      (PrimFloat.div
                         (PrimFloat.of_uint63 (Uint63.of_Z (Z.of_nat attentive)))
                         (PrimFloat.of_uint63 (Uint63.of_Z (Z.of_nat (length predictions)))))
                      100%float))) ∧
  (∃ stats, generate_image_summary (Some Scenario.three_students) = ImageSummary stats ∧
     total_students stats = 3%nat ∧
     attentive_students stats = 2%nat ∧
     distracted_students stats = 1%nat ∧
     ∃ rate, engagement_rate stats = Flt rate ∧
       rate = PrimFloat.mul (PrimFloat.div 2%float 3%float) 100%float ∧
       PrimFloat.leb 66.65%float rate = true ∧
       PrimFloat.ltb rate 66.75%float = true ∧
       PrimFloat.ltb (PrimFloat.abs (PrimFloat.sub rate 66.7%float)) 0.05%float = true).
Proof.
  split.
  - intros predictions. eexists. split; [reflexivity|]. cbv zeta. simpl.
    rewrite !count_in_fmap. repeat split.
    destruct (decide (length predictions = 0%nat)) as [->|Hne]; [reflexivity|].
    rewrite percentage_pos by done. by rewrite !float_of_Z_nat.
  - eexists. split; [reflexivity|].
    repeat split. eexists. split; [vm_compute; reflexivity|].
    repeat split; vm_compute; reflexivity.
Qed.

(** ** Tracking *)

Global Instance student_id_inj : Inj (=) (=) student_id.
Proof.
  intros i j Heq. unfold student_id in Heq.
  apply (inj (String.app "student_")) in Heq.
  by apply (inj pretty) in Heq.
Qed.

Lemma truediv_ok (a b : num) :
  is_zero b = false → truediv a b = Ok (PrimFloat.div (to_float a) (to_float b)).
Proof. intros Hb. unfold truediv. by rewrite Hb. Qed.

Lemma truediv_raises (a b : num) :
  is_zero b = true → truediv a b = Raise ZeroDivisionError.
Proof. intros Hb. unfold truediv. by rewrite Hb. Qed.

(** What the loop of [update_tracking] leaves, entered at index [i]. *)
Lemma track_predictions_ok fps n ts predictions :
  truediv (Int n) fps = Ok ts →
  ∀ (i : nat) (tracks : gmap string (list track)),
  ∃ tracks', track_predictions fps n i predictions tracks = Ok tracks' ∧
    (∀ (j : nat) p, predictions !! j = Some p →
       tracks' !! student_id (i + j) =
         Some (default [] (tracks !! student_id (i + j)) ++ [track_entry n ts p])) ∧
    (∀ key, (∀ j : nat, (j < length predictions)%nat → key ≠ student_id (i + j)) →
       tracks' !! key = tracks !! key).
Proof.
  intros Hts. induction predictions as [|p rest IH]; intros i tracks.
  - exists tracks. split; [reflexivity|]. split; [|reflexivity].
    intros j q Hq. rewrite lookup_nil in Hq. discriminate.
  - simpl. rewrite Hts. simpl.
    destruct (IH (S i)
                (<[student_id i :=
                     default [] (tracks !! student_id i) ++ [track_entry n ts p]]> tracks))
      as (tracks' & Hrun & Hhit & Hmiss).
    exists tracks'. split; [exact Hrun|]. split.
    + intros [|j] q Hq; simpl in Hq.
      * injection Hq as <-. rewrite Nat.add_0_r.
        rewrite Hmiss.
        -- by rewrite lookup_insert_eq.
        -- intros j _ Heq. apply (inj student_id) in Heq. lia.
      * replace (i + S j)%nat with (S i + j)%nat by lia.
        rewrite (Hhit j q Hq). rewrite lookup_insert_ne; [reflexivity|].
        intros Heq. apply (inj student_id) in Heq. lia.
    + intros key Hkey. rewrite Hmiss.
      * rewrite lookup_insert_ne; [reflexivity|].
        intros <-. apply (Hkey 0%nat); [simpl; lia|]. by rewrite Nat.add_0_r.
      * intros j Hj. replace (S i + j)%nat with (i + S j)%nat by lia.
        apply Hkey. simpl. lia.
Qed.

Lemma track_predictions_raises fps n p rest i tracks :
  is_zero fps = true →
  track_predictions fps n i (p :: rest) tracks = Raise ZeroDivisionError.
Proof. intros Hz. simpl. by rewrite truediv_raises. Qed.

(** The state after one [update_tracking], in terms of the state before. *)
Lemma update_tracking_spec self predictions n self' :
  update_tracking self (Some predictions) n = Ok self' →
  same_config self self' ∧
  fps self' = fps self ∧
  frame_count self' = frame_count self ∧
  detection_results self' = detection_results self ∧
  student_summaries self' = student_summaries self ∧
  (∀ (i : nat) p, predictions !! i = Some p →
     ∃ e, student_tracks self' !! student_id i =
            Some (default [] (student_tracks self !! student_id i) ++ [e]) ∧
          track_frame e = n ∧ track_activity e = pred_class p) ∧
  (∀ key, (∀ i : nat, (i < length predictions)%nat → key ≠ student_id i) →
     student_tracks self' !! key = student_tracks self !! key).
Proof.
  unfold update_tracking. intros Hrun.
  destruct predictions as [|p rest].
  { simpl in Hrun. injection Hrun as <-.
    repeat split; try done.
    all: intros i q Hq; rewrite lookup_nil in Hq; discriminate. }
  destruct (is_zero (fps self)) eqn:Hz.
  { rewrite track_predictions_raises in Hrun by done. discriminate. }
  destruct (track_predictions_ok (fps self) n _ (p :: rest) (truediv_ok (Int n) _ Hz)
              0%nat (student_tracks self)) as (tracks' & Hloop & Hhit & Hmiss).
  rewrite Hloop in Hrun. simpl in Hrun. injection Hrun as <-. simpl.
  repeat split; try done.
  all: intros i q Hq; eexists; split; [apply (Hhit i q Hq)|]; split; reflexivity.
Qed.

(** C9: [update_tracking] appends the detection at position [i] of the
    frame to the timeline of the slot named after [i] ([student_id i], the
    code's spelling of the slot id), in detection order; the slots of
    positions the frame does not have, and every other key, are left as
    they were; no timeline gets shorter: the timeline before is a prefix of
    the timeline after.  The call returns whenever fps is not zero. *)
Theorem update_tracking_appends self predictions frame_number :
  is_zero (fps self) = false →
  ∃ self',
    update_tracking self (Some predictions) frame_number = Ok self' ∧
    (∀ (i : nat) p, predictions !! i = Some p →
       student_tracks self' !! student_id i =
         Some (default [] (student_tracks self !! student_id i) ++
               [{| track_frame := frame_number;
                   track_timestamp :=
                     PrimFloat.div (float_of_Z frame_number) (to_float (fps self));
                   track_activity := pred_class p;
                   track_confidence := pred_confidence p;
                   track_position :=
                     {| pos_x := pred_x p; pos_y := pred_y p;
                        pos_width := pred_width p; pos_height := pred_height p |} |}])) ∧
    (∀ i : nat, (length predictions ≤ i)%nat →
       student_tracks self' !! student_id i = student_tracks self !! student_id i) ∧
    (∀ key, (∀ i : nat, key ≠ student_id i) →
       student_tracks self' !! key = student_tracks self !! key) ∧
    (∀ key, default [] (student_tracks self !! key)
              `prefix_of` default [] (student_tracks self' !! key)) ∧
    (∀ key, (length (default [] (student_tracks self !! key))
             ≤ length (default [] (student_tracks self' !! key)))%nat).
Proof.
  intros Hz.
  destruct (track_predictions_ok (fps self) frame_number _ predictions
              (truediv_ok (Int frame_number) _ Hz) 0%nat (student_tracks self))
    as (tracks' & Hloop & Hhit & Hmiss).
  exists (set_student_tracks self tracks').
  assert (Hprefix : ∀ key, default [] (student_tracks self !! key)
                             `prefix_of` default [] (tracks' !! key)).
  { intros key.
    destruct (decide (key ∈ student_id <$> seq 0 (length predictions))) as [Hin|Hout].
    - apply list_elem_of_fmap in Hin as (i & -> & Hi).
      apply elem_of_seq in Hi.
      destruct (lookup_lt_is_Some_2 predictions i) as [p Hp]; [lia|].
      pose proof (Hhit i p Hp) as Hnew. simpl in Hnew.
      rewrite Hnew. simpl. by apply prefix_app_r.
    - rewrite Hmiss; [reflexivity|].
      intros i Hi ->. apply Hout. apply list_elem_of_fmap.
      exists i. split; [reflexivity|]. apply elem_of_seq. lia. }
  split; [unfold update_tracking; rewrite Hloop; reflexivity|].
  simpl. repeat split.
  - intros i p Hp. apply (Hhit i p Hp).
  - intros i Hi. apply Hmiss. intros j Hj Heq. apply (inj student_id) in Heq. lia.
  - intros key Hkey. apply Hmiss. intros j _. apply Hkey.
  - exact Hprefix.
  - intros key. apply prefix_length, Hprefix.
Qed.

Lemma update_tracking_appends_witness :
  is_zero (fps (init NotLoaded)) = false ∧
  ∃ self',
    update_tracking (init NotLoaded) (Some Scenario.two_students) 10 = Ok self' ∧
    length (default [] (student_tracks self' !! student_id 0)) = 1%nat ∧
    length (default [] (student_tracks self' !! student_id 1)) = 1%nat ∧
    student_tracks self' !! student_id 2 = None.
Proof.
  split; [reflexivity|].
  destruct (update_tracking_appends (init NotLoaded) Scenario.two_students 10 eq_refl)
    as (self' & Hrun & Hhit & Hrest & _).
  exists self'. split; [exact Hrun|].
  rewrite (Hhit 0%nat _ eq_refl), (Hhit 1%nat _ eq_refl), (Hrest 2%nat) by (simpl; lia).
  repeat split.
Defined.

(** ** Slot lengths over a run *)

Lemma frames_beyond_pos (i : nat) (frames : list (list prediction)) :
  frames_beyond i frames ≠ 0%nat ↔ ∃ f, f ∈ frames ∧ (i < length f)%nat.
Proof.
  unfold frames_beyond. split.
  - intros Hne. destruct (filter _ frames) as [|f fs] eqn:Hf; [done|].
    assert (Hin : f ∈ filter (λ f : list prediction, (i < length f)%nat) frames)
      by (rewrite Hf; left).
    apply list_elem_of_filter in Hin as [Hlen Hin]. eauto.
  - intros (f & Hin & Hlen) Hzero.
    assert (Hf : f ∈ filter (λ f : list prediction, (i < length f)%nat) frames)
      by (apply list_elem_of_filter; done).
    apply nil_length_inv in Hzero. rewrite Hzero in Hf. by apply elem_of_nil in Hf.
Qed.

Lemma frames_beyond_mono (i : nat) (frames : list (list prediction)) :
  (frames_beyond (S i) frames ≤ frames_beyond i frames)%nat.
Proof.
  unfold frames_beyond. induction frames as [|f frames IH]; [done|].
  rewrite !filter_cons.
  destruct (decide (S i < length f)%nat), (decide (i < length f)%nat); simpl; lia.
Qed.

(** The invariant of tracking: slot [i] has one entry for each frame with
    more than [i] detections, and the dictionary holds nothing else. *)
Lemma tracked_invariant frames self :
  tracked_from_empty frames self →
  (∀ i, slot_length self i = frames_beyond i frames) ∧
  (∀ key l, student_tracks self !! key = Some l → l ≠ [] ∧ ∃ i, key = student_id i).
Proof.
  induction 1 as [self Hempty|frames self predictions n self' _ [IHlen IHkeys] Hstep].
  - split.
    + intros i. unfold slot_length. rewrite Hempty, lookup_empty. reflexivity.
    + intros key l. rewrite Hempty, lookup_empty. discriminate.
  - apply update_tracking_spec in Hstep as (_ & _ & _ & _ & _ & Hhit & Hmiss).
    split.
    + intros i. unfold frames_beyond. rewrite filter_app, length_app.
      fold (frames_beyond i frames). rewrite <- IHlen.
      rewrite filter_cons, filter_nil. unfold slot_length.
      destruct (decide (i < length predictions)%nat) as [Hlt|Hge].
      * destruct (lookup_lt_is_Some_2 predictions i Hlt) as [p Hp].
        destruct (Hhit i p Hp) as (e & -> & _). simpl.
        rewrite length_app. reflexivity.
      * rewrite Hmiss; [simpl; lia|].
        intros j Hj Heq. apply (inj student_id) in Heq. lia.
    + intros key l Hl.
      destruct (decide (key ∈ student_id <$> seq 0 (length predictions))) as [Hin|Hout].
      * apply list_elem_of_fmap in Hin as (i & -> & Hi). apply elem_of_seq in Hi.
        destruct (lookup_lt_is_Some_2 predictions i) as [p Hp]; [lia|].
        destruct (Hhit i p Hp) as (e & Hnew & _).
        rewrite Hnew in Hl. injection Hl as <-.
        split; [|by exists i]. intros Hnil. by apply app_nil in Hnil as [_ ?].
      * rewrite Hmiss in Hl; [by apply IHkeys|].
        intros j Hj ->. apply Hout, list_elem_of_fmap.
        exists j. split; [reflexivity|]. apply elem_of_seq. lia.
Qed.

Lemma max_list_length_bound (frames : list (list prediction)) (i : nat) :
  (i < max_list (length <$> frames))%nat ↔ ∃ f, f ∈ frames ∧ (i < length f)%nat.
Proof.
  split.
  - intros Hlt.
    assert (Hne : length <$> frames ≠ []) by (intros Heq; rewrite Heq in Hlt; simpl in Hlt; lia).
    apply max_list_elem_of in Hne.
    apply list_elem_of_fmap in Hne as (f & Heq & Hin).
    exists f. split; [exact Hin|]. lia.
  - intros (f & Hin & Hlt).
    assert (Hle : (length f ≤ max_list (length <$> frames))%nat).
    { apply max_list_elem_of_le, list_elem_of_fmap. by exists f. }
    lia.
Qed.

(** C10: after any sequence of tracking updates from an analyzer without
    tracks, the timeline of slot [i] is at least as long as that of slot
    [i+1]; slot [i] is non-empty exactly when some processed frame had more
    than [i] detections; and the number of non-empty slots is the largest
    number of detections of a single processed frame. *)
Theorem slot_lengths_nonincreasing frames self :
  tracked_from_empty frames self →
  (∀ i, (slot_length self (S i) ≤ slot_length self i)%nat) ∧
  (∀ i, slot_length self i ≠ 0%nat ↔ ∃ f, f ∈ frames ∧ (i < length f)%nat) ∧
  size (filter nonempty_slot (student_tracks self)) = max_list (length <$> frames).
Proof.
  intros Hrun. destruct (tracked_invariant _ _ Hrun) as [Hlen Hkeys].
  split; [|split].
  - intros i. rewrite !Hlen. apply frames_beyond_mono.
  - intros i. rewrite Hlen. apply frames_beyond_pos.
  - rewrite map_filter_id by (intros key l Hl; apply (Hkeys key l Hl)).
    rewrite <- (size_dom (D := gset string)).
    assert (Hdom : dom (student_tracks self) =
                   list_to_set (student_id <$> seq 0 (max_list (length <$> frames)))).
    { apply set_eq. intros key.
      rewrite elem_of_dom, elem_of_list_to_set, list_elem_of_fmap. split.
      - intros [l Hl]. destruct (Hkeys key l Hl) as (Hne & i & ->).
        exists i. split; [reflexivity|]. apply elem_of_seq. split; [lia|]. simpl.
        apply max_list_length_bound, frames_beyond_pos. rewrite <- Hlen.
        unfold slot_length. rewrite Hl. simpl. by destruct l.
      - intros (i & -> & Hi). apply elem_of_seq in Hi as [_ Hi]. simpl in Hi.
        apply max_list_length_bound, frames_beyond_pos in Hi. rewrite <- Hlen in Hi.
        unfold slot_length in Hi.
        destruct (student_tracks self !! student_id i) as [l|]; [by eexists|done]. }
    rewrite Hdom, size_list_to_set.
    + by rewrite length_fmap, length_seq.
    + apply NoDup_fmap_2; [apply _|apply NoDup_seq].
Qed.

Lemma slot_lengths_nonincreasing_witness :
  tracked_from_empty [Scenario.two_students; [Scenario.pred "reading"]] Scenario.after_second ∧
  slot_length Scenario.after_second 0 = 2%nat ∧
  slot_length Scenario.after_second 1 = 1%nat ∧
  size (filter nonempty_slot (student_tracks Scenario.after_second)) = 2%nat.
Proof.
  assert (Hrun : tracked_from_empty [Scenario.two_students; [Scenario.pred "reading"]]
                   Scenario.after_second).
  { apply (tracked_snoc [Scenario.two_students] Scenario.after_first _ 5).
    - apply (tracked_snoc [] (init NotLoaded) _ 0); [by apply tracked_nil|].
      vm_compute. reflexivity.
    - vm_compute. reflexivity. }
  split; [exact Hrun|].
  split; [vm_compute; reflexivity|]. split; [vm_compute; reflexivity|].
  destruct (slot_lengths_nonincreasing _ _ Hrun) as (_ & _ & ->). reflexivity.
Defined.

(** ** Reset *)

(** C8, as the code has it: [reset_analysis] puts the tracks, the
    detection results, the frame counter and the student summaries back to
    their initial values and leaves the backend as it was, so the state is
    that of a fresh analyzer of the same configuration except for [fps],
    which keeps the value of the last video; a summary asked for after the
    reset is the one a fresh analyzer gives. *)
Lemma reset_analysis_eq o self :
  same_config self (init o) →
  reset_analysis self = set_fps (init o) (fps self).
Proof.
  intros (Hmodel & Htype & Hnames).
  unfold reset_analysis, set_fps. rewrite Hmodel, Htype, Hnames.
  destruct o; reflexivity.
Qed.

Theorem reset_analysis_restores o self :
  same_config self (init o) →
  student_tracks (reset_analysis self) = ∅ ∧
  detection_results (reset_analysis self) = [] ∧
  frame_count (reset_analysis self) = 0 ∧
  student_summaries (reset_analysis self) = ∅ ∧
  fps (reset_analysis self) = fps self ∧
  reset_analysis self = set_fps (init o) (fps self) ∧
  generate_video_summary (reset_analysis self) = generate_video_summary (init o) ∧
  (fps self = Int 30 → reset_analysis self = init o).
Proof.
  intros Hcfg.
  assert (Heq := reset_analysis_eq o self Hcfg).
  repeat split; try done.
  - destruct o; reflexivity.
  - intros Hfps. rewrite Heq, Hfps. destruct o; reflexivity.
Qed.

Lemma reset_analysis_restores_witness :
  same_config Scenario.tie_analyzer (init NotLoaded) ∧
  reset_analysis Scenario.tie_analyzer = init NotLoaded.
Proof.
  assert (Hcfg : same_config Scenario.tie_analyzer (init NotLoaded)) by (repeat split).
  split; [exact Hcfg|].
  apply (reset_analysis_restores NotLoaded Scenario.tie_analyzer Hcfg). reflexivity.
Defined.

Lemma reset_analysis_keeps_fps :
  ∃ run, process_video (init NotLoaded) (Some Scenario.vga_video) None 5 false = Ok run ∧
    fps (reset_analysis (run_self run)) = Flt 25%float ∧
    fps (init NotLoaded) = Int 30 ∧
    reset_analysis (run_self run) ≠ init NotLoaded.
Proof.
  eexists. split; [vm_compute; reflexivity|].
  split; [reflexivity|]. split; [reflexivity|].
  intros Heq. apply (f_equal fps) in Heq. simpl in Heq. discriminate.
Qed.

(** ** The synthetic detector *)

Global Arguments randint : simpl never.

Lemma randint_ok (a b r : Z) :
  a ≤ b → ∃ v, randint a b r = Ok v ∧ a ≤ v ≤ b.
Proof.
  intros Hab. unfold randint.
  destruct (Z.ltb_spec b a) as [?|_]; [lia|].
  eexists. split; [reflexivity|].
  pose proof (Z.mod_pos_bound r (b - a + 1)). lia.
Qed.

Lemma randint_empty (a b r : Z) : b < a → randint a b r = Raise ValueError.
Proof.
  intros Hab. unfold randint. destruct (Z.ltb_spec b a) as [_|?]; [reflexivity|lia].
Qed.

(** X21: the boxes of the synthetic detector: the centre is the midpoint of the
    corners, while the corners are an even number of pixels apart, one
    less than an odd width or height. *)
Lemma mock_box_geometry width height d p :
  mock_box width height d = Ok p →
  ∃ x y w h x1 y1 x2 y2,
    pred_x p = Int x ∧ pred_y p = Int y ∧ pred_width p = Int w ∧ pred_height p = Int h ∧
    pred_x1 p = Int x1 ∧ pred_y1 p = Int y1 ∧ pred_x2 p = Int x2 ∧ pred_y2 p = Int y2 ∧
    80 ≤ w ≤ 150 ∧ 120 ≤ h ≤ 200 ∧
    x1 + x2 = 2 * x ∧ y1 + y2 = 2 * y ∧
    x2 - x1 = w - w mod 2 ∧ y2 - y1 = h - h mod 2.
Proof.
  unfold mock_box. intros Hbox.
  destruct (randint 100 (width - 100) (draw_x d)) as [x|] eqn:Hx; [|discriminate].
  destruct (randint 100 (height - 100) (draw_y d)) as [y|] eqn:Hy; [|discriminate].
  destruct (randint_ok 80 150 (draw_w d)) as (w & Hw & Hwr); [lia|].
  destruct (randint_ok 120 200 (draw_h d)) as (h & Hh & Hhr); [lia|].
  rewrite Hw, Hh in Hbox. simpl in Hbox. injection Hbox as <-.
  exists x, y, w, h, (x - w / 2), (y - h / 2), (x + w / 2), (y + h / 2). simpl.
  pose proof (Z.div_mod w 2). pose proof (Z.div_mod h 2).
  repeat split; lia.
Qed.

Lemma mock_box_small width height d :
  width < 200 ∨ height < 200 → mock_box width height d = Raise ValueError.
Proof.
  intros Hsmall. unfold mock_box.
  destruct (Z.lt_ge_cases width 200) as [Hw|Hw].
  - rewrite (randint_empty 100 (width - 100)) by lia. reflexivity.
  - destruct (randint_ok 100 (width - 100) (draw_x d)) as (x & -> & _); [lia|].
    rewrite (randint_empty 100 (height - 100)) by lia. reflexivity.
Qed.

Lemma mock_box_large width height d :
  200 ≤ width → 200 ≤ height → ∃ p, mock_box width height d = Ok p.
Proof.
  intros Hw Hh. unfold mock_box.
  destruct (randint_ok 100 (width - 100) (draw_x d)) as (x & -> & _); [lia|].
  destruct (randint_ok 100 (height - 100) (draw_y d)) as (y & -> & _); [lia|].
  destruct (randint_ok 80 150 (draw_w d)) as (w & -> & _); [lia|].
  destruct (randint_ok 120 200 (draw_h d)) as (h & -> & _); [lia|].
  simpl. eauto.
Qed.

Lemma mock_boxes_large width height boxes n :
  200 ≤ width → 200 ≤ height →
  ∀ i, ∃ ps, mock_boxes width height boxes i n = Ok ps ∧ length ps = n.
Proof.
  intros Hw Hh. induction n as [|n IH]; intros i; simpl.
  - by exists [].
  - destruct (mock_box_large width height (boxes i) Hw Hh) as [p ->].
    destruct (IH (S i)) as (ps & -> & Hlen). simpl.
    exists (p :: ps). split; [reflexivity|]. simpl. by rewrite Hlen.
Qed.

(** On an image with a side under 200 pixels the synthetic detector
    raises: [random.randint(100, side - 100)] has an empty range. *)
Lemma mock_detection_small im d :
  img_width im < 200 ∨ img_height im < 200 →
  mock_detection (Some im) d = Raise ValueError.
Proof.
  intros Hsmall. unfold mock_detection.
  destruct (randint_ok 2 5 (draw_count d)) as (n & -> & Hn); [lia|]. simpl.
  destruct (Z.to_nat n) as [|n'] eqn:Hnat; [lia|]. simpl.
  by rewrite mock_box_small.
Qed.

(** Otherwise it returns two to five detections, or none for an image
    that cannot be read. *)
Lemma mock_detection_returns img d :
  (∀ im, img = Some im → 200 ≤ img_width im ∧ 200 ≤ img_height im) →
  ∃ ps, mock_detection img d = Ok (Some ps) ∧
    (img = None → ps = []) ∧ (img ≠ None → (2 ≤ length ps ≤ 5)%nat).
Proof.
  intros Hbig. destruct img as [im|]; unfold mock_detection.
  - destruct (Hbig im eq_refl) as [Hw Hh].
    destruct (randint_ok 2 5 (draw_count d)) as (n & -> & Hn); [lia|]. simpl.
    destruct (mock_boxes_large (img_width im) (img_height im) (draw_boxes d)
                (Z.to_nat n) Hw Hh 0%nat) as (ps & -> & Hlen).
    simpl. exists ps. split; [reflexivity|]. split; [discriminate|]. intros _. lia.
  - exists []. split; [reflexivity|]. split; [reflexivity|]. done.
Qed.

(** C5, at a failing input: in synthetic mode on a 640x480 image, a box
    drawn 81 wide and 121 high around (200, 200) is reported with width 81
    and height 121 but with corners 160..240 and 140..260, which are 80 and
    120 apart. *)
Theorem mock_detection_odd_size :
  ∃ p rest,
    mock_detection (Some {| img_height := 480; img_width := 640 |}) Scenario.odd_draws
      = Ok (Some (p :: rest)) ∧
    pred_x p = Int 200 ∧ pred_width p = Int 81 ∧
    pred_x1 p = Int 160 ∧ pred_x2 p = Int 240 ∧ 240 - 160 ≠ 81 ∧
    pred_y p = Int 200 ∧ pred_height p = Int 121 ∧
    pred_y1 p = Int 140 ∧ pred_y2 p = Int 260 ∧ 260 - 140 ≠ 121.
Proof.
  eexists. eexists. split; [vm_compute; reflexivity|].
  simpl. repeat split; lia.
Qed.

(** ** Detection and its fallback *)

(** Detection reads the configuration of the analyzer only. *)
Lemma detect_objects_same_config a b env :
  same_config a b → detect_objects a env = detect_objects b env.
Proof.
  intros (Hmodel & Htype & Hnames). unfold detect_objects.
  rewrite Hmodel, Htype.
  assert (Hv8 : parse_yolov8_results a = parse_yolov8_results b).
  { unfold parse_yolov8_results, parse_yolov8_box, class_name_of. by rewrite Hnames. }
  assert (Hv5 : parse_yolov5_results a = parse_yolov5_results b).
  { unfold parse_yolov5_results, parse_yolov5_row, class_name_of. by rewrite Hnames. }
  by rewrite Hv8, Hv5.
Qed.

(** Without a backend, detection is the synthetic detector, tried a second
    time when it raises. *)
Lemma detect_objects_unavailable self env :
  model self = false →
  detect_objects self env =
    try_except (mock_detection (env_image env) (env_draws env))
      (λ _, mock_detection (env_image env) (env_retry_draws env)).
Proof.
  intros Hmodel. unfold detect_objects. rewrite Hmodel, !andb_false_r. reflexivity.
Qed.

(** When the call of the backend raises, detection is the synthetic
    detector. *)
Lemma detect_objects_backend_raises self env :
  model self = true →
  (model_type self = "yolov8" ∧ ∃ e, env_yolov8 env = Raise e) ∨
  (model_type self = "yolov5" ∧ ∃ e, env_yolov5 env = Raise e) →
  detect_objects self env = mock_detection (env_image env) (env_retry_draws env).
Proof.
  intros Hmodel [[Htype [e He]]|[Htype [e He]]];
    unfold detect_objects; rewrite Hmodel, Htype, He; reflexivity.
Qed.

(** X20: the fallback returns whenever the synthetic detector can: on an image
    that cannot be read, or one with both sides of 200 pixels or more. *)
Lemma detect_objects_falls_back self env :
  model self = false ∨
  (model self = true ∧
   ((model_type self = "yolov8" ∧ ∃ e, env_yolov8 env = Raise e) ∨
    (model_type self = "yolov5" ∧ ∃ e, env_yolov5 env = Raise e))) →
  (∀ im, env_image env = Some im → 200 ≤ img_width im ∧ 200 ≤ img_height im) →
  ∃ d ps, (d = env_draws env ∨ d = env_retry_draws env) ∧
    mock_detection (env_image env) d = Ok (Some ps) ∧
    detect_objects self env = Ok (Some ps).
Proof.
  intros [Hno|[Hyes Hraise]] Hbig.
  - destruct (mock_detection_returns (env_image env) (env_draws env) Hbig) as (ps & Hps & _).
    exists (env_draws env), ps. split; [by left|]. split; [exact Hps|].
    rewrite detect_objects_unavailable by done. by rewrite Hps.
  - destruct (mock_detection_returns (env_image env) (env_retry_draws env) Hbig)
      as (ps & Hps & _).
    exists (env_retry_draws env), ps. split; [by right|]. split; [exact Hps|].
    by rewrite detect_objects_backend_raises.
Qed.

(** C7, at a failing input: on a frame of 150x150 pixels, detection
    without a backend, and detection with a backend that raises, both raise
    [ValueError] whatever the draws, and processing a video of such frames
    without a backend stops with that exception at the first frame. *)
Theorem detect_objects_small_frame_raises :
  (∀ d d',
     detect_objects (init NotLoaded)
       {| env_image := Some {| img_height := 150; img_width := 150 |};
          env_yolov8 := Raise BackendError; env_yolov5 := Raise BackendError;
          env_draws := d; env_retry_draws := d' |} = Raise ValueError) ∧
  (∀ d d',
     detect_objects (init (LoadedYolov8 None))
       {| env_image := Some {| img_height := 150; img_width := 150 |};
          env_yolov8 := Raise BackendError; env_yolov5 := Raise BackendError;
          env_draws := d; env_retry_draws := d' |} = Raise ValueError) ∧
  process_video (init NotLoaded) (Some Scenario.small_video) None 5 false = Raise ValueError.
Proof.
  split; [|split].
  - intros d d'. rewrite detect_objects_unavailable by reflexivity. simpl env_image.
    rewrite !mock_detection_small by (simpl; lia). reflexivity.
  - intros d d'. rewrite detect_objects_backend_raises.
    + apply mock_detection_small. simpl. lia.
    + reflexivity.
    + left. split; [reflexivity|]. by eexists.
  - vm_compute. reflexivity.
Qed.

(** ** Single images *)

(** C6, as the code has it: when detection on an image returns an empty
    list, processing the image raises nothing and returns the triple
    (None, None, None): no path, no results and no summary, the value it
    also returns for an image that cannot be read.  The summary of zeros (no
    students, rate 0, empty breakdown) is what [generate_image_summary]
    returns when it is called on an empty list, and its value
    [{'error': 'No detections found'}] is returned for a results value that
    is falsy or has no 'predictions'. *)
Theorem empty_detection_is_soft self env output_path :
  detect_objects self env = Ok (Some []) →
  process_single_image self env output_path = Ok (None, None, None) ∧
  (∀ self' env' output_path' res,
     env_image env' = None →
     detect_objects self' env' = Ok res →
     process_single_image self' env' output_path' = Ok (None, None, None)) ∧
  generate_image_summary (Some []) =
    ImageSummary {| total_students := 0; attentive_students := 0;
                    distracted_students := 0; engagement_rate := Int 0;
                    image_activity_breakdown := ∅ |} ∧
  generate_image_summary None = ImageError "No detections found".
Proof.
  intros Hdet. split; [|split; [|split; reflexivity]].
  - unfold process_single_image. rewrite Hdet. reflexivity.
  - intros self' env' output_path' res Himg Hdet'.
    unfold process_single_image. rewrite Hdet', Himg. step.
    by destruct (has_predictions res).
Qed.

Lemma empty_detection_is_soft_witness :
  detect_objects (init (LoadedYolov8 None)) (Scenario.seen_by_yolov8 []) = Ok (Some []) ∧
  env_image (Scenario.seen_by_yolov8 []) = Some {| img_height := 480; img_width := 640 |} ∧
  process_single_image (init (LoadedYolov8 None)) (Scenario.seen_by_yolov8 []) (Some "out.jpg")
    = Ok (None, None, None).
Proof.
  assert (Hdet : detect_objects (init (LoadedYolov8 None)) (Scenario.seen_by_yolov8 [])
                 = Ok (Some [])) by reflexivity.
  split; [exact Hdet|]. split; [reflexivity|].
  apply (empty_detection_is_soft (init (LoadedYolov8 None)) (Scenario.seen_by_yolov8 [])
           (Some "out.jpg") Hdet).
Defined.

(** A readable image of 640x480 on which the backend finds nobody: the
    caller gets no summary at all, neither a summary of zeros nor an error
    value, and gets the same triple as for an image that cannot be read. *)
Lemma empty_detection_returns_no_summary :
  detect_objects (init (LoadedYolov8 None)) (Scenario.seen_by_yolov8 []) = Ok (Some []) ∧
  process_single_image (init (LoadedYolov8 None)) (Scenario.seen_by_yolov8 []) (Some "out.jpg")
    = process_single_image (init (LoadedYolov8 None)) Scenario.unreadable (Some "out.jpg") ∧
  ¬ ∃ path res summary,
      process_single_image (init (LoadedYolov8 None)) (Scenario.seen_by_yolov8 [])
        (Some "out.jpg") = Ok (path, res, Some summary).
Proof.
  split; [reflexivity|]. split; [reflexivity|].
  intros (path & res & summary & Hret). discriminate Hret.
Qed.

(** ** Frame sampling *)

Section sorted_filter.
Context {A : Type} (R : relation A) (P : A → Prop) `{!∀ x, Decision (P x)}.

End sorted_filter.

Lemma seqZ_succ (m : Z) (len : nat) :
  seqZ m (Z.of_nat (S len)) = m :: seqZ (m + 1) (Z.of_nat len).
Proof.
  rewrite seqZ_cons by lia. f_equal. f_equal; lia.
Qed.




Lemma numbered_cons (start : Z) (env : detect_env) (rest : list detect_env) :
  numbered start (env :: rest) = (start, env) :: numbered (start + 1) rest.
Proof. unfold numbered. simpl length. rewrite seqZ_succ. reflexivity. Qed.

Lemma sampled_frames_nil (k start : Z) : sampled_frames k start [] = [].
Proof. reflexivity. Qed.

Lemma sampled_frames_cons (k start : Z) (env : detect_env) (rest : list detect_env) :
  sampled_frames k start (env :: rest) =
    (if decide (start mod k = 0) then [(start, env)] else [])
      ++ sampled_frames k (start + 1) rest.
Proof.
  unfold sampled_frames. rewrite numbered_cons, filter_cons. simpl.
  destruct (decide (start mod k = 0)); reflexivity.
Qed.


(** ** The loop of [process_video] *)

Lemma same_config_refl a : same_config a a.
Proof. by repeat split. Qed.

Lemma same_config_trans a b c : same_config a b → same_config b c → same_config a c.
Proof. intros (? & ? & ?) (? & ? & ?). repeat split; congruence. Qed.

Lemma detects_something_same_config a b p :
  same_config a b → detects_something a p = detects_something b p.
Proof.
  intros Hcfg. unfold detects_something. by rewrite (detect_objects_same_config a b).
Qed.

Lemma update_tracking_returns self predictions n :
  is_zero (fps self) = false →
  ∃ self', update_tracking self (Some predictions) n = Ok self'.
Proof.
  intros Hz.
  destruct (track_predictions_ok (fps self) n _ predictions (truediv_ok (Int n) _ Hz)
              0%nat (student_tracks self)) as (tracks' & Hloop & _).
  exists (set_student_tracks self tracks'). unfold update_tracking. by rewrite Hloop.
Qed.

Lemma has_predictions_cons (res : results) :
  has_predictions res = true → ∃ p ps, res = Some (p :: ps).
Proof. destruct res as [[|p ps]|]; try discriminate. eauto. Qed.

(** One sampled frame: detection is called on it, and a record is stored
    exactly when detection found something. *)
Lemma process_sampled_frame_spec tf cb env n st st' :
  process_sampled_frame tf cb env n st = Ok st' →
  same_config (loop_self st) (loop_self st') ∧
  fps (loop_self st') = fps (loop_self st) ∧
  loop_detected st' = loop_detected st ++ [n] ∧
  length (detection_results (loop_self st')) =
    (length (detection_results (loop_self st))
     + (if detects_something (loop_self st) (n, env) then 1 else 0))%nat.
Proof.
  unfold process_sampled_frame, detects_something. cbn [snd].
  destruct (detect_objects (loop_self st) env) as [res|] eqn:Hdet; [|discriminate].
  step.
  destruct (has_predictions res) eqn:Hhas.
  - destruct (has_predictions_cons res Hhas) as (p & ps & ->).
    destruct (update_tracking (loop_self st) (Some (p :: ps)) n) as [tracked|] eqn:Hupd;
      [|discriminate].
    step.
    destruct (truediv (Int n) (fps tracked)) as [ts|]; [|discriminate].
    step.
    case_test.
    + destruct (truediv (Int n) (Int tf)) as [ratio|]; [|discriminate].
      step. intros [= <-]. cbn.
      apply update_tracking_spec in Hupd as ((Hc1 & Hc2 & Hc3) & Hfps & _ & Hres & _).
      rewrite length_app, Hres. simpl. repeat split; simpl; (done || lia).
    + step. intros [= <-]. cbn.
      apply update_tracking_spec in Hupd as ((Hc1 & Hc2 & Hc3) & Hfps & _ & Hres & _).
      rewrite length_app, Hres. simpl. repeat split; simpl; (done || lia).
  - step.
    case_test.
    + destruct (truediv (Int n) (Int tf)) as [ratio|]; [|discriminate].
      step. intros [= <-]. cbn.
      repeat split; (done || lia).
    + step. intros [= <-]. cbn.
      repeat split; (done || lia).
Qed.


Lemma pymod_ok (a b r : Z) : pymod a b = Ok r → b ≠ 0 ∧ r = a mod b.
Proof.
  unfold pymod. destruct (Z.eqb_spec b 0) as [|Hb]; [discriminate|].
  intros [= <-]. done.
Qed.


(** The loop calls detection on the sampled frames, in order, and stores
    one record for each of them on which detection found something. *)
Lemma video_loop_spec k tf cb self0 frames :
  ∀ n st st',
    same_config self0 (loop_self st) →
    video_loop k tf cb frames n st = Ok st' →
    same_config self0 (loop_self st') ∧
    fps (loop_self st') = fps (loop_self st) ∧
    loop_detected st' = loop_detected st ++ (sampled_frames k n frames).*1 ∧
    length (detection_results (loop_self st')) =
      (length (detection_results (loop_self st))
       + length (filter (λ p, detects_something self0 p = true)
                   (sampled_frames k n frames)))%nat.
Proof.
  induction frames as [|env rest IH]; intros n st st' Hcfg Hloop.
  - injection Hloop as <-. rewrite sampled_frames_nil, app_nil_r. simpl.
    split; [exact Hcfg|]. repeat split; lia.
  - simpl in Hloop.
    destruct (pymod n k) as [r|] eqn:Hmod; [|discriminate].
    apply pymod_ok in Hmod as [Hk ->]. step_in Hloop.
    rewrite sampled_frames_cons.
    destruct (Z.eqb_spec (n mod k) 0) as [Hz|Hnz].
    + destruct (process_sampled_frame tf cb env n st) as [st1|] eqn:Hstep; [|discriminate].
      step_in Hloop.
      apply process_sampled_frame_spec in Hstep as (Hcfg1 & Hfps1 & Hdet1 & Hlen1).
      destruct (IH (n + 1) st1 st' (same_config_trans _ _ _ Hcfg Hcfg1) Hloop)
        as (Hcfg' & Hfps' & Hdet' & Hlen').
      rewrite (decide_True (P := n mod k = 0)) by done.
      rewrite <- (detects_something_same_config self0 (loop_self st)) in Hlen1 by done.
      split; [exact Hcfg'|]. split; [congruence|]. split.
      * rewrite Hdet', Hdet1, fmap_app, <- app_assoc. reflexivity.
      * rewrite Hlen', Hlen1, filter_app, length_app, filter_cons, filter_nil.
        destruct (detects_something self0 (n, env)); simpl; lia.
    + step_in Hloop.
      rewrite (decide_False (P := n mod k = 0)) by done.
      apply (IH (n + 1) st st' Hcfg Hloop).
Qed.


(** A completed call of [process_video] on an opened source. *)
Lemma process_video_spec self cap output_path k cb run :
  process_video self (Some cap) output_path k cb = Ok run →
  same_config self (run_self run) ∧
  fps (run_self run) = Flt (video_fps cap) ∧
  run_output run = output_path ∧
  run_summary run = Some (generate_video_summary (run_self run)) ∧
  run_detected run = (sampled_frames k 0 (video_frames cap)).*1 ∧
  length (detection_results (run_self run)) =
    (length (detection_results self)
     + length (filter (λ p, detects_something self p = true)
                 (sampled_frames k 0 (video_frames cap))))%nat.
Proof.
  unfold process_video.
  destruct (truediv (Int (video_frame_count cap)) (fps (set_fps self (Flt (video_fps cap)))))
    as [duration|]; [|discriminate].
  step.
  case_test.
  - destruct (truediv _ _) as [rate|]; [|discriminate]. step.
    destruct (video_loop _ _ _ _ _ _) as [st|] eqn:Hloop; [|discriminate].
    step. intros [= <-]. cbn.
    apply (video_loop_spec k _ cb self) in Hloop as (Hcfg & Hfps & Hdet & Hlen);
      [|by repeat split].
    repeat split; try done; apply Hcfg.
  - step.
    destruct (video_loop _ _ _ _ _ _) as [st|] eqn:Hloop; [|discriminate].
    step. intros [= <-]. cbn.
    apply (video_loop_spec k _ cb self) in Hloop as (Hcfg & Hfps & Hdet & Hlen);
      [|by repeat split].
    repeat split; try done; apply Hcfg.
Qed.








(** C3, as the code has it: in the summary of a completed run on a fresh
    analyzer, students_tracked is the number of non-empty track slots,
    total_frames_analyzed is the number of sampled frames on which
    detection found at least one object (sampled frames without detections
    are not counted), and video_duration is that number divided by fps when
    fps is positive, 0 otherwise. *)
Theorem video_summary_totals o cap output_path k cb run stats :
  process_video (init o) (Some cap) output_path k cb = Ok run →
  run_summary run = Some (VideoSummary stats) →
  students_tracked stats = size (filter nonempty_slot (student_tracks (run_self run))) ∧
  total_frames_analyzed stats =
    length (filter (λ p, detects_something (init o) p = true)
              (sampled_frames k 0 (video_frames cap))) ∧
  (total_frames_analyzed stats ≤ length (run_detected run))%nat ∧
  video_duration stats =
    (if gtb (Flt (video_fps cap)) (Int 0)
     then Flt (PrimFloat.div (float_of_Z (Z.of_nat (total_frames_analyzed stats)))
                 (video_fps cap))
     else Int 0).
Proof.
  intros Hrun Hsum.
  apply process_video_spec in Hrun as (_ & Hfps & _ & Hsummary & Hdet & Hlen).
  rewrite Hsummary in Hsum. injection Hsum as Hsum.
  apply video_summary_stats in Hsum as (_ & _ & Htracked & Htotal & Hduration).
  assert (Hcount : total_frames_analyzed stats =
            length (filter (λ p, detects_something (init o) p = true)
                      (sampled_frames k 0 (video_frames cap)))).
  { rewrite Htotal, Hlen. by destruct o. }
  split; [exact Htracked|]. split; [exact Hcount|]. split.
  - rewrite Hcount, Hdet, length_fmap. apply length_filter.
  - rewrite Hduration, Hfps, <- Htotal. reflexivity.
Qed.

Lemma video_summary_totals_witness :
  process_video (init NotLoaded) (Some Scenario.vga_video) None 5 false = Ok Scenario.vga_run ∧
  run_summary Scenario.vga_run = Some (VideoSummary Scenario.vga_stats) ∧
  total_frames_analyzed Scenario.vga_stats = 2%nat ∧
  students_tracked Scenario.vga_stats = 2%nat.
Proof.
  assert (Hrun : process_video (init NotLoaded) (Some Scenario.vga_video) None 5 false
                 = Ok Scenario.vga_run) by (vm_compute; reflexivity).
  assert (Hsum : run_summary Scenario.vga_run = Some (VideoSummary Scenario.vga_stats))
    by (vm_compute; reflexivity).
  split; [exact Hrun|]. split; [exact Hsum|].
  destruct (video_summary_totals NotLoaded Scenario.vga_video None 5 false _ _ Hrun Hsum)
    as (Htracked & Htotal & _).
  split.
  - rewrite Htotal. vm_compute. reflexivity.
  - rewrite Htracked. vm_compute. reflexivity.
Defined.

Lemma video_summary_skips_empty_frames :
  ∃ run stats,
    process_video (init (LoadedYolov8 None)) (Some Scenario.half_empty_video) None 1 false
      = Ok run ∧
    run_summary run = Some (VideoSummary stats) ∧
    run_detected run = [0; 1] ∧
    total_frames_analyzed stats = 1%nat ∧
    total_frames_analyzed stats ≠ length (run_detected run) ∧
    video_duration stats = Flt (PrimFloat.div 1%float 25%float) ∧
    video_duration stats ≠ Flt (PrimFloat.div 2%float 25%float).
Proof.
  eexists. eexists. split; [vm_compute; reflexivity|].
  split; [reflexivity|]. split; [reflexivity|]. split; [reflexivity|].
  split; [simpl; lia|]. split; [vm_compute; reflexivity|].
  intros Heq. apply (f_equal to_float) in Heq. vm_compute in Heq.
  revert Heq. apply float_neq_by_ltb. vm_compute. reflexivity.
Qed.

(** The alternating scenario: ten sampled frames, one slot with ten
    entries, 50 percent attentive, 50 percent distracted, labelled
    "Distracted". *)
Example alternating_video_is_a_tie :
  ∃ run stats r,
    process_video (init (LoadedYolov8 None)) (Some Scenario.alternating_video) None 1 false
      = Ok run ∧
    run_summary run = Some (VideoSummary stats) ∧
    total_frames_analyzed stats = 10%nat ∧
    students_tracked stats = 1%nat ∧
    student_analysis stats !! "student_0" = Some r ∧
    total_detections r = 10%nat ∧
    attentive_percentage r = Flt 50%float ∧
    distracted_percentage r = Flt 50%float ∧
    classification r = "Distracted".
Proof.
  eexists. eexists. eexists.
  split; [vm_compute; reflexivity|].
  split; [reflexivity|].
  repeat split; vm_compute; reflexivity.
Qed.

(** ** Reset after a run *)

Lemma same_config_sym a b : same_config a b → same_config b a.
Proof. intros (? & ? & ?). by repeat split. Qed.

(** After a video has been processed on a fresh analyzer, resetting gives
    the fresh analyzer again, with the fps of that video in place of 30. *)
Lemma reset_after_video o cap output_path k cb run :
  process_video (init o) (Some cap) output_path k cb = Ok run →
  reset_analysis (run_self run) = set_fps (init o) (Flt (video_fps cap)).
Proof.
  intros Hrun.
  apply process_video_spec in Hrun as (Hcfg & Hfps & _).
  rewrite (reset_analysis_eq o) by (by apply same_config_sym).
  by rewrite Hfps.
Qed.

(** Single images leave the analyzer as it is, so there a reset gives the
    fresh analyzer exactly. *)
Lemma reset_fresh o : reset_analysis (init o) = init o.
Proof. by destruct o. Qed.

(** * Further properties *)

(** ** Labels and histograms *)

(** No label is both attentive and distracted. *)
Lemma activity_groups_disjoint (a : string) :
  a ∈ attentive_activities → a ∈ distracted_activities → False.
Proof.
  unfold attentive_activities, distracted_activities.
  rewrite !elem_of_cons, !elem_of_nil. intros Ha Hd.
  destruct Ha as [->|[->|[->|[]]]]; destruct Hd as [?|[?|[?|[?|[]]]]]; discriminate.
Qed.

(** Every label falls in exactly one of three classes: attentive,
    distracted, neither. *)
Lemma count_in_partition (activities : list string) :
  (count_in attentive_activities activities
   + count_in distracted_activities activities
   + length (filter (λ a, (a ∉ attentive_activities) ∧ (a ∉ distracted_activities)) activities)
   = length activities)%nat.
Proof.
  unfold count_in. induction activities as [|a l IH]; [reflexivity|].
  rewrite !filter_cons.
  destruct (decide (a ∈ attentive_activities)) as [Ha|Ha];
    destruct (decide (a ∈ distracted_activities)) as [Hd|Hd].
  - destruct (activity_groups_disjoint a Ha Hd).
  - rewrite decide_False by tauto. simpl. lia.
  - rewrite decide_False by tauto. simpl. lia.
  - rewrite decide_True by tauto. simpl. lia.
Qed.

Lemma length_filter_all {A} (P : A → Prop) `{!∀ x, Decision (P x)} (l : list A) :
  length (filter P l) = length l ↔ Forall P l.
Proof.
  induction l as [|x l IH].
  - split; [constructor|reflexivity].
  - rewrite filter_cons. destruct (decide (P x)) as [Hx|Hx]; simpl.
    + rewrite Forall_cons. split.
      * intros Hlen. split; [exact Hx|]. apply IH. lia.
      * intros [_ Hall]. f_equal. by apply IH.
    + split.
      * intros Hlen. pose proof (length_filter P l). lia.
      * intros Hall. apply Forall_cons in Hall as [? _]. contradiction.
Qed.

Lemma length_filter_none {A} (P : A → Prop) `{!∀ x, Decision (P x)} (l : list A) :
  length (filter P l) = 0%nat ↔ Forall (λ x, ¬ P x) l.
Proof.
  induction l as [|x l IH].
  - split; [constructor|reflexivity].
  - rewrite filter_cons, Forall_cons. destruct (decide (P x)) as [Hx|Hx]; simpl.
    + split; [lia|]. intros [? _]. contradiction.
    + rewrite IH. tauto.
Qed.

(** [Counter] counts occurrences: a label that does not occur has no
    entry, any other label has its number of occurrences. *)
Lemma Counter_foldl (xs : list string) (m : gmap string nat) (a : string) :
  foldl (λ m a, <[a := S (default 0%nat (m !! a))]> m) m xs !! a =
    match length (filter (λ x, x = a) xs) with
    | O => m !! a
    | S n => Some ((default 0 (m !! a) + S n)%nat)
    end.
Proof.
  revert m. induction xs as [|x xs IH]; intros m; [reflexivity|].
  simpl foldl. rewrite IH, filter_cons.
  destruct (decide (x = a)) as [->|Hne].
  - rewrite lookup_insert_eq. simpl.
    destruct (length (filter (λ x, x = a) xs)); f_equal; lia.
  - rewrite lookup_insert_ne by done. reflexivity.
Qed.

Lemma Counter_lookup (xs : list string) (a : string) :
  Counter xs !! a =
    match length (filter (λ x, x = a) xs) with
    | O => None
    | S n => Some (S n)
    end.
Proof.
  unfold Counter. rewrite Counter_foldl, lookup_empty. reflexivity.
Qed.

Lemma filter_fmap_length {A B} (f : A → B) (P : B → Prop) `{!∀ y, Decision (P y)}
    (l : list A) :
  length (filter P (f <$> l)) = length (filter (λ x, P (f x)) l).
Proof.
  induction l as [|x l IH]; [reflexivity|].
  rewrite fmap_cons, !filter_cons. destruct (decide (P (f x))); simpl; by rewrite IH.
Qed.

(** X1: in every image summary the attentive and the distracted students
    together are at most the total, and they make up the total exactly
    when every detection carries one of the seven labels of the two
    groups: a detection labelled otherwise (such as "student") is counted
    in the total only. *)
Theorem image_summary_groups predictions stats :
  generate_image_summary (Some predictions) = ImageSummary stats →
  (attentive_students stats + distracted_students stats ≤ total_students stats)%nat ∧
  ((attentive_students stats + distracted_students stats = total_students stats)%nat ↔
     Forall (λ p, pred_class p ∈ attentive_activities ∨ pred_class p ∈ distracted_activities)
       predictions).
Proof.
  intros [= <-]. simpl.
  pose proof (count_in_partition (pred_class <$> predictions)) as Hpart.
  rewrite length_fmap in Hpart. split; [lia|].
  assert (Hnone : length (filter (λ a, (a ∉ attentive_activities) ∧ (a ∉ distracted_activities))
                            (pred_class <$> predictions)) = 0%nat ↔
                  Forall (λ p, pred_class p ∈ attentive_activities
                               ∨ pred_class p ∈ distracted_activities) predictions).
  { rewrite length_filter_none, Forall_fmap. apply Forall_iff. intros p. simpl.
    destruct (decide (pred_class p ∈ attentive_activities));
      destruct (decide (pred_class p ∈ distracted_activities)); tauto. }
  rewrite <- Hnone. lia.
Qed.

Lemma image_summary_groups_witness :
  ∃ stats,
    generate_image_summary (Some [Scenario.pred "reading"; Scenario.pred "student"])
      = ImageSummary stats ∧
    (attentive_students stats + distracted_students stats ≤ total_students stats)%nat.
Proof.
  eexists. split; [reflexivity|].
  apply (image_summary_groups [Scenario.pred "reading"; Scenario.pred "student"] _ eq_refl).
Defined.

(** X2: the activity breakdown of an image summary has, for every label,
    the number of detections carrying it, and no entry for a label that no
    detection carries. *)
Theorem image_summary_breakdown predictions stats label :
  generate_image_summary (Some predictions) = ImageSummary stats →
  image_activity_breakdown stats !! label =
    match length (filter (λ p, pred_class p = label) predictions) with
    | O => None
    | S n => Some (S n)
    end.
Proof.
  intros [= <-]. simpl.
  rewrite Counter_lookup, (filter_fmap_length pred_class (λ x, x = label)). reflexivity.
Qed.

Lemma image_summary_breakdown_witness :
  ∃ stats,
    generate_image_summary (Some Scenario.three_students) = ImageSummary stats ∧
    image_activity_breakdown stats !! "reading" = Some 2%nat ∧
    image_activity_breakdown stats !! "writing" = None.
Proof.
  eexists. split; [reflexivity|].
  rewrite !(image_summary_breakdown Scenario.three_students _ _ eq_refl).
  split; reflexivity.
Defined.

(** ** The synthetic detector, box by box *)

Lemma randint_range (a b r v : Z) : randint a b r = Ok v → a ≤ v ≤ b.
Proof.
  unfold randint. destruct (Z.ltb_spec b a) as [?|Hab]; [discriminate|].
  intros [= <-]. pose proof (Z.mod_pos_bound r (b - a + 1)). lia.
Qed.

Lemma choice_elem_of (xs : list string) (r : Z) : xs ≠ [] → choice xs r ∈ xs.
Proof.
  intros Hne. unfold choice.
  assert (Hlen : (0 < length xs)%nat) by (destruct xs; [done|simpl; lia]).
  pose proof (Z.mod_pos_bound r (Z.of_nat (length xs)) ltac:(lia)) as Hr.
  destruct (lookup_lt_is_Some_2 xs (Z.to_nat (r mod Z.of_nat (length xs)))) as [x Hx];
    [lia|].
  rewrite Hx. simpl. by eapply list_elem_of_lookup_2.
Qed.

(** One synthetic box: where it lies and what it is labelled. *)
Lemma mock_box_bounds width height d p :
  mock_box width height d = Ok p →
  ∃ x y w h,
    pred_x p = Int x ∧ pred_y p = Int y ∧ pred_width p = Int w ∧ pred_height p = Int h ∧
    pred_x1 p = Int (x - w / 2) ∧ pred_y1 p = Int (y - h / 2) ∧
    pred_x2 p = Int (x + w / 2) ∧ pred_y2 p = Int (y + h / 2) ∧
    100 ≤ x ≤ width - 100 ∧ 100 ≤ y ≤ height - 100 ∧
    80 ≤ w ≤ 150 ∧ 120 ≤ h ≤ 200 ∧
    pred_class p ∈ mock_activities.
Proof.
  unfold mock_box. intros Hbox.
  destruct (randint 100 (width - 100) (draw_x d)) as [x|] eqn:Hx; [|discriminate].
  destruct (randint 100 (height - 100) (draw_y d)) as [y|] eqn:Hy; [|discriminate].
  step_in Hbox.
  destruct (randint 80 150 (draw_w d)) as [w|] eqn:Hw; [|discriminate].
  destruct (randint 120 200 (draw_h d)) as [h|] eqn:Hh; [|discriminate].
  step_in Hbox. injection Hbox as <-.
  apply randint_range in Hx, Hy, Hw, Hh.
  exists x, y, w, h. simpl. repeat split; try lia.
  by apply choice_elem_of.
Qed.

Lemma mock_boxes_elem width height boxes n :
  ∀ i ps, mock_boxes width height boxes i n = Ok ps →
    length ps = n ∧ ∀ p, p ∈ ps → ∃ j, mock_box width height (boxes j) = Ok p.
Proof.
  induction n as [|n IH]; intros i ps Hrun; simpl in Hrun.
  - injection Hrun as <-. split; [reflexivity|]. intros p Hp. by apply elem_of_nil in Hp.
  - destruct (mock_box width height (boxes i)) as [q|] eqn:Hq; [|discriminate].
    step_in Hrun.
    destruct (mock_boxes width height boxes (S i) n) as [rest|] eqn:Hrest; [|discriminate].
    step_in Hrun. injection Hrun as <-.
    destruct (IH (S i) rest Hrest) as [Hlen Hall].
    split; [simpl; by rewrite Hlen|].
    intros p [->|Hp]%elem_of_cons; [by exists i|by apply Hall].
Qed.

(** What a returning call of the synthetic detector on a readable image
    gives: two to five boxes, each from one iteration of its loop. *)
Lemma mock_detection_elem im d ps :
  mock_detection (Some im) d = Ok (Some ps) →
  (2 ≤ length ps ≤ 5)%nat ∧
  ∀ p, p ∈ ps → ∃ j, mock_box (img_width im) (img_height im) (draw_boxes d j) = Ok p.
Proof.
  unfold mock_detection. intros Hrun.
  destruct (randint 2 5 (draw_count d)) as [n|] eqn:Hn; [|discriminate].
  step_in Hrun. apply randint_range in Hn.
  destruct (mock_boxes _ _ _ _ _) as [qs|] eqn:Hqs; [|discriminate].
  step_in Hrun. injection Hrun as <-.
  apply mock_boxes_elem in Hqs as [Hlen Hall]. split; [lia|exact Hall].
Qed.

(** X3: whenever the synthetic detector returns on a readable image, it
    returns two to five boxes and each lies inside the image: its corners
    satisfy 0 <= x1 < x2 <= width and 0 <= y1 < y2 <= height, its centre is
    at least 100 pixels from every border, and it is between 80 and 150
    wide and between 120 and 200 high. *)
Theorem mock_detection_boxes_inside im d ps :
  mock_detection (Some im) d = Ok (Some ps) →
  (2 ≤ length ps ≤ 5)%nat ∧
  ∀ p, p ∈ ps →
    ∃ x y w h x1 y1 x2 y2,
      pred_x p = Int x ∧ pred_y p = Int y ∧ pred_width p = Int w ∧ pred_height p = Int h ∧
      pred_x1 p = Int x1 ∧ pred_y1 p = Int y1 ∧ pred_x2 p = Int x2 ∧ pred_y2 p = Int y2 ∧
      0 ≤ x1 ∧ x1 < x2 ∧ x2 ≤ img_width im ∧
      0 ≤ y1 ∧ y1 < y2 ∧ y2 ≤ img_height im ∧
      100 ≤ x ≤ img_width im - 100 ∧ 100 ≤ y ≤ img_height im - 100 ∧
      80 ≤ w ≤ 150 ∧ 120 ≤ h ≤ 200.
Proof.
  intros Hrun. apply mock_detection_elem in Hrun as [Hlen Hall].
  split; [exact Hlen|]. intros p Hp.
  destruct (Hall p Hp) as [j Hbox].
  apply mock_box_bounds in Hbox
    as (x & y & w & h & Hx & Hy & Hw & Hh & Hx1 & Hy1 & Hx2 & Hy2 & Bx & By & Bw & Bh & _).
  exists x, y, w, h, (x - w / 2), (y - h / 2), (x + w / 2), (y + h / 2).
  pose proof (Z.div_mod w 2 ltac:(lia)). pose proof (Z.mod_pos_bound w 2 ltac:(lia)).
  pose proof (Z.div_mod h 2 ltac:(lia)). pose proof (Z.mod_pos_bound h 2 ltac:(lia)).
  repeat split; try done; lia.
Qed.

Lemma mock_detection_boxes_inside_witness :
  ∃ ps,
    mock_detection (Some {| img_height := 480; img_width := 640 |}) Scenario.odd_draws
      = Ok (Some ps) ∧
    (2 ≤ length ps ≤ 5)%nat.
Proof.
  eexists. 
  assert (Hrun : mock_detection (Some {| img_height := 480; img_width := 640 |})
                   Scenario.odd_draws
                 = Ok (Some (replicate 2
                     {| pred_class := "reading"; pred_confidence := 0.77499999999999991%float;
                        pred_x := Int 200; pred_y := Int 200;
                        pred_width := Int 81; pred_height := Int 121;
                        pred_x1 := Int 160; pred_y1 := Int 140;
                        pred_x2 := Int 240; pred_y2 := Int 260 |})))
    by (vm_compute; reflexivity).
  split; [exact Hrun|].
  apply (mock_detection_boxes_inside _ _ _ Hrun).
Defined.

(** ** What detection and single-image processing return *)

Lemma mock_detection_some img d res :
  mock_detection img d = Ok res → ∃ ps, res = Some ps.
Proof.
  unfold mock_detection. destruct img as [im|]; [|intros [= <-]; eauto].
  destruct (randint 2 5 (draw_count d)) as [n|]; [|discriminate]. step.
  destruct (mock_boxes _ _ _ _ _) as [qs|]; [|discriminate]. step.
  intros [= <-]. eauto.
Qed.

(** Detection always returns a dictionary with the key ['predictions']. *)
Lemma detect_objects_some self env res :
  detect_objects self env = Ok res → ∃ ps, res = Some ps.
Proof.
  unfold detect_objects, try_except.
  destruct (bool_decide (model_type self = "yolov8") && model self).
  { destruct (env_yolov8 env) as [boxes|]; step.
    - intros [= <-]. unfold parse_yolov8_results. destruct boxes; eauto.
    - apply mock_detection_some. }
  destruct (bool_decide (model_type self = "yolov5") && model self).
  { destruct (env_yolov5 env) as [rows|]; step.
    - intros [= <-]. unfold parse_yolov5_results. eauto.
    - apply mock_detection_some. }
  destruct (mock_detection (env_image env) (env_draws env)) as [res'|] eqn:Hfirst.
  - intros [= <-]. by eapply mock_detection_some.
  - apply mock_detection_some.
Qed.

(** Without a backend, what detection returns is what one call of the
    synthetic detector returned. *)
Lemma detect_objects_unavailable_ok self env res :
  model self = false →
  detect_objects self env = Ok res →
  ∃ d, mock_detection (env_image env) d = Ok res.
Proof.
  intros Hmodel. rewrite detect_objects_unavailable by done. unfold try_except.
  destruct (mock_detection (env_image env) (env_draws env)) as [res'|] eqn:Hfirst.
  - intros [= <-]. eauto.
  - eauto.
Qed.

Lemma count_in_groups_total (activities : list string) :
  Forall (λ a, a ∈ attentive_activities ∨ a ∈ distracted_activities) activities →
  (count_in attentive_activities activities + count_in distracted_activities activities
   = length activities)%nat.
Proof.
  intros Hall. pose proof (count_in_partition activities) as Hpart.
  assert (Hnone : length (filter (λ a, (a ∉ attentive_activities) ∧ (a ∉ distracted_activities))
                            activities) = 0%nat).
  { apply length_filter_none. eapply Forall_impl; [exact Hall|]. simpl. tauto. }
  lia.
Qed.

Lemma mock_activities_grouped (a : string) :
  a ∈ mock_activities → a ∈ attentive_activities ∨ a ∈ distracted_activities.
Proof.
  unfold mock_activities. rewrite !elem_of_cons, elem_of_nil.
  unfold attentive_activities, distracted_activities.
  intros [->|[->|[->|[->|[->|[->|[]]]]]]]; [left|left|left|right|right|right];
    rewrite !elem_of_cons; tauto.
Qed.

(** The tuples [process_single_image] returns. *)
Lemma process_single_image_cases self env output_path o r s :
  process_single_image self env output_path = Ok (o, r, s) →
  (o = None ∧ r = None ∧ s = None) ∨
  (∃ p ps im,
     detect_objects self env = Ok (Some (p :: ps)) ∧ env_image env = Some im ∧
     o = output_path ∧ r = Some (Some (p :: ps)) ∧
     s = Some (generate_image_summary (Some (p :: ps)))).
Proof.
  unfold process_single_image.
  destruct (detect_objects self env) as [res|] eqn:Hdet; [|discriminate]. step.
  destruct (has_predictions res) eqn:Hhas; simpl.
  - destruct (has_predictions_cons res Hhas) as (p & ps & ->).
    destruct (env_image env) as [im|] eqn:Him.
    + intros [= <- <- <-]. right. exists p, ps, im. done.
    + intros [= <- <- <-]. by left.
  - intros [= <- <- <-]. by left.
Qed.

(** X5: [process_single_image] returns either three times None, or the
    output path it was given, the detection results and a summary of
    them; in that case the image was readable, there is at least one
    detection, and the summary is a full summary (never the "No detections
    found" error value) whose total is the number of detections. *)
Theorem process_single_image_result self env output_path o r s :
  process_single_image self env output_path = Ok (o, r, s) →
  (o = None ∧ r = None ∧ s = None) ∨
  (∃ predictions stats,
     detect_objects self env = Ok (Some predictions) ∧
     is_Some (env_image env) ∧
     o = output_path ∧
     r = Some (Some predictions) ∧
     s = Some (ImageSummary stats) ∧
     total_students stats = length predictions ∧
     (1 ≤ total_students stats)%nat).
Proof.
  intros Hrun. apply process_single_image_cases in Hrun
    as [?|(p & ps & im & Hdet & Him & -> & -> & ->)]; [by left|].
  right. eexists (p :: ps), _. rewrite Him.
  repeat split; try done; simpl; lia.
Qed.

Lemma process_single_image_result_witness :
  ∃ o r s,
    process_single_image (init NotLoaded) (Scenario.frame_of 480 640) (Some "out.jpg")
      = Ok (o, r, s) ∧
    o = Some "out.jpg" ∧ ∃ stats, s = Some (ImageSummary stats) ∧ total_students stats = 2%nat.
Proof.
  destruct (process_single_image (init NotLoaded) (Scenario.frame_of 480 640)
              (Some "out.jpg")) as [[[o r] s]|e] eqn:Hrun; [|vm_compute in Hrun; discriminate].
  exists o, r, s. split; [reflexivity|].
  destruct (process_single_image_result _ _ _ _ _ _ Hrun)
    as [(-> & _)|(ps & stats & Hdet & _ & -> & _ & -> & Htotal & _)].
  - vm_compute in Hrun. discriminate.
  - split; [reflexivity|]. exists stats. split; [reflexivity|].
    rewrite Htotal. vm_compute in Hdet. injection Hdet as <-. reflexivity.
Defined.

(** X4: on an analyzer without a backend, a summary returned by
    [process_single_image] always has two to five students, and each of
    them is counted as attentive or as distracted: the synthetic detector
    draws its labels from six activities that all belong to one of the two
    groups. *)
Theorem synthetic_image_summary self env output_path o r stats :
  model self = false →
  process_single_image self env output_path = Ok (o, r, Some (ImageSummary stats)) →
  (2 ≤ total_students stats ≤ 5)%nat ∧
  (attentive_students stats + distracted_students stats = total_students stats)%nat.
Proof.
  intros Hmodel Hrun.
  apply process_single_image_cases in Hrun
    as [(_ & _ & [=])|(p & ps & im & Hdet & Him & _ & _ & [= ->])].
  destruct (detect_objects_unavailable_ok self env _ Hmodel Hdet) as [d Hmock].
  rewrite Him in Hmock. apply mock_detection_elem in Hmock as [Hlen Hall].
  cbn [generate_image_summary total_students attentive_students distracted_students].
  split; [exact Hlen|].
  pose proof (count_in_groups_total (pred_class <$> p :: ps)) as Htotal.
  rewrite length_fmap in Htotal. apply Htotal, Forall_fmap, Forall_forall.
  intros q Hq. destruct (Hall q Hq) as [j Hbox].
  apply mock_box_bounds in Hbox
    as (? & ? & ? & ? & _ & _ & _ & _ & _ & _ & _ & _ & _ & _ & _ & _ & Hclass).
  by apply mock_activities_grouped.
Qed.

Lemma synthetic_image_summary_witness :
  ∃ o r stats,
    model (init NotLoaded) = false ∧
    process_single_image (init NotLoaded) (Scenario.frame_of 480 640) None
      = Ok (o, r, Some (ImageSummary stats)) ∧
    (attentive_students stats + distracted_students stats = total_students stats)%nat.
Proof.
  eexists. eexists. eexists. split; [reflexivity|].
  assert (Hrun : process_single_image (init NotLoaded) (Scenario.frame_of 480 640) None
                 = Ok (None,
                       Some (Some (replicate 2
                         {| pred_class := "reading";
                            pred_confidence := 0.77499999999999991%float;
                            pred_x := Int 200; pred_y := Int 200;
                            pred_width := Int 81; pred_height := Int 121;
                            pred_x1 := Int 160; pred_y1 := Int 140;
                            pred_x2 := Int 240; pred_y2 := Int 260 |})),
                       Some (ImageSummary
                         {| total_students := 2; attentive_students := 2;
                            distracted_students := 0;
                            engagement_rate := Flt 100%float;
                            image_activity_breakdown := {[ "reading" := 2%nat ]} |})))
    by (vm_compute; reflexivity).
  split; [exact Hrun|].
  apply (synthetic_image_summary (init NotLoaded) _ _ _ _ _ eq_refl Hrun).
Defined.

(** ** Tracking, slot by slot *)

Lemma truediv_timestamp (n : Z) (fps : num) :
  is_zero fps = false → truediv (Int n) fps = Ok (timestamp_of fps n).
Proof. intros Hz. by rewrite truediv_ok. Qed.

(** One call of [update_tracking], read slot by slot. *)
Lemma update_tracking_slots self predictions n self' :
  update_tracking self (Some predictions) n = Ok self' →
  (∀ i, slot_timeline self' i =
        slot_timeline self i ++ option_list (slot_entry (fps self) i (n, predictions))) ∧
  (∀ i, student_tracks self' !! student_id i = None ↔
        student_tracks self !! student_id i = None ∧ (length predictions ≤ i)%nat) ∧
  (∀ key, (∀ i : nat, (i < length predictions)%nat → key ≠ student_id i) →
        student_tracks self' !! key = student_tracks self !! key).
Proof.
  intros Hrun. destruct predictions as [|p rest].
  { injection Hrun as <-. split; [|split].
    - intros i. unfold slot_timeline, slot_entry. simpl. by rewrite app_nil_r.
    - intros i. simpl. split; [intros Hnone; split; [exact Hnone|lia]|by intros [? _]].
    - reflexivity. }
  destruct (is_zero (fps self)) eqn:Hz.
  { unfold update_tracking in Hrun.
    rewrite track_predictions_raises in Hrun by done. discriminate. }
  unfold update_tracking in Hrun.
  destruct (track_predictions_ok (fps self) n _ (p :: rest) (truediv_timestamp n _ Hz)
              0%nat (student_tracks self)) as (tracks' & Hloop & Hhit & Hmiss).
  rewrite Hloop in Hrun. step_in Hrun. injection Hrun as <-.
  unfold slot_timeline, slot_entry. cbn [student_tracks set_student_tracks fst snd].
  split; [|split].
  - intros i. destruct ((p :: rest) !! i) as [q|] eqn:Hq.
    + pose proof (Hhit i q Hq) as Hnew. simpl in Hnew. rewrite Hnew. reflexivity.
    + apply lookup_ge_None in Hq. rewrite Hmiss; [by rewrite app_nil_r|].
      intros j Hj Heq. apply (inj student_id) in Heq. simpl in Heq. lia.
  - intros i. destruct ((p :: rest) !! i) as [q|] eqn:Hq.
    + pose proof (Hhit i q Hq) as Hnew. simpl in Hnew. rewrite Hnew.
      apply lookup_lt_Some in Hq. split; [discriminate|]. intros [_ ?]. lia.
    + apply lookup_ge_None in Hq. rewrite Hmiss; [tauto|].
      intros j Hj Heq. apply (inj student_id) in Heq. simpl in Heq. lia.
  - intros key Hkey. apply Hmiss. intros j Hj. by apply Hkey.
Qed.

(** X6: [update_tracking] raises exactly when fps is zero and the frame
    has at least one prediction, and then it raises ZeroDivisionError; a
    frame without predictions leaves the analyzer as it is, whatever fps
    is. *)
Theorem update_tracking_raises_iff self predictions frame_number :
  (∀ e, update_tracking self (Some predictions) frame_number = Raise e ↔
        e = ZeroDivisionError ∧ is_zero (fps self) = true ∧ predictions ≠ []) ∧
  (predictions = [] → update_tracking self (Some predictions) frame_number = Ok self).
Proof.
  split.
  - intros e. destruct predictions as [|p rest].
    + simpl. split; [discriminate|]. intros (_ & _ & ?). done.
    + destruct (is_zero (fps self)) eqn:Hz.
      * unfold update_tracking. rewrite track_predictions_raises by done. step.
        split; [intros [= <-]; done|]. intros (-> & _). reflexivity.
      * destruct (update_tracking_returns self (p :: rest) frame_number Hz) as [self' ->].
        split; [discriminate|]. intros (_ & ? & _). discriminate.
  - intros ->. simpl. by destruct self.
Qed.

(** ** The state a run of [process_video] builds *)

Lemma analyzed_frame_same_config a b p :
  same_config a b → analyzed_frame a p = analyzed_frame b p.
Proof.
  intros Hcfg. unfold analyzed_frame. by rewrite (detect_objects_same_config a b).
Qed.

Lemma analyzed_frames_nil self k start : analyzed_frames self k start [] = [].
Proof. reflexivity. Qed.

Lemma analyzed_frames_cons self k start env rest :
  analyzed_frames self k start (env :: rest) =
    (if decide (start mod k = 0) then option_list (analyzed_frame self (start, env)) else [])
      ++ analyzed_frames self k (start + 1) rest.
Proof.
  unfold analyzed_frames. rewrite sampled_frames_cons, omap_app.
  destruct (decide (start mod k = 0)); [|reflexivity].
  simpl. by destruct (analyzed_frame self (start, env)).
Qed.

Lemma progress_report_ok (c : bool) (n tf : Z) (reported : list float) :
  (if c
   then ratio ← truediv (Int n) (Int tf); Ok [PrimFloat.mul ratio (float_of_Z 100)]
   else Ok []) = Ok reported →
  reported =
    (if c
     then [PrimFloat.mul (PrimFloat.div (float_of_Z n) (float_of_Z tf)) (float_of_Z 100)]
     else []).
Proof.
  destruct c; [|by intros [= <-]].
  unfold truediv. destruct (is_zero (Int tf)); [discriminate|]. step. by intros [= <-].
Qed.

(** One sampled frame, in full: what it adds to the records, to every
    slot, and to the calls of the progress callback. *)
Lemma process_sampled_frame_state tf cb env n st st' :
  process_sampled_frame tf cb env n st = Ok st' →
  same_config (loop_self st) (loop_self st') ∧
  fps (loop_self st') = fps (loop_self st) ∧
  frame_count (loop_self st') = frame_count (loop_self st) ∧
  student_summaries (loop_self st') = student_summaries (loop_self st) ∧
  detection_results (loop_self st') =
    detection_results (loop_self st)
      ++ (record_of (fps (loop_self st)) <$> option_list (analyzed_frame (loop_self st) (n, env))) ∧
  (∀ i, slot_timeline (loop_self st') i =
        slot_timeline (loop_self st) i
          ++ omap (slot_entry (fps (loop_self st)) i)
               (option_list (analyzed_frame (loop_self st) (n, env)))) ∧
  (∀ i, student_tracks (loop_self st') !! student_id i = None ↔
        student_tracks (loop_self st) !! student_id i = None ∧
        Forall (λ f, (length f.2 ≤ i)%nat)
          (option_list (analyzed_frame (loop_self st) (n, env)))) ∧
  (∀ key, (∀ f (i : nat), f ∈ option_list (analyzed_frame (loop_self st) (n, env)) →
                  (i < length f.2)%nat → key ≠ student_id i) →
        student_tracks (loop_self st') !! key = student_tracks (loop_self st) !! key) ∧
  loop_processed_frames st' = loop_processed_frames st + 1 ∧
  loop_progress st' =
    loop_progress st ++
      (if cb && ((loop_processed_frames st + 1) mod 10 =? 0)
       then [PrimFloat.mul (PrimFloat.div (float_of_Z n) (float_of_Z tf)) (float_of_Z 100)]
       else []).
Proof.
  unfold process_sampled_frame, analyzed_frame. cbn [fst snd].
  destruct (detect_objects (loop_self st) env) as [res|] eqn:Hdet; [|discriminate].
  step.
  destruct (has_predictions res) eqn:Hhas.
  - destruct (has_predictions_cons res Hhas) as (p & ps & ->).
    destruct (update_tracking (loop_self st) (Some (p :: ps)) n) as [tracked|] eqn:Hupd;
      [|discriminate].
    step.
    pose proof (update_tracking_spec _ _ _ _ Hupd)
      as ((Hc1 & Hc2 & Hc3) & Hfps & Hcount & Hres & Hsums & _).
    pose proof (update_tracking_slots _ _ _ _ Hupd) as (Hslots & Hnone & Hkeys).
    destruct (truediv (Int n) (fps tracked)) as [ts|] eqn:Hts; [|discriminate].
    assert (ts = timestamp_of (fps (loop_self st)) n) as ->.
    { unfold truediv in Hts. rewrite Hfps in Hts.
      destruct (is_zero (fps (loop_self st))); [discriminate|]. by injection Hts as <-. }
    step.
    destruct (if cb && _ then _ else _) as [reported|] eqn:Hrep; [|discriminate].
    apply progress_report_ok in Hrep as ->.
    step. intros [= <-]. unfold slot_timeline in *. cbn.
    split; [by repeat split|]. split; [exact Hfps|]. split; [exact Hcount|].
    split; [exact Hsums|]. split; [by rewrite Hres|].
    split; [intros i; rewrite (Hslots i); unfold slot_entry; simpl;
            by destruct ((p :: ps) !! i)|].
    split; [intros i; rewrite (Hnone i), Forall_singleton; reflexivity|].
    split; [|done].
    intros key Hkey. apply Hkeys. intros i Hi.
    apply (Hkey (n, p :: ps)); [by left|exact Hi].
  - assert (Hnot : match res with
                   | Some (q :: qs) => Some (n, q :: qs)
                   | _ => None
                   end = None) by (by destruct res as [[|q qs]|]).
    rewrite Hnot. step.
    destruct (if cb && _ then _ else _) as [reported|] eqn:Hrep; [|discriminate].
    apply progress_report_ok in Hrep as ->.
    step. intros [= <-]. unfold slot_timeline. cbn.
    split; [apply same_config_refl|]. repeat split; try done.
    all: try (intros; by rewrite app_nil_r); tauto.
Qed.

(** The loop, in full: the records and the timelines it leaves are those
    it found plus one record, and one entry per detection, for every
    analyzed frame, in frame order. *)
Lemma video_loop_state k tf cb self0 frames :
  ∀ n st st',
    same_config self0 (loop_self st) →
    video_loop k tf cb frames n st = Ok st' →
    frame_count (loop_self st') = frame_count (loop_self st) ∧
    student_summaries (loop_self st') = student_summaries (loop_self st) ∧
    fps (loop_self st') = fps (loop_self st) ∧
    detection_results (loop_self st') =
      detection_results (loop_self st)
        ++ (record_of (fps (loop_self st)) <$> analyzed_frames self0 k n frames) ∧
    (∀ i, slot_timeline (loop_self st') i =
          slot_timeline (loop_self st) i
            ++ omap (slot_entry (fps (loop_self st)) i) (analyzed_frames self0 k n frames)) ∧
    (∀ i, student_tracks (loop_self st') !! student_id i = None ↔
          student_tracks (loop_self st) !! student_id i = None ∧
          Forall (λ f, (length f.2 ≤ i)%nat) (analyzed_frames self0 k n frames)) ∧
    (∀ key, (∀ f (i : nat), f ∈ analyzed_frames self0 k n frames →
                    (i < length f.2)%nat → key ≠ student_id i) →
          student_tracks (loop_self st') !! key = student_tracks (loop_self st) !! key).
Proof.
  induction frames as [|env rest IH]; intros n st st' Hcfg Hloop.
  - injection Hloop as <-. rewrite analyzed_frames_nil. simpl.
    repeat split; try done.
    all: try (intros; by rewrite app_nil_r); tauto.
  - simpl in Hloop.
    destruct (pymod n k) as [r|] eqn:Hmod; [|discriminate].
    apply pymod_ok in Hmod as [Hk ->]. step_in Hloop.
    rewrite analyzed_frames_cons.
    destruct (Z.eqb_spec (n mod k) 0) as [Hz|Hnz].
    + destruct (process_sampled_frame tf cb env n st) as [st1|] eqn:Hstep; [|discriminate].
      step_in Hloop.
      apply process_sampled_frame_state in Hstep
        as (Hcfg1 & Hfps1 & Hcount1 & Hsums1 & Hres1 & Hslots1 & Hnone1 & Hkeys1 & _).
      rewrite <- (analyzed_frame_same_config self0 (loop_self st))
        in Hres1, Hslots1, Hnone1, Hkeys1 by done.
      destruct (IH (n + 1) st1 st' (same_config_trans _ _ _ Hcfg Hcfg1) Hloop)
        as (Hcount & Hsums & Hfps & Hres & Hslots & Hnone & Hkeys).
      rewrite (decide_True (P := n mod k = 0)) by done.
      rewrite Hfps1 in Hres, Hslots.
      split; [congruence|]. split; [congruence|]. split; [congruence|].
      split; [by rewrite Hres, Hres1, fmap_app, app_assoc|].
      split; [intros i; by rewrite Hslots, Hslots1, omap_app, app_assoc|].
      split.
      * intros i. rewrite Hnone, Hnone1, Forall_app. tauto.
      * intros key Hkey. rewrite Hkeys, Hkeys1; [reflexivity| |].
        -- intros f i Hf. apply Hkey, elem_of_app. by left.
        -- intros f i Hf. apply Hkey, elem_of_app. by right.
    + step_in Hloop.
      rewrite (decide_False (P := n mod k = 0)) by done.
      apply (IH (n + 1) st st' Hcfg Hloop).
Qed.

Lemma div_10_succ (p : Z) :
  0 ≤ p → (p + 1) / 10 - p / 10 = (if (p + 1) mod 10 =? 0 then 1 else 0).
Proof.
  intros Hp.
  pose proof (Z.div_mod p 10 ltac:(lia)). pose proof (Z.mod_pos_bound p 10 ltac:(lia)).
  pose proof (Z.div_mod (p + 1) 10 ltac:(lia)).
  pose proof (Z.mod_pos_bound (p + 1) 10 ltac:(lia)).
  destruct (Z.eqb_spec ((p + 1) mod 10) 0); lia.
Qed.

(** The loop counts the sampled frames and calls the progress callback
    each time the count reaches a multiple of ten. *)
Lemma video_loop_progress k tf cb frames :
  ∀ n st st',
    video_loop k tf cb frames n st = Ok st' →
    loop_processed_frames st' =
      loop_processed_frames st + Z.of_nat (length (sampled_frames k n frames)) ∧
    (cb = false → loop_progress st' = loop_progress st) ∧
    (cb = true → 0 ≤ loop_processed_frames st →
       Z.of_nat (length (loop_progress st')) =
         Z.of_nat (length (loop_progress st))
         + (loop_processed_frames st' / 10 - loop_processed_frames st / 10)).
Proof.
  induction frames as [|env rest IH]; intros n st st' Hloop.
  - injection Hloop as <-. rewrite sampled_frames_nil. simpl.
    split; [lia|]. split; [done|]. intros _ _. lia.
  - simpl in Hloop.
    destruct (pymod n k) as [r|] eqn:Hmod; [|discriminate].
    apply pymod_ok in Hmod as [Hk ->]. step_in Hloop.
    rewrite sampled_frames_cons.
    destruct (Z.eqb_spec (n mod k) 0) as [Hz|Hnz].
    + destruct (process_sampled_frame tf cb env n st) as [st1|] eqn:Hstep; [|discriminate].
      step_in Hloop.
      apply process_sampled_frame_state in Hstep
        as (_ & _ & _ & _ & _ & _ & _ & _ & Hproc1 & Hprog1).
      destruct (IH (n + 1) st1 st' Hloop) as (Hproc & Hoff & Hon).
      rewrite (decide_True (P := n mod k = 0)) by done.
      rewrite length_app. simpl length.
      split; [lia|]. split.
      * intros ->. simpl in Hprog1. rewrite app_nil_r in Hprog1.
        rewrite (Hoff eq_refl). exact Hprog1.
      * intros -> Hpos. rewrite (Hon eq_refl) by lia.
        rewrite Hprog1, length_app, Hproc1. simpl andb.
        pose proof (div_10_succ (loop_processed_frames st) Hpos) as Hdiv.
        destruct ((loop_processed_frames st + 1) mod 10 =? 0); simpl length; lia.
    + step_in Hloop.
      rewrite (decide_False (P := n mod k = 0)) by done.
      apply (IH (n + 1) st st' Hloop).
Qed.

(** ** The analyzed frames *)

Lemma analyzed_frame_Some self p f :
  analyzed_frame self p = Some f →
  f.1 = p.1 ∧ f.2 ≠ [] ∧ detect_objects self p.2 = Ok (Some f.2).
Proof.
  unfold analyzed_frame.
  destruct (detect_objects self p.2) as [[[|q qs]|]|]; try discriminate.
  intros [= <-]. done.
Qed.

Lemma analyzed_frame_detects self p :
  is_Some (analyzed_frame self p) ↔ detects_something self p = true.
Proof.
  unfold analyzed_frame, detects_something.
  destruct (detect_objects self p.2) as [[[|q qs]|]|]; simpl.
  - split; [by intros [? [=]]|discriminate].
  - split; [done|by eexists].
  - split; [by intros [? [=]]|discriminate].
  - split; [by intros [? [=]]|discriminate].
Qed.

Lemma length_omap_filter {A B} (f : A → option B) (l : list A) :
  length (omap f l) = length (filter (λ x, is_Some (f x)) l).
Proof.
  induction l as [|x l IH]; [reflexivity|].
  rewrite filter_cons. change (omap f (x :: l)) with
    (match f x with Some y => y :: omap f l | None => omap f l end).
  destruct (f x) as [y|] eqn:Hy.
  - rewrite decide_True by (by eexists). cbn [length]. by rewrite IH.
  - rewrite decide_False by (by intros [? [=]]). exact IH.
Qed.

Lemma length_filter_iff {A} (P Q : A → Prop) `{!∀ x, Decision (P x)} `{!∀ x, Decision (Q x)}
    (l : list A) :
  (∀ x, P x ↔ Q x) → length (filter P l) = length (filter Q l).
Proof.
  intros HPQ. induction l as [|x l IH]; [reflexivity|].
  rewrite !filter_cons.
  destruct (decide (P x)) as [HP|HP], (decide (Q x)) as [HQ|HQ]; simpl;
    rewrite ?IH; try reflexivity; exfalso; [apply HQ, HPQ, HP|apply HP, HPQ, HQ].
Qed.

(** As many frames are analyzed as sampled frames have a detection. *)
Lemma analyzed_frames_length self k start frames :
  length (analyzed_frames self k start frames) =
    length (filter (λ p, detects_something self p = true) (sampled_frames k start frames)).
Proof.
  unfold analyzed_frames. rewrite length_omap_filter.
  apply length_filter_iff. intros p. apply analyzed_frame_detects.
Qed.

(** The analyzed frames come in strictly increasing frame order; each is
    a sampled frame of the video, with the non-empty list of predictions
    detection returns on it. *)
Lemma analyzed_frames_spec self k frames :
  ∀ start,
    StronglySorted Z.lt (analyzed_frames self k start frames).*1 ∧
    Forall (λ f, start ≤ f.1 < start + Z.of_nat (length frames) ∧
                 f.1 mod k = 0 ∧ f.2 ≠ [] ∧
                 ∃ env, frames !! Z.to_nat (f.1 - start) = Some env ∧
                        detect_objects self env = Ok (Some f.2))
      (analyzed_frames self k start frames).
Proof.
  induction frames as [|env rest IH]; intros start.
  - rewrite analyzed_frames_nil. split; constructor.
  - rewrite analyzed_frames_cons. destruct (IH (start + 1)) as [Hsorted Hall].
    assert (Hrest : Forall (λ f, start < f.1 ∧
                      (start ≤ f.1 < start + Z.of_nat (length (env :: rest)) ∧
                       f.1 mod k = 0 ∧ f.2 ≠ [] ∧
                       ∃ env', (env :: rest) !! Z.to_nat (f.1 - start) = Some env' ∧
                               detect_objects self env' = Ok (Some f.2)))
                      (analyzed_frames self k (start + 1) rest)).
    { eapply Forall_impl; [exact Hall|]. simpl.
      intros f (Hb & Hm & Hne & env' & Hlook & Hdet).
      split; [lia|]. split; [lia|]. split; [exact Hm|]. split; [exact Hne|].
      exists env'. split; [|exact Hdet].
      replace (Z.to_nat (f.1 - start)) with (S (Z.to_nat (f.1 - (start + 1)))) by lia.
      exact Hlook. }
    destruct (decide (start mod k = 0)) as [Hz|Hnz];
      [destruct (analyzed_frame self (start, env)) as [f|] eqn:Hf|]; simpl.
    + apply analyzed_frame_Some in Hf as (Hn & Hne & Hdet). simpl in Hn, Hdet.
      split.
      * constructor; [exact Hsorted|]. rewrite Forall_fmap.
        eapply Forall_impl; [exact Hrest|]. simpl. intros g [Hlt _]. lia.
      * constructor; [|eapply Forall_impl; [exact Hrest|]; by intros g [_ ?]].
        split; [simpl in *; lia|]. split; [by rewrite Hn|]. split; [exact Hne|].
        exists env. rewrite Hn, Z.sub_diag. done.
    + split; [exact Hsorted|]. eapply Forall_impl; [exact Hrest|]. by intros g [_ ?].
    + split; [exact Hsorted|]. eapply Forall_impl; [exact Hrest|]. by intros g [_ ?].
Qed.

(** A completed call of [process_video] on an opened source, in full. *)
Lemma process_video_state self cap output_path k cb run :
  process_video self (Some cap) output_path k cb = Ok run →
  frame_count (run_self run) = frame_count self ∧
  student_summaries (run_self run) = student_summaries self ∧
  detection_results (run_self run) =
    detection_results self
      ++ (record_of (Flt (video_fps cap)) <$> analyzed_frames self k 0 (video_frames cap)) ∧
  (∀ i, slot_timeline (run_self run) i =
        slot_timeline self i
          ++ omap (slot_entry (Flt (video_fps cap)) i)
               (analyzed_frames self k 0 (video_frames cap))) ∧
  (∀ i, student_tracks (run_self run) !! student_id i = None ↔
        student_tracks self !! student_id i = None ∧
        Forall (λ f, (length f.2 ≤ i)%nat) (analyzed_frames self k 0 (video_frames cap))) ∧
  (∀ key, (∀ f (i : nat), f ∈ analyzed_frames self k 0 (video_frames cap) →
                  (i < length f.2)%nat → key ≠ student_id i) →
        student_tracks (run_self run) !! key = student_tracks self !! key) ∧
  (cb = false → run_progress run = []) ∧
  (cb = true →
     Z.of_nat (length (run_progress run)) = Z.of_nat (length (run_detected run)) / 10).
Proof.
  unfold process_video.
  destruct (truediv (Int (video_frame_count cap)) (fps (set_fps self (Flt (video_fps cap)))))
    as [duration|]; [|discriminate].
  step.
  destruct (if writes_output output_path then _ else _) as [rate|]; [|discriminate].
  step.
  destruct (video_loop _ _ _ _ _ _) as [st|] eqn:Hloop; [|discriminate].
  step. intros [= <-]. cbn [run_self run_progress run_detected].
  assert (Hcfg : same_config self (set_fps self (Flt (video_fps cap))))
    by (by repeat split).
  set (st0 := {| loop_self := set_fps self (Flt (video_fps cap));
                 loop_processed_frames := 0;
                 loop_detected := []; loop_progress := [] |}) in Hloop.
  pose proof (video_loop_state k _ cb self _ _ st0 st Hcfg Hloop)
    as (Hcount & Hsums & _ & Hres & Hslots & Hnone & Hkeys).
  pose proof (video_loop_progress k _ cb _ _ st0 st Hloop) as (Hproc & Hoff & Hon).
  pose proof (video_loop_spec k _ cb self _ _ st0 st Hcfg Hloop) as (_ & _ & Hdet & _).
  subst st0. cbn [loop_self loop_processed_frames loop_detected loop_progress] in *.
  cbn [frame_count student_summaries detection_results fps set_fps] in *.
  split; [exact Hcount|]. split; [exact Hsums|]. split; [exact Hres|].
  split; [exact Hslots|]. split; [exact Hnone|]. split; [exact Hkeys|].
  split; [exact Hoff|].
  intros ->. rewrite (Hon eq_refl) by lia.
  rewrite Hproc, Hdet, app_nil_l, length_fmap. simpl length.
  change (0 `div` 10) with 0. rewrite Z.add_0_l, Z.sub_0_r. reflexivity.
Qed.

(** ** Records and timelines of a run *)

Lemma StronglySorted_omap {A B C} (R : relation C) (f : A → C) (g : B → C)
    (h : A → option B) (l : list A) :
  (∀ x y, h x = Some y → g y = f x) →
  StronglySorted R (f <$> l) → StronglySorted R (g <$> omap h l).
Proof.
  intros Hgf. induction l as [|x l IH]; intros Hsorted; [constructor|].
  rewrite fmap_cons in Hsorted. apply StronglySorted_cons in Hsorted as [Hall Hrest].
  change (omap h (x :: l)) with (match h x with Some y => y :: omap h l | None => omap h l end).
  destruct (h x) as [y|] eqn:Hy; [|by apply IH].
  rewrite fmap_cons. constructor; [by apply IH|].
  rewrite (Hgf x y Hy). apply Forall_forall. intros c Hc.
  apply list_elem_of_fmap in Hc as (b & -> & Hb).
  apply list_elem_of_omap in Hb as (a & Ha & Hab).
  rewrite (Hgf a b Hab). rewrite Forall_forall in Hall.
  apply Hall, list_elem_of_fmap. by exists a.
Qed.

Lemma slot_entry_Some fps i f e :
  slot_entry fps i f = Some e ↔
  ∃ p, f.2 !! i = Some p ∧ e = track_entry f.1 (timestamp_of fps f.1) p.
Proof.
  unfold slot_entry. destruct (f.2 !! i) as [p|]; simpl.
  - split; [intros [= <-]; eauto|]. by intros (q & [= <-] & ->).
  - split; [discriminate|]. by intros (q & [=] & _).
Qed.

Lemma slot_entry_is_Some fps i f : is_Some (slot_entry fps i f) ↔ (i < length f.2)%nat.
Proof.
  unfold slot_entry. rewrite fmap_is_Some. apply lookup_lt_is_Some.
Qed.

(** X7: a completed call of [process_video] appends to
    [detection_results], after whatever was there, one record for each
    sampled frame on which detection returned at least one prediction and
    nothing else: the new records come in strictly increasing frame order,
    their frame numbers are multiples of the stride inside the video, each
    holds the non-empty result of detection on its frame and the timestamp
    frame / fps. *)
Theorem process_video_records self cap output_path k cb run :
  process_video self (Some cap) output_path k cb = Ok run →
  ∃ new,
    detection_results (run_self run) = detection_results self ++ new ∧
    length new =
      length (filter (λ p, detects_something self p = true)
                (sampled_frames k 0 (video_frames cap))) ∧
    StronglySorted Z.lt (rec_frame <$> new) ∧
    Forall (λ r,
        0 ≤ rec_frame r < Z.of_nat (length (video_frames cap)) ∧
        rec_frame r mod k = 0 ∧
        rec_timestamp r = PrimFloat.div (float_of_Z (rec_frame r)) (video_fps cap) ∧
        has_predictions (rec_detections r) = true ∧
        ∃ env, video_frames cap !! Z.to_nat (rec_frame r) = Some env ∧
               detect_objects self env = Ok (rec_detections r))
      new.
Proof.
  intros Hrun. apply process_video_state in Hrun as (_ & _ & Hres & _).
  destruct (analyzed_frames_spec self k (video_frames cap) 0) as [Hsorted Hall].
  eexists. split; [exact Hres|]. split; [|split].
  - by rewrite length_fmap, analyzed_frames_length.
  - rewrite <- list_fmap_compose. exact Hsorted.
  - apply Forall_fmap. eapply Forall_impl; [exact Hall|]. simpl.
    intros [n ps] (Hb & Hm & Hne & env & Hlook & Hdet). simpl in *.
    split; [lia|]. split; [exact Hm|]. split; [reflexivity|].
    split; [by destruct ps|].
    exists env. rewrite Z.sub_0_r in Hlook. done.
Qed.

Lemma process_video_records_witness :
  ∃ new,
    process_video (init NotLoaded) (Some Scenario.vga_video) None 5 false
      = Ok Scenario.vga_run ∧
    detection_results (run_self Scenario.vga_run) = [] ++ new ∧
    length new = 2%nat.
Proof.
  assert (Hrun : process_video (init NotLoaded) (Some Scenario.vga_video) None 5 false
                 = Ok Scenario.vga_run) by (vm_compute; reflexivity).
  destruct (process_video_records _ _ _ _ _ _ Hrun) as (new & Hres & Hlen & _).
  exists new. split; [exact Hrun|]. split; [exact Hres|].
  rewrite Hlen. vm_compute. reflexivity.
Defined.

Lemma slot_timeline_fresh o i : slot_timeline (init o) i = [].
Proof. unfold slot_timeline. by destruct o. Qed.

(** X8: after a completed call of [process_video] on a fresh analyzer,
    tracks and records agree.  The timeline of every slot has strictly
    increasing frame numbers; each of its entries is built from the
    detection at the position of the slot in one stored record, with that
    record's frame and timestamp; slot [i] has one entry for each record
    with more than [i] detections, so slot 0 has as many entries as there
    are records and no slot has more. *)
Theorem process_video_timelines o cap output_path k cb run :
  process_video (init o) (Some cap) output_path k cb = Ok run →
  ∀ i,
    StronglySorted Z.lt (track_frame <$> slot_timeline (run_self run) i) ∧
    (∀ e, e ∈ slot_timeline (run_self run) i →
       ∃ r ps p, r ∈ detection_results (run_self run) ∧
         rec_detections r = Some ps ∧ ps !! i = Some p ∧
         e = track_entry (rec_frame r) (rec_timestamp r) p) ∧
    length (slot_timeline (run_self run) i) =
      length (filter (λ r, (i < length (default [] (rec_detections r)))%nat)
                (detection_results (run_self run))) ∧
    (length (slot_timeline (run_self run) i)
     ≤ length (slot_timeline (run_self run) 0))%nat ∧
    length (slot_timeline (run_self run) 0) = length (detection_results (run_self run)).
Proof.
  intros Hrun i. apply process_video_state in Hrun as (_ & _ & Hres & Hslots & _).
  assert (Hfresh : detection_results (init o) = []) by (by destruct o).
  rewrite Hfresh, app_nil_l in Hres.
  destruct (analyzed_frames_spec (init o) k (video_frames cap) 0) as [Hsorted Hall].
  set (A := analyzed_frames (init o) k 0 (video_frames cap)) in *.
  assert (Hlen : ∀ j, length (slot_timeline (run_self run) j) =
                      length (filter (λ f, (j < length f.2)%nat) A)).
  { intros j. rewrite Hslots, slot_timeline_fresh, app_nil_l, length_omap_filter.
    apply length_filter_iff. intros f. apply slot_entry_is_Some. }
  assert (Hzero : length (filter (λ f : Z * list prediction, (0 < length f.2)%nat) A)
                  = length A).
  { apply length_filter_all. eapply Forall_impl; [exact Hall|]. simpl.
    intros [n ps] (_ & _ & Hne & _). destruct ps; [done|simpl; lia]. }
  split; [|split; [|split; [|split]]].
  - rewrite Hslots, slot_timeline_fresh, app_nil_l.
    apply (StronglySorted_omap Z.lt fst); [|exact Hsorted].
    intros f e He. apply slot_entry_Some in He as (p & _ & ->). reflexivity.
  - intros e He. rewrite Hslots, slot_timeline_fresh, app_nil_l in He.
    apply list_elem_of_omap in He as (f & Hf & He).
    apply slot_entry_Some in He as (p & Hp & ->).
    exists (record_of (Flt (video_fps cap)) f), f.2, p.
    split; [rewrite Hres; apply list_elem_of_fmap; by exists f|]. done.
  - rewrite Hlen, Hres.
    rewrite (filter_fmap_length (record_of (Flt (video_fps cap)))
               (λ r, (i < length (default [] (rec_detections r)))%nat)).
    apply length_filter_iff. intros f. reflexivity.
  - rewrite (Hlen i), (Hlen 0%nat), Hzero. apply length_filter.
  - by rewrite (Hlen 0%nat), Hzero, Hres, length_fmap.
Qed.

Lemma process_video_timelines_witness :
  process_video (init NotLoaded) (Some Scenario.vga_video) None 5 false
    = Ok Scenario.vga_run ∧
  length (slot_timeline (run_self Scenario.vga_run) 0) = 2%nat ∧
  StronglySorted Z.lt (track_frame <$> slot_timeline (run_self Scenario.vga_run) 1).
Proof.
  assert (Hrun : process_video (init NotLoaded) (Some Scenario.vga_video) None 5 false
                 = Ok Scenario.vga_run) by (vm_compute; reflexivity).
  split; [exact Hrun|].
  split.
  - destruct (process_video_timelines _ _ _ _ _ _ Hrun 0%nat) as (_ & _ & _ & _ & ->).
    vm_compute. reflexivity.
  - apply (process_video_timelines _ _ _ _ _ _ Hrun 1%nat).
Defined.

(** ** How many students a run tracks *)

(** A dictionary whose keys are the slot names of the positions below [M]
    has [M] entries. *)
Lemma size_student_keys {V} (m : gmap string V) (M : nat) :
  (∀ key, is_Some (m !! key) ↔ ∃ i : nat, (i < M)%nat ∧ key = student_id i) →
  size m = M.
Proof.
  intros Hkeys. rewrite <- (size_dom (D := gset string)).
  assert (Hdom : dom m = list_to_set (student_id <$> seq 0 M)).
  { apply set_eq. intros key.
    rewrite elem_of_dom, elem_of_list_to_set, list_elem_of_fmap, Hkeys.
    split; intros (i & H1 & H2).
    - exists i. split; [done|]. apply elem_of_seq. lia.
    - exists i. apply elem_of_seq in H2. split; [lia|done]. }
  rewrite Hdom, size_list_to_set.
  - by rewrite length_fmap, length_seq.
  - apply NoDup_fmap_2; [apply _|apply NoDup_seq].
Qed.

Lemma max_detections_bound (A : list (Z * list prediction)) (i : nat) :
  (i < max_list ((λ f, length f.2) <$> A))%nat ↔ ∃ f, f ∈ A ∧ (i < length f.2)%nat.
Proof.
  pose proof (max_list_length_bound A.*2 i) as Hbound.
  rewrite <- list_fmap_compose in Hbound.
  rewrite Hbound. split.
  - intros (ps & Hps & Hlt). apply list_elem_of_fmap in Hps as (f & -> & Hf). eauto.
  - intros (f & Hf & Hlt). exists f.2. split; [|done].
    apply list_elem_of_fmap. eauto.
Qed.

Lemma omap_nil_helper {A B} (h : A → option B) (l : list A) :
  omap h l = [] → Forall (λ x, h x = None) l.
Proof.
  induction l as [|x l IH]; [constructor|].
  change (omap h (x :: l)) with (match h x with Some y => y :: omap h l | None => omap h l end).
  destruct (h x) eqn:Hx; [discriminate|]. intros Hnil. constructor; [exact Hx|by apply IH].
Qed.

Lemma not_all_short (A : list (Z * list prediction)) (i : nat) :
  ¬ Forall (λ f, (length f.2 ≤ i)%nat) A ↔ ∃ f, f ∈ A ∧ (i < length f.2)%nat.
Proof.
  induction A as [|x A IH].
  - split; [intros Hn; destruct Hn; constructor|].
    intros (f & Hf & _). by apply elem_of_nil in Hf.
  - rewrite Forall_cons. split.
    + intros Hn. destruct (decide (length x.2 ≤ i)%nat) as [Hle|Hgt].
      * destruct (proj1 IH) as (f & Hf & Hlt); [tauto|].
        exists f. split; [by right|exact Hlt].
      * exists x. split; [by left|lia].
    + intros (f & Hf & Hlt) [Hx Hall]. apply elem_of_cons in Hf as [->|Hf]; [lia|].
      apply (proj2 IH); eauto.
Qed.

(** After a run on a fresh analyzer the dictionary of tracks holds the
    slots of the positions below the largest number of detections on an
    analyzed frame, each with a non-empty timeline, and nothing else. *)
Lemma process_video_slots o cap output_path k cb run :
  process_video (init o) (Some cap) output_path k cb = Ok run →
  let A := analyzed_frames (init o) k 0 (video_frames cap) in
  (∀ key, is_Some (student_tracks (run_self run) !! key) ↔
          ∃ i : nat, (i < max_list ((λ f, length f.2) <$> A))%nat ∧ key = student_id i) ∧
  (∀ key l, student_tracks (run_self run) !! key = Some l → l ≠ []).
Proof.
  intros Hrun A. apply process_video_state in Hrun as (_ & _ & _ & Hslots & Hnone & Hkeys & _).
  fold A in Hslots, Hnone, Hkeys.
  assert (Hempty : ∀ key, student_tracks (init o) !! key = None)
    by (intros key; by destruct o).
  assert (Hslot : ∀ i : nat,
            is_Some (student_tracks (run_self run) !! student_id i) ↔
            (i < max_list ((λ f, length f.2) <$> A))%nat).
  { intros i. rewrite max_detections_bound, <- not_eq_None_Some, Hnone.
    rewrite <- (not_all_short A i).
    pose proof (Hempty (student_id i)). tauto. }
  split.
  - intros key. split.
    + intros Hsome.
      destruct (decide (key ∈ student_id <$>
                          seq 0 (max_list ((λ f, length f.2) <$> A)))) as [Hin|Hout].
      * apply list_elem_of_fmap in Hin as (i & -> & Hi). apply elem_of_seq in Hi.
        exists i. split; [lia|done].
      * rewrite Hkeys, Hempty in Hsome; [by destruct Hsome|].
        intros f i Hf Hi ->. apply Hout, list_elem_of_fmap. exists i.
        split; [done|]. apply elem_of_seq. split; [lia|]. simpl.
        apply max_detections_bound. eauto.
    + intros (i & Hi & ->). by apply Hslot.
  - intros key l Hl Hnil. subst l.
    assert (Hsome : is_Some (student_tracks (run_self run) !! key)) by (by eexists).
    destruct (decide (key ∈ student_id <$>
                        seq 0 (max_list ((λ f, length f.2) <$> A)))) as [Hin|Hout].
    + apply list_elem_of_fmap in Hin as (i & -> & Hi). apply elem_of_seq in Hi.
      assert (Hi' : (i < max_list ((λ f, length f.2) <$> A))%nat) by lia.
      apply max_detections_bound in Hi' as (f & Hf & Hlt).
      pose proof (Hslots i) as Htl. unfold slot_timeline in Htl at 1.
      rewrite Hl, slot_timeline_fresh in Htl. simpl in Htl.
      symmetry in Htl. apply omap_nil_helper in Htl.
      rewrite Forall_forall in Htl. specialize (Htl f Hf).
      apply (proj2 (slot_entry_is_Some (Flt (video_fps cap)) i f)) in Hlt.
      rewrite Htl in Hlt. by destruct Hlt.
    + rewrite Hkeys, Hempty in Hsome; [by destruct Hsome|].
      intros f i Hf Hi ->. apply Hout, list_elem_of_fmap. exists i.
      split; [done|]. apply elem_of_seq. split; [lia|]. simpl.
      apply max_detections_bound. eauto.
Qed.

(** X9: in the summary of a completed run on a fresh analyzer,
    students_tracked is the largest number of detections in a stored
    record, hence at least 1; the students analyzed are exactly the slots
    "student_0" up to that number, and every slot the analyzer holds is one
    of them. *)
Theorem students_tracked_is_max o cap output_path k cb run stats :
  process_video (init o) (Some cap) output_path k cb = Ok run →
  run_summary run = Some (VideoSummary stats) →
  students_tracked stats =
    max_list ((λ r, length (default [] (rec_detections r)))
                <$> detection_results (run_self run)) ∧
  (1 ≤ students_tracked stats)%nat ∧
  students_tracked stats = size (student_tracks (run_self run)) ∧
  (∀ key, is_Some (student_analysis stats !! key) ↔
          ∃ i : nat, (i < students_tracked stats)%nat ∧ key = student_id i).
Proof.
  intros Hrun Hsum.
  pose proof (process_video_slots _ _ _ _ _ _ Hrun) as [Hkeys Hnonempty].
  pose proof (process_video_state _ _ _ _ _ _ Hrun) as (_ & _ & Hres & _).
  apply process_video_spec in Hrun as (_ & _ & _ & Hsummary & _).
  rewrite Hsummary in Hsum. injection Hsum as Hsum.
  apply video_summary_stats in Hsum as (Hne & Hanalysis & Htracked & _).
  assert (Hfresh : detection_results (init o) = []) by (by destruct o).
  rewrite Hfresh, app_nil_l in Hres.
  set (A := analyzed_frames (init o) k 0 (video_frames cap)) in *.
  assert (Hall : filter nonempty_slot (student_tracks (run_self run))
                 = student_tracks (run_self run)).
  { apply map_filter_id. intros key l Hl. by apply (Hnonempty key l). }
  rewrite Hall in Htracked, Hanalysis.
  assert (Hsize : size (student_tracks (run_self run))
                  = max_list ((λ f, length f.2) <$> A))
    by (by apply size_student_keys).
  assert (Hmax : max_list ((λ r, length (default [] (rec_detections r)))
                             <$> detection_results (run_self run))
                 = max_list ((λ f, length f.2) <$> A)).
  { rewrite Hres, <- list_fmap_compose. reflexivity. }
  split; [congruence|]. split; [|split; [exact Htracked|]].
  - rewrite Htracked, Hsize.
    destruct A as [|f A'] eqn:HA; [by rewrite Hres in Hne|].
    destruct (analyzed_frames_spec (init o) k (video_frames cap) 0) as [_ Hspec].
    fold A in Hspec. rewrite HA in Hspec. apply Forall_cons in Hspec as [(_ & _ & Hf & _) _].
    assert (0 < max_list ((λ f, length f.2) <$> f :: A'))%nat; [|lia].
    apply max_detections_bound. exists f. split; [by left|].
    destruct f.2; [done|simpl; lia].
  - intros key. rewrite Hanalysis, lookup_fmap, fmap_is_Some, Htracked, Hsize.
    apply Hkeys.
Qed.

Lemma students_tracked_is_max_witness :
  process_video (init NotLoaded) (Some Scenario.vga_video) None 5 false
    = Ok Scenario.vga_run ∧
  run_summary Scenario.vga_run = Some (VideoSummary Scenario.vga_stats) ∧
  students_tracked Scenario.vga_stats = size (student_tracks (run_self Scenario.vga_run)).
Proof.
  assert (Hrun : process_video (init NotLoaded) (Some Scenario.vga_video) None 5 false
                 = Ok Scenario.vga_run) by (vm_compute; reflexivity).
  assert (Hsum : run_summary Scenario.vga_run = Some (VideoSummary Scenario.vga_stats))
    by (vm_compute; reflexivity).
  split; [exact Hrun|]. split; [exact Hsum|].
  apply (students_tracked_is_max NotLoaded Scenario.vga_video None 5 false _ _ Hrun Hsum).
Defined.

(** ** Runs without detections, progress, errors *)

(** X10: a completed run on a fresh analyzer returns the "No detection
    results available" value in place of a summary exactly when detection
    found nothing on every sampled frame (in particular for a source
    without frames); the analyzer then holds no record and no track. *)
Theorem process_video_no_detections o cap output_path k cb run :
  process_video (init o) (Some cap) output_path k cb = Ok run →
  (run_summary run = Some (VideoError "No detection results available") ↔
   Forall (λ p, detects_something (init o) p = false)
     (sampled_frames k 0 (video_frames cap))) ∧
  (run_summary run = Some (VideoError "No detection results available") →
   detection_results (run_self run) = [] ∧ student_tracks (run_self run) = ∅) ∧
  (∀ msg, run_summary run = Some (VideoError msg) →
          msg = "No detection results available").
Proof.
  intros Hrun.
  pose proof (process_video_state _ _ _ _ _ _ Hrun) as (_ & _ & Hres & _).
  pose proof (process_video_slots _ _ _ _ _ _ Hrun) as [Hkeys _].
  apply process_video_spec in Hrun as (_ & _ & _ & Hsummary & _).
  assert (Hfresh : detection_results (init o) = []) by (by destruct o).
  rewrite Hfresh, app_nil_l in Hres.
  set (A := analyzed_frames (init o) k 0 (video_frames cap)) in *.
  assert (Hnone : A = [] ↔
            Forall (λ p, detects_something (init o) p = false)
              (sampled_frames k 0 (video_frames cap))).
  { rewrite <- length_zero_iff_nil. unfold A.
    rewrite analyzed_frames_length, length_filter_none.
    apply Forall_iff. intros p. by destruct (detects_something (init o) p). }
  assert (Herr : run_summary run = Some (VideoError "No detection results available") ↔
                 A = []).
  { rewrite Hsummary. unfold generate_video_summary. rewrite Hres.
    destruct A; simpl; split; (done || discriminate). }
  split; [by rewrite Herr|]. split.
  - intros HA%Herr. rewrite Hres, HA. split; [reflexivity|].
    apply map_empty. intros key. apply eq_None_not_Some. rewrite Hkeys, HA. simpl.
    intros (i & Hi & _). lia.
  - rewrite Hsummary. unfold generate_video_summary.
    destruct (detection_results (run_self run)); intros msg [= <-]. reflexivity.
Qed.

Lemma process_video_no_detections_witness :
  ∃ run,
    process_video (init (LoadedYolov8 None)) (Some Scenario2.empty_video) None 1 false
      = Ok run ∧
    run_summary run = Some (VideoError "No detection results available") ∧
    student_tracks (run_self run) = ∅.
Proof.
  destruct (process_video (init (LoadedYolov8 None)) (Some Scenario2.empty_video) None 1 false)
    as [run|e] eqn:Hrun; [|vm_compute in Hrun; discriminate].
  exists run. split; [reflexivity|].
  destruct (process_video_no_detections _ _ _ _ _ _ Hrun) as (Hiff & Hempty & _).
  assert (Herr : run_summary run = Some (VideoError "No detection results available")).
  { apply Hiff. apply Forall_forall. intros [i env] Hp.
    apply list_elem_of_filter in Hp as [_ Hp]. unfold numbered in Hp.
    apply elem_of_zip_r in Hp. apply elem_of_replicate in Hp as [-> _].
    vm_compute. reflexivity. }
  split; [exact Herr|]. by apply Hempty.
Defined.

(** X11: the progress callback is called once each time the number of
    sampled frames reaches a multiple of ten, so a completed run calls it
    floor(s / 10) times for [s] sampled frames; without a callback nothing
    is reported. *)
Theorem progress_callback_cadence self cap output_path k cb run :
  process_video self (Some cap) output_path k cb = Ok run →
  (cb = false → run_progress run = []) ∧
  (cb = true →
     Z.of_nat (length (run_progress run)) = Z.of_nat (length (run_detected run)) / 10).
Proof.
  intros Hrun. apply process_video_state in Hrun.
  split; apply Hrun.
Qed.

Lemma progress_callback_cadence_witness :
  ∃ run,
    process_video (init NotLoaded) (Some Scenario2.long_video) None 1 true = Ok run ∧
    length (run_detected run) = 25%nat ∧
    Z.of_nat (length (run_progress run)) = 2.
Proof.
  destruct (process_video (init NotLoaded) (Some Scenario2.long_video) None 1 true)
    as [run|e] eqn:Hrun; [|vm_compute in Hrun; discriminate].
  exists run. split; [reflexivity|].
  destruct (progress_callback_cadence _ _ _ _ _ _ Hrun) as [_ Hon].
  assert (Hlen : length (run_detected run) = 25%nat).
  { vm_compute in Hrun. injection Hrun as <-. reflexivity. }
  split; [exact Hlen|]. rewrite (Hon eq_refl), Hlen. reflexivity.
Defined.

(** X12: [process_video] raises ZeroDivisionError, before any frame is
    read, when the source reports 0 frames per second; and with stride 0 it
    raises ZeroDivisionError on every source that delivers a frame, whether
    or not an output file is to be written. *)
Theorem process_video_zero_division self cap output_path k cb :
  is_zero (Flt (video_fps cap)) = true ∨ (k = 0 ∧ video_frames cap ≠ []) →
  process_video self (Some cap) output_path k cb = Raise ZeroDivisionError.
Proof.
  intros Hcase. unfold process_video.
  destruct (is_zero (Flt (video_fps cap))) eqn:Hfps.
  { rewrite (truediv_raises _ (fps (set_fps self (Flt (video_fps cap))))) by exact Hfps.
    reflexivity. }
  destruct Hcase as [?|[-> Hframes]]; [discriminate|].
  rewrite (truediv_ok _ (fps (set_fps self (Flt (video_fps cap))))) by exact Hfps. step.
  destruct (writes_output output_path) eqn:Hout.
  { rewrite (truediv_raises _ (Int 0)) by reflexivity. reflexivity. }
  step. destruct (video_frames cap) as [|env rest]; [done|]. reflexivity.
Qed.

Lemma process_video_zero_division_witness :
  process_video (init NotLoaded) (Some Scenario.no_fps_video) None 5 false
    = Raise ZeroDivisionError ∧
  process_video (init NotLoaded) (Some Scenario.vga_video) None 0 false
    = Raise ZeroDivisionError ∧
  process_video (init NotLoaded) (Some Scenario.vga_video) (Some "out.mp4") 0 false
    = Raise ZeroDivisionError.
Proof.
  split; [|split].
  - apply process_video_zero_division. left. reflexivity.
  - apply process_video_zero_division. right. split; [reflexivity|discriminate].
  - apply process_video_zero_division. right. split; [reflexivity|discriminate].
Defined.

(** ** Runs after runs *)

(** X13: on an analyzer that has been reset, a video run is the run of a
    fresh analyzer of the same configuration: the same summary, the same
    calls and the same analyzer afterwards.  Processing a single image
    does not depend on earlier runs at all. *)
Theorem process_video_after_reset o self cap output_path k cb :
  same_config self (init o) →
  process_video (reset_analysis self) (Some cap) output_path k cb
    = process_video (init o) (Some cap) output_path k cb ∧
  ∀ env, process_single_image self env output_path
           = process_single_image (init o) env output_path.
Proof.
  intros Hcfg. split.
  - assert (Hset : set_fps (reset_analysis self) (Flt (video_fps cap))
                   = set_fps (init o) (Flt (video_fps cap)))
      by (by rewrite (reset_analysis_eq o self Hcfg)).
    unfold process_video. cbv zeta. rewrite Hset. reflexivity.
  - intros env. unfold process_single_image.
    by rewrite (detect_objects_same_config self (init o)).
Qed.

Lemma process_video_after_reset_witness :
  same_config (run_self Scenario.vga_run) (init NotLoaded) ∧
  process_video (reset_analysis (run_self Scenario.vga_run)) (Some Scenario.vga_video)
    None 5 false = Ok Scenario.vga_run.
Proof.
  assert (Hcfg : same_config (run_self Scenario.vga_run) (init NotLoaded))
    by (repeat split).
  split; [exact Hcfg|].
  rewrite (proj1 (process_video_after_reset NotLoaded _ Scenario.vga_video None 5 false Hcfg)).
  vm_compute. reflexivity.
Defined.

(** X14: [process_video] does not reset the analyzer.  On an analyzer
    that already holds records and tracks, the summary counts the earlier
    records too (total_frames_analyzed is their number plus the number of
    sampled frames of this run with a detection), and every earlier
    timeline is kept as a prefix of the new one. *)
Theorem process_video_accumulates self cap output_path k cb run stats :
  process_video self (Some cap) output_path k cb = Ok run →
  run_summary run = Some (VideoSummary stats) →
  total_frames_analyzed stats =
    (length (detection_results self)
     + length (filter (λ p, detects_something self p = true)
                 (sampled_frames k 0 (video_frames cap))))%nat ∧
  detection_results self `prefix_of` detection_results (run_self run) ∧
  (∀ i, slot_timeline self i `prefix_of` slot_timeline (run_self run) i).
Proof.
  intros Hrun Hsum.
  pose proof (process_video_state _ _ _ _ _ _ Hrun) as (_ & _ & Hres & Hslots & _).
  apply process_video_spec in Hrun as (_ & _ & _ & Hsummary & _ & Hlen).
  rewrite Hsummary in Hsum. injection Hsum as Hsum.
  apply video_summary_stats in Hsum as (_ & _ & _ & Htotal & _).
  split; [by rewrite Htotal|]. split.
  - rewrite Hres. by apply prefix_app_r.
  - intros i. rewrite Hslots. by apply prefix_app_r.
Qed.

Lemma process_video_accumulates_witness :
  process_video (run_self Scenario.vga_run) (Some Scenario.vga_video) None 5 false
    = Ok Scenario2.second_run ∧
  run_summary Scenario2.second_run = Some (VideoSummary Scenario2.second_stats) ∧
  total_frames_analyzed Scenario2.second_stats = 4%nat.
Proof.
  assert (Hrun : process_video (run_self Scenario.vga_run) (Some Scenario.vga_video)
                   None 5 false = Ok Scenario2.second_run) by (vm_compute; reflexivity).
  assert (Hsum : run_summary Scenario2.second_run
                 = Some (VideoSummary Scenario2.second_stats)) by (vm_compute; reflexivity).
  split; [exact Hrun|]. split; [exact Hsum|].
  destruct (process_video_accumulates _ _ _ _ _ _ _ Hrun Hsum) as (-> & _).
  vm_compute. reflexivity.
Defined.

(** X15: no processing step writes [frame_count] or [student_summaries]:
    a completed video run leaves both, and the configuration, as they were,
    so on an analyzer built by [__init__] the frame counter is still 0 and
    the summaries are still empty after any number of runs.  Only [fps] is
    replaced, by the frame rate of the source. *)
Theorem process_video_untouched self cap output_path k cb run :
  process_video self (Some cap) output_path k cb = Ok run →
  frame_count (run_self run) = frame_count self ∧
  student_summaries (run_self run) = student_summaries self ∧
  same_config self (run_self run) ∧
  fps (run_self run) = Flt (video_fps cap).
Proof.
  intros Hrun.
  pose proof (process_video_state _ _ _ _ _ _ Hrun) as (Hcount & Hsums & _).
  apply process_video_spec in Hrun as (Hcfg & Hfps & _).
  done.
Qed.

Lemma process_video_untouched_witness :
  process_video (run_self Scenario.vga_run) (Some Scenario.vga_video) None 5 false
    = Ok Scenario2.second_run ∧
  frame_count (run_self Scenario2.second_run) = 0 ∧
  student_summaries (run_self Scenario2.second_run) = ∅.
Proof.
  assert (Hrun : process_video (run_self Scenario.vga_run) (Some Scenario.vga_video)
                   None 5 false = Ok Scenario2.second_run) by (vm_compute; reflexivity).
  split; [exact Hrun|].
  destruct (process_video_untouched _ _ _ _ _ _ Hrun) as (-> & -> & _).
  split; reflexivity.
Defined.

(** ** Charts and analytics *)

Lemma classification_two_valued (tracks : list track) :
  classification (analyze_student tracks) = "Attentive" ∨
  classification (analyze_student tracks) = "Distracted".
Proof. rewrite classification_cases. destruct (gtb _ _); [by left|by right]. Qed.

Lemma size_filter_complement {V} (P : string * V → Prop) `{!∀ x, Decision (P x)}
    (m : gmap string V) :
  (size (filter P m) + size (filter (λ x, ¬ P x) m) = size m)%nat.
Proof.
  rewrite <- map_size_disj_union by apply map_disjoint_filter_complement.
  by rewrite map_filter_union_complement.
Qed.

(** Every student of a video summary is the analysis of a non-empty
    timeline. *)
Lemma student_analysis_reports self stats key r :
  generate_video_summary self = VideoSummary stats →
  student_analysis stats !! key = Some r →
  ∃ tracks, tracks ≠ [] ∧ student_tracks self !! key = Some tracks ∧
            r = analyze_student tracks.
Proof.
  intros Hsum Hr. apply video_summary_stats in Hsum as (_ & Hanalysis & _).
  rewrite Hanalysis, lookup_fmap, fmap_Some in Hr.
  destruct Hr as (tracks & Htracks & ->).
  apply map_lookup_filter_Some in Htracks as [Htracks Hne].
  by exists tracks.
Qed.

(** In a video summary the students not labelled "Attentive" are those
    labelled "Distracted". *)
Lemma count_distracted_students self stats :
  generate_video_summary self = VideoSummary stats →
  (count_attentive_students (student_analysis stats)
   + size (filter (λ kv, classification kv.2 = "Distracted") (student_analysis stats))
   = size (student_analysis stats))%nat.
Proof.
  intros Hsum. unfold count_attentive_students.
  rewrite <- (size_filter_complement attentive_student (student_analysis stats)).
  f_equal. f_equal. apply map_filter_strong_ext_1. intros key r. unfold attentive_student.
  split; intros [Hcls Hr]; (split; [|exact Hr]); simpl in *;
    destruct (student_analysis_reports self stats key r Hsum Hr) as (tracks & _ & _ & ->);
    destruct (classification_two_valued tracks) as [Hc|Hc]; rewrite Hc in *; done.
Qed.

(** X16: for the video summary of an analyzer, the engagement pie of
    [generate_chart_data] holds the number of students labelled
    "Attentive" and the number labelled "Distracted"; the two add up to
    students_tracked and none is negative.  A video summary gets no
    activity bar chart, having no top-level activity breakdown. *)
Theorem chart_data_of_video self stats :
  generate_video_summary self = VideoSummary stats →
  ∃ attentive distracted,
    engagement_pie (generate_chart_data (VideoDict stats) "video")
      = Some (attentive, distracted) ∧
    attentive = Z.of_nat (size (filter (λ kv, classification kv.2 = "Attentive")
                                  (student_analysis stats))) ∧
    distracted = Z.of_nat (size (filter (λ kv, classification kv.2 = "Distracted")
                                   (student_analysis stats))) ∧
    attentive + distracted = Z.of_nat (students_tracked stats) ∧
    activity_bar (generate_chart_data (VideoDict stats) "video") = None.
Proof.
  intros Hsum. pose proof (count_distracted_students self stats Hsum) as Hcount.
  pose proof (video_summary_stats _ _ Hsum) as (_ & Hanalysis & Htracked & _).
  assert (Hsize : size (student_analysis stats) = students_tracked stats).
  { by rewrite Hanalysis, map_size_fmap, Htracked. }
  eexists _, _. split; [reflexivity|].
  split; [reflexivity|]. split; [|split; [|reflexivity]].
  - unfold count_attentive_students in *. lia.
  - unfold count_attentive_students in *. lia.
Qed.

Lemma chart_data_of_video_witness :
  generate_video_summary Scenario.tie_analyzer = VideoSummary Scenario.tie_stats ∧
  engagement_pie (generate_chart_data (VideoDict Scenario.tie_stats) "video") = Some (0, 1).
Proof.
  assert (Hsum : generate_video_summary Scenario.tie_analyzer
                 = VideoSummary Scenario.tie_stats) by (vm_compute; reflexivity).
  split; [exact Hsum|].
  destruct (chart_data_of_video _ _ Hsum) as (a & d & -> & -> & -> & _).
  vm_compute. reflexivity.
Defined.






(** ** Class ids and engagement groups *)

Lemma default_class_names_lookup (cls : Z) :
  default_class_names !! cls =
    if decide (cls = 0) then Some "listening"
    else if decide (cls = 1) then Some "reading"
    else if decide (cls = 2) then Some "sleeping"
    else if decide (cls = 3) then Some "student"
    else if decide (cls = 4) then Some "turn"
    else if decide (cls = 5) then Some "using_mobile"
    else if decide (cls = 6) then Some "writing"
    else None.
Proof.
  unfold default_class_names. cbn [list_to_map foldr uncurry fst snd].
  repeat (case_decide; [subst cls; reflexivity|rewrite lookup_insert_ne by done]).
  apply lookup_empty.
Qed.

Lemma class_label_ungrouped (cls : Z) :
  ("class_" +:+ pretty cls ∉ attentive_activities) ∧
  ("class_" +:+ pretty cls ∉ distracted_activities).
Proof.
  unfold attentive_activities, distracted_activities.
  rewrite !not_elem_of_cons. repeat split; try discriminate; apply not_elem_of_nil.
Qed.

(** With the default class table, a class id names an attentive activity
    exactly when it is 0, 1 or 6 and a distracted one exactly when it is
    2, 4 or 5. *)
Lemma class_name_groups self cls :
  class_names self = default_class_names →
  (class_name_of self cls ∈ attentive_activities ↔ cls ∈ [0; 1; 6]) ∧
  (class_name_of self cls ∈ distracted_activities ↔ cls ∈ [2; 4; 5]).
Proof.
  intros Hnames. unfold class_name_of. rewrite Hnames, default_class_names_lookup.
  destruct (class_label_ungrouped cls) as [Hatt Hdis].
  unfold attentive_activities, distracted_activities in *.
  repeat case_decide; subst; simpl;
    rewrite ?elem_of_cons, ?elem_of_nil;
    (split; split; intros Hcase; try (exfalso; tauto);
     repeat (destruct Hcase as [Hcase|Hcase]; try discriminate; try lia; try tauto);
     try tauto).
Qed.

(** X18: with a YOLOv8 backend that returns boxes and the default class
    table, detection returns one prediction per box whatever the image
    and the random draws are, and the image summary counts as attentive
    the boxes of class 0, 1 or 6 (listening, reading, writing) and as
    distracted the boxes of class 2, 4 or 5 (sleeping, turn, using_mobile);
    a box of class 3 (student) or of an unknown class is counted in the
    total only. *)
Theorem yolov8_summary_by_class self env boxes :
  model self = true →
  model_type self = "yolov8" →
  class_names self = default_class_names →
  env_yolov8 env = Ok (Some boxes) →
  ∃ predictions stats,
    detect_objects self env = Ok (Some predictions) ∧
    generate_image_summary (Some predictions) = ImageSummary stats ∧
    length predictions = length boxes ∧
    total_students stats = length boxes ∧
    attentive_students stats = length (filter (λ b, box_cls b ∈ [0; 1; 6]) boxes) ∧
    distracted_students stats = length (filter (λ b, box_cls b ∈ [2; 4; 5]) boxes).
Proof.
  intros Hmodel Htype Hnames Henv.
  exists (parse_yolov8_box self <$> boxes). eexists.
  split; [|split; [reflexivity|]].
  { unfold detect_objects. rewrite Hmodel, Htype, Henv. reflexivity. }
  cbn [total_students attentive_students distracted_students].
  rewrite length_fmap. split; [reflexivity|]. split; [reflexivity|].
  rewrite <- !list_fmap_compose, !count_in_fmap. split.
  - apply length_filter_iff. intros b. simpl. apply (class_name_groups self _ Hnames).
  - apply length_filter_iff. intros b. simpl. apply (class_name_groups self _ Hnames).
Qed.

Lemma yolov8_summary_by_class_witness :
  ∃ predictions stats,
    detect_objects (init (LoadedYolov8 None))
      (Scenario.seen_by_yolov8 [Scenario.box_of_class 0; Scenario.box_of_class 3;
                                Scenario.box_of_class 5; Scenario.box_of_class 9])
      = Ok (Some predictions) ∧
    generate_image_summary (Some predictions) = ImageSummary stats ∧
    total_students stats = 4%nat ∧
    attentive_students stats = 1%nat ∧
    distracted_students stats = 1%nat.
Proof.
  destruct (yolov8_summary_by_class (init (LoadedYolov8 None))
              (Scenario.seen_by_yolov8 [Scenario.box_of_class 0; Scenario.box_of_class 3;
                                        Scenario.box_of_class 5; Scenario.box_of_class 9])
              _ eq_refl eq_refl eq_refl eq_refl)
    as (ps & stats & Hdet & Hsum & _ & Htotal & Hatt & Hdis).
  exists ps, stats. split; [exact Hdet|]. split; [exact Hsum|].
  rewrite Htotal, Hatt, Hdis. repeat split.
Defined.

(** ** The upload filter *)

Lemma rsplit_dot_None (s : string) : rsplit_dot s = None ↔ contains_dot s = false.
Proof.
  induction s as [|c rest IH]; [done|]. simpl.
  destruct (rsplit_dot rest) as [[before after]|].
  - split; [discriminate|]. intros Hno. apply orb_false_iff in Hno as [_ Hrest].
    apply IH in Hrest. discriminate.
  - rewrite (proj1 IH eq_refl), orb_false_r. by destruct (Ascii.eqb c dot_char).
Qed.

Lemma dot_append (after : string) : "." +:+ after = String dot_char after.
Proof. reflexivity. Qed.

Lemma rsplit_dot_split (s before after : string) :
  rsplit_dot s = Some (before, after) →
  s = before +:+ "." +:+ after ∧ contains_dot after = false.
Proof.
  rewrite dot_append.
  revert before after. induction s as [|c rest IH]; intros before after; [discriminate|].
  simpl. destruct (rsplit_dot rest) as [[b a]|] eqn:Hrest.
  - intros [= <- <-]. destruct (IH b a eq_refl) as [-> Hno]. done.
  - apply rsplit_dot_None in Hrest.
    destruct (Ascii.eqb_spec c dot_char) as [->|Hne]; [|discriminate].
    intros [= <- <-]. done.
Qed.

Lemma rsplit_dot_join (before after : string) :
  contains_dot after = false →
  rsplit_dot (before +:+ "." +:+ after) = Some (before, after).
Proof.
  rewrite dot_append.
  intros Hno. induction before as [|c b IH].
  - apply rsplit_dot_None in Hno. change (rsplit_dot (String dot_char after) = Some ("", after)).
    simpl. by rewrite Hno.
  - change (rsplit_dot (String c (b +:+ String dot_char after))
            = Some (String c b, after)).
    simpl. by rewrite IH.
Qed.

(** Splitting at the last dot: the text before, a dot, and a text without
    dot after. *)
Lemma rsplit_dot_Some (s before after : string) :
  rsplit_dot s = Some (before, after) ↔
  s = before +:+ "." +:+ after ∧ contains_dot after = false.
Proof.
  split; [apply rsplit_dot_split|]. intros [-> Hno]. by apply rsplit_dot_join.
Qed.

(** X19: [allowed_file] accepts a file name of ASCII characters exactly
    when it has the form stem + "." + extension where the extension holds
    no dot and, with its letters A to Z put in lower case, is one of the
    extensions of the requested kind: the five video extensions for
    'video', the five image extensions for 'image', all ten for any other
    kind.  So a name without a dot is refused, only the text after the last
    dot counts, and what is accepted as a video or as an image is accepted
    under the default kind. *)
Theorem allowed_file_spec (filename file_type : string) :
  is_ascii filename = true →
  (allowed_file filename file_type = true ↔
   ∃ stem ext, filename = stem +:+ "." +:+ ext ∧ contains_dot ext = false ∧
               lower ext ∈ allowed_extensions file_type) ∧
  (contains_dot filename = false → allowed_file filename file_type = false) ∧
  (allowed_file filename "video" = true ∨ allowed_file filename "image" = true ↔
   allowed_file filename "all" = true).
Proof.
  intros _.
  assert (Hspec : ∀ kind, allowed_file filename kind = true ↔
            ∃ stem ext, filename = stem +:+ "." +:+ ext ∧ contains_dot ext = false ∧
                        lower ext ∈ allowed_extensions kind).
  { intros kind. unfold allowed_file.
    destruct (rsplit_dot filename) as [[before after]|] eqn:Hsplit.
    - pose proof (proj1 (rsplit_dot_Some _ _ _) Hsplit) as [Heq Hno].
      assert (Hdot : contains_dot filename = true).
      { destruct (contains_dot filename) eqn:Hc; [done|].
        apply rsplit_dot_None in Hc. congruence. }
      rewrite Hdot. simpl. rewrite bool_decide_eq_true. split.
      + intros Hin. by exists before, after.
      + intros (stem & ext & Hname & Hext & Hin).
        assert (Hagain : rsplit_dot filename = Some (stem, ext))
          by (by apply rsplit_dot_Some).
        congruence.
    - apply rsplit_dot_None in Hsplit as Hc. rewrite Hc. simpl.
      split; [discriminate|]. intros (stem & ext & Hname & Hext & _).
      assert (Hagain : rsplit_dot filename = Some (stem, ext)) by (by apply rsplit_dot_Some).
      congruence. }
  split; [apply Hspec|]. split.
  - intros Hno. unfold allowed_file. by rewrite Hno.
  - rewrite !Hspec.
    change (allowed_extensions "video") with ALLOWED_VIDEO_EXTENSIONS.
    change (allowed_extensions "image") with ALLOWED_IMAGE_EXTENSIONS.
    change (allowed_extensions "all")
      with (ALLOWED_VIDEO_EXTENSIONS ++ ALLOWED_IMAGE_EXTENSIONS).
    split.
    + intros [(stem & ext & H1 & H2 & Hin)|(stem & ext & H1 & H2 & Hin)];
        exists stem, ext; (split; [done|]; split; [done|]);
        apply elem_of_app; [by left|by right].
    + intros (stem & ext & H1 & H2 & Hin). apply elem_of_app in Hin as [Hin|Hin];
        [left|right]; by exists stem, ext.
Qed.

Lemma allowed_file_spec_witness :
  is_ascii "lecture.final.MP4" = true ∧
  allowed_file "lecture.final.MP4" "video" = true ∧
  allowed_file "lecture.final.MP4" "all" = true.
Proof.
  assert (Hascii : is_ascii "lecture.final.MP4" = true) by reflexivity.
  split; [exact Hascii|].
  destruct (allowed_file_spec "lecture.final.MP4" "video" Hascii) as (Hvideo & _ & Hall).
  assert (Hok : allowed_file "lecture.final.MP4" "video" = true).
  { apply Hvideo. exists "lecture.final", "MP4".
    split; [reflexivity|]. split; [reflexivity|].
    change (lower "MP4") with "mp4".
    change (allowed_extensions "video") with ALLOWED_VIDEO_EXTENSIONS.
    unfold ALLOWED_VIDEO_EXTENSIONS. by left. }
  split; [exact Hok|]. apply Hall. by left.
Defined.

(** A name of several dots and mixed case is judged by its last part. *)
Example allowed_file_examples :
  allowed_file "lecture.final.MP4" "video" = true ∧
  allowed_file "lecture.mp4.txt" "all" = false ∧
  allowed_file "photo.JPeG" "all" = true ∧
  allowed_file "photo.jpeg" "video" = false ∧
  allowed_file "mp4" "all" = false ∧
  allowed_file "clip." "all" = false.
Proof. repeat split; vm_compute; reflexivity. Qed.

(** ** Witnesses for the fallback and the box geometry *)

Lemma detect_objects_falls_back_witness :
  ∃ d ps,
    mock_detection (env_image (Scenario.frame_of 480 640)) d = Ok (Some ps) ∧
    detect_objects (init (LoadedYolov8 None)) (Scenario.frame_of 480 640) = Ok (Some ps).
Proof.
  destruct (detect_objects_falls_back (init (LoadedYolov8 None)) (Scenario.frame_of 480 640))
    as (d & ps & _ & Hmock & Hdet).
  - right. split; [reflexivity|]. left. split; [reflexivity|]. by eexists.
  - intros im [= <-]. simpl. lia.
  - by exists d, ps.
Defined.

Lemma mock_box_geometry_witness :
  ∃ p, mock_box 640 480 Scenario.odd_box = Ok p ∧
    ∃ x1 x2 w, pred_x1 p = Int x1 ∧ pred_x2 p = Int x2 ∧ pred_width p = Int w ∧
               x2 - x1 = w - w mod 2.
Proof.
  destruct (mock_box 640 480 Scenario.odd_box) as [p|e] eqn:Hbox;
    [|vm_compute in Hbox; discriminate].
  exists p. split; [reflexivity|].
  destruct (mock_box_geometry 640 480 Scenario.odd_box p Hbox)
    as (x & y & w & h & x1 & y1 & x2 & y2 & _ & _ & Hw & _ & Hx1 & _ & Hx2 & _ & _ & _
        & _ & _ & Hdx & _).
  by exists x1, x2, w.
Defined.
